(** * ActionPlan: the persistent entity lifecycle of watcher/objects/action_plan.py

    A shallow embedding of the [ActionPlan] versioned object: its declared
    field schema, its change-tracked attributes, and its class methods and
    methods ([get], [get_by_id], [get_by_uuid], [list], [create], [destroy],
    [save], [refresh], [soft_delete]) written as programs that issue calls
    to the storage API and to the related entities, in the order in which
    the Python code issues them. *)

From Stdlib Require Import Ascii.
From stdpp Require Import gmap strings list fin_maps pretty.

Local Open Scope string_scope.
Local Open Scope Z_scope.

(** ** Values held by fields *)

(** The two related object classes named by [object_fields]. *)
Inductive relcls := Audit | Strategy.

(** A materialized related object ([objects.Audit], [objects.Strategy]). *)
Record relobj := RelObj { rel_cls : relcls; rel_id : Z; rel_uuid : string }.

Inductive value :=
| VNone
| VInt (z : Z)
| VStr (s : string)
| VDict (d : list (string * string))
| VObj (o : relobj).

#[global] Instance relcls_eq_dec : EqDecision relcls.
Proof. solve_decision. Defined.
#[global] Instance relobj_eq_dec : EqDecision relobj.
Proof. solve_decision. Defined.
#[global] Instance value_eq_dec : EqDecision value.
Proof. solve_decision. Defined.

(** ** class State *)

Module State.
Definition RECOMMENDED : string := "RECOMMENDED".
Definition PENDING : string := "PENDING".
Definition ONGOING : string := "ONGOING".
Definition FAILED : string := "FAILED".
Definition SUCCEEDED : string := "SUCCEEDED".
Definition DELETED : string := "DELETED".
Definition CANCELLED : string := "CANCELLED".

(** The attributes of the class, in declaration order. *)
Definition values : list string :=
  [RECOMMENDED; PENDING; ONGOING; FAILED; SUCCEEDED; DELETED; CANCELLED].
End State.

(** ** The declared schema: [ActionPlan.fields] and [ActionPlan.object_fields] *)

Inductive ftype :=
| IntegerField
| UUIDField
| StringField
| FlexibleDictField
| ObjectField (c : relcls).

Record field := Field { f_type : ftype; nullable : bool }.

Definition fields : list (string * field) :=
  [ ("id", Field IntegerField false);
    ("uuid", Field UUIDField false);
    ("audit_id", Field IntegerField false);
    ("strategy_id", Field IntegerField false);
    ("first_action_id", Field IntegerField true);
    ("state", Field StringField true);
    ("global_efficacy", Field FlexibleDictField true);
    ("audit", Field (ObjectField Audit) true);
    ("strategy", Field (ObjectField Strategy) true) ].

Definition object_fields : list (string * (relcls * string)) :=
  [ ("audit", (Audit, "audit_id"));
    ("strategy", (Strategy, "strategy_id")) ].

Definition is_object_field (name : string) : bool :=
  bool_decide (name ∈ object_fields.*1).

(** [field for field in obj.fields if field not in object_fields] *)
Definition column_fields : list string :=
  filter (λ name, is_object_field name = false) fields.*1.

Fixpoint assoc {A} (name : string) (l : list (string * A)) : option A :=
  match l with
  | [] => None
  | (k, a) :: l' => if decide (k = name) then Some a else assoc name l'
  end.

(** Modelled from the spec: the coercion done by the field types of
    [watcher.objects.fields] (defined outside action_plan.py).  The type
    names of the declaration above are taken at their word: an
    IntegerField accepts an integer, a UUIDField and a StringField accept
    a string (any string: the declaration of [state] names no set of
    values), a FlexibleDictField a key/value payload, an ObjectField an
    object of the named class; None is accepted where the field is
    declared nullable. *)
Definition coerce (f : field) (v : value) : option value :=
  match v, f_type f with
  | VNone, _ => if nullable f then Some VNone else None
  | VInt z, IntegerField => Some (VInt z)
  | VStr s, UUIDField => Some (VStr s)
  | VStr s, StringField => Some (VStr s)
  | VDict d, FlexibleDictField => Some (VDict d)
  | VObj o, ObjectField c => if decide (rel_cls o = c) then Some (VObj o) else None
  | _, _ => None
  end.

(** The part of a mapping that lies on the columns. *)
Definition columns_of (values : gmap string value) : gmap string value :=
  filter (λ kv, kv.1 ∈ column_fields) values.

(** A row gives each of the named fields a value that the field accepts. *)
Definition field_accepts (db_object : gmap string value) (name : string) : bool :=
  match assoc name fields, db_object !! name with
  | Some f, Some v => bool_decide (is_Some (coerce f v))
  | _, _ => false
  end.

Definition accepts (names : list string) (db_object : gmap string value) : bool :=
  forallb (field_accepts db_object) names.

(** ** The in-memory object *)

(** An instance: the attributes that are set, and the names recorded as
    changed since the last reset. *)
Record aobj := AObj { attrs : gmap string value; changed : gset string }.

(** [cls(context)]: no attribute is set. *)
Definition new_obj : aobj := AObj ∅ ∅.

(** Modelled from the spec: [obj_get_changes] of the versioned-object base
    class (defined outside action_plan.py): the mapping field name ->
    current value for exactly the fields recorded as changed. *)
Definition obj_get_changes (o : aobj) : gmap string value :=
  filter (λ kv, kv.1 ∈ changed o) (attrs o).

(** Modelled from the spec: [obj_reset_changes] of the base class (defined
    outside action_plan.py): clears the change set and nothing else. *)
Definition obj_reset_changes (o : aobj) : aobj := AObj (attrs o) ∅.

(** Modelled from the spec: [obj_refresh] of the base class (defined
    outside action_plan.py): overlays every field of the loaded object
    onto [self] and discards the unpersisted local changes. *)
Definition obj_refresh (self loaded : aobj) : aobj :=
  AObj (attrs loaded ∪ attrs self) ∅.

(** ** Errors *)

Inductive exn :=
| InvalidIdentity (identity : value)
| NotFound
| AlreadyExists
| Invalid
| StorageFailure
| AttributeNotSet (name : string)
| MissingColumn (name : string)
| ValueError (name : string).

Inductive result (A : Type) :=
| Ok (a : A)
| Err (e : exn).
Arguments Ok {A} a.
Arguments Err {A} e.

(** ** Calls to collaborators *)

(** A row of the action plan table as the storage API returns it. *)
Abbreviation row := (gmap string value).

(** A related [Action] or [EfficacyIndicator] object, as its own [list]
    returns it; this module only passes it back to its own methods. *)
Record dep := Dep { dep_uuid : string }.

#[global] Instance dep_eq_dec : EqDecision dep.
Proof. solve_decision. Defined.

Inductive call :=
| get_action_plan_by_id (action_plan_id : value) (eager : bool)
| get_action_plan_by_uuid (uuid : value) (eager : bool)
| get_action_plan_list (limit : option Z) (marker : option value)
    (filters : option (gmap string value)) (sort_key sort_dir : option string)
    (eager : bool)
| create_action_plan (values : gmap string value)
| update_action_plan (uuid : value) (updates : gmap string value)
| destroy_action_plan (uuid : value)
| soft_delete_action_plan (uuid : value)
| Action_list (filters : gmap string value)
| Action_soft_delete (a : dep)
| EfficacyIndicator_list (filters : gmap string value)
| EfficacyIndicator_soft_delete (e : dep)
| EfficacyIndicator_destroy (e : dep)
| Related_get_by_id (c : relcls) (id : value).

#[global] Instance call_eq_dec : EqDecision call.
Proof. solve_decision. Defined.

(** What each call returns when it does not raise. *)
Definition ret_of (c : call) : Type :=
  match c with
  | get_action_plan_by_id _ _ | get_action_plan_by_uuid _ _
  | create_action_plan _ | update_action_plan _ _
  | soft_delete_action_plan _ => row
  | get_action_plan_list _ _ _ _ _ _ => list row
  | destroy_action_plan _ => unit
  | Action_list _ | EfficacyIndicator_list _ => list dep
  | Action_soft_delete _ | EfficacyIndicator_soft_delete _
  | EfficacyIndicator_destroy _ => unit
  | Related_get_by_id _ _ => relobj
  end.

(** A collaborator: answers each call from its own state, which the call
    may change, or raises. *)
Definition collaborator (store : Type) : Type :=
  ∀ c : call, store → result (ret_of c) * store.

(** ** Programs

    A method runs on its [self] object and on the collaborator's state;
    it yields a result or an exception, the object as it was left (a
    Python exception does not undo the assignments made before it), the
    collaborator's state, and the calls it issued, in order. *)

Record out (S store A : Type) := Out {
  res : result A;
  self_of : S;
  db_of : store;
  trace : list call
}.
Arguments Out {S store A} res self_of db_of trace.
Arguments res {S store A} o.
Arguments self_of {S store A} o.
Arguments db_of {S store A} o.
Arguments trace {S store A} o.

Definition M (S store A : Type) : Type := S → store → out S store A.

Section Monad.
Context {S store : Type}.

Definition ret {A} (a : A) : M S store A := λ s st, Out (Ok a) s st [].

Definition raise {A} (e : exn) : M S store A := λ s st, Out (Err e) s st [].

(** The outcome of a continuation, after the calls made before it. *)
Definition prepend {A} (t : list call) (r : out S store A) : out S store A :=
  Out (res r) (self_of r) (db_of r) (t ++ trace r).

Definition bind {A B} (m : M S store A) (f : A → M S store B) : M S store B :=
  λ s st,
    let r := m s st in
    match res r with
    | Ok a => prepend (trace r) (f a (self_of r) (db_of r))
    | Err e => Out (Err e) (self_of r) (db_of r) (trace r)
    end.

Definition get_self : M S store S := λ s st, Out (Ok s) s st [].

Definition modify (f : S → S) : M S store unit := λ s st, Out (Ok tt) (f s) st [].

(** Issuing a call: the collaborator answers, and the call is recorded. *)
Definition invoke (dbapi : collaborator store) (c : call) : M S store (ret_of c) :=
  λ s st, let '(r, st') := dbapi c st in Out r s st' [c].
End Monad.

Declare Scope prog_scope.
Delimit Scope prog_scope with prog.
Notation "x <- m ;; k" := (bind m (λ x, k))
  (at level 100, m at next level, right associativity) : prog_scope.
Notation "m ;; k" := (bind m (λ _, k))
  (at level 100, right associativity) : prog_scope.

(** [filters={"action_plan_uuid": self.uuid}], the filter both cascades
    pass to the related entities' [list]. *)
Definition by_action_plan_uuid (uuid : value) : gmap string value :=
  {[ "action_plan_uuid" := uuid ]}.

Section Core.
Context {store : Type}.
Variable dbapi : collaborator store.
(** [utils.is_int_like] and [utils.is_uuid_like] (watcher.common.utils,
    defined outside action_plan.py) are parameters of the identifier resolver. *)
Variables is_int_like is_uuid_like : value → bool.

Local Open Scope prog_scope.
Local Abbreviation do_call := (invoke dbapi).

(** [for x in xs: body(x)] *)
Fixpoint for_each {S A} (xs : list A) (body : A → M S store unit) : M S store unit :=
  match xs with
  | [] => ret tt
  | x :: xs' => body x ;; for_each xs' body
  end.

(** Modelled from the spec: reading an attribute, [self.name], of the
    versioned-object base class (defined outside action_plan.py); an
    attribute that was never set cannot be loaded. *)
Definition getattr (name : string) : M aobj store value :=
  self <- get_self ;;
  match attrs self !! name with
  | Some v => ret v
  | None => raise (AttributeNotSet name)
  end.

(** Modelled from the spec: field assignment of the versioned-object base
    class (defined outside action_plan.py), [self.name = v] or
    [self[name] = v]: the value is coerced by the field's type, stored,
    and the name recorded as changed. *)
Definition setattr (name : string) (v : value) : M aobj store unit :=
  match assoc name fields with
  | None => raise (AttributeNotSet name)
  | Some f =>
      match coerce f v with
      | None => raise (ValueError name)
      | Some v' =>
          modify (λ self, AObj (<[name := v']> (attrs self)) ({[name]} ∪ changed self))
      end
  end.

(** [obj[field] = db_object[field]] for each of the given columns. *)
Fixpoint copy_columns (db_object : row) (names : list string) : M aobj store unit :=
  match names with
  | [] => ret tt
  | name :: names' =>
      match db_object !! name with
      | None => raise (MissingColumn name)
      | Some v => setattr name v ;; copy_columns db_object names'
      end
  end.

(** Eager materialization: one fetch per relationship, through the
    related entity's own by-id accessor, keyed by the foreign key. *)
Fixpoint load_object_fields (ofs : list (string * (relcls * string)))
  : M aobj store unit :=
  match ofs with
  | [] => ret tt
  | (name, (cls, rel_id_name)) :: ofs' =>
      rel_id_value <- getattr rel_id_name ;;
      related <- do_call (Related_get_by_id cls rel_id_value) ;;
      setattr name (VObj related) ;;
      load_object_fields ofs'
  end.

(** Modelled from the spec: [_from_db_object] of the persistent-object
    base class (defined outside action_plan.py): hydrates [obj] from a
    row, column by column ([copy_columns]); the relationship fields are
    left as they are (lazy) or resolved immediately, one fetch each
    ([load_object_fields], eager); a freshly hydrated object has no
    change. *)
Definition _from_db_object (db_object : row) (eager : bool) : M aobj store unit :=
  copy_columns db_object column_fields ;;
  (if eager then load_object_fields object_fields else ret tt) ;;
  modify obj_reset_changes.

(** Runs a program on a fresh instance, [cls(context)], and yields that
    instance. *)
Definition on_fresh {S A} (m : M aobj store A) : M S store aobj :=
  λ s st,
    let r := m new_obj st in
    Out (match res r with Ok _ => Ok (self_of r) | Err e => Err e end)
        s (db_of r) (trace r).

Definition get_by_id {S} (action_plan_id : value) (eager : bool) : M S store aobj :=
  db_action_plan <- do_call (get_action_plan_by_id action_plan_id eager) ;;
  on_fresh (_from_db_object db_action_plan eager).

Definition get_by_uuid {S} (uuid : value) (eager : bool) : M S store aobj :=
  db_action_plan <- do_call (get_action_plan_by_uuid uuid eager) ;;
  on_fresh (_from_db_object db_action_plan eager).

Definition get {S} (action_plan_id : value) (eager : bool) : M S store aobj :=
  if is_int_like action_plan_id then get_by_id action_plan_id eager
  else if is_uuid_like action_plan_id then get_by_uuid action_plan_id eager
  else raise (InvalidIdentity action_plan_id).

(** The list comprehension of [list]. *)
Fixpoint from_db_objects {S} (objs : list row) (eager : bool) : M S store (list aobj) :=
  match objs with
  | [] => ret []
  | obj :: objs' =>
      o <- on_fresh (_from_db_object obj eager) ;;
      os <- from_db_objects objs' eager ;;
      ret (o :: os)
  end.

(** [ActionPlan.list] (the name [list] is the type of lists here). *)
Definition list_ {S} (limit : option Z) (marker : option value)
    (filters : option (gmap string value)) (sort_key sort_dir : option string)
    (eager : bool) : M S store (list aobj) :=
  db_action_plans <-
    do_call (get_action_plan_list limit marker filters sort_key sort_dir eager) ;;
  from_db_objects db_action_plans eager.

Definition create : M aobj store unit :=
  self <- get_self ;;
  let values := obj_get_changes self in
  db_action_plan <- do_call (create_action_plan values) ;;
  _from_db_object db_action_plan true.

Definition destroy : M aobj store unit :=
  uuid <- getattr "uuid" ;;
  related_efficacy_indicators <-
    do_call (EfficacyIndicator_list (by_action_plan_uuid uuid)) ;;
  for_each related_efficacy_indicators
    (λ related_efficacy_indicator,
       do_call (EfficacyIndicator_destroy related_efficacy_indicator)) ;;
  uuid <- getattr "uuid" ;;
  do_call (destroy_action_plan uuid) ;;
  modify obj_reset_changes.

Definition save : M aobj store unit :=
  self <- get_self ;;
  let updates := obj_get_changes self in
  uuid <- getattr "uuid" ;;
  db_obj <- do_call (update_action_plan uuid updates) ;;
  (* obj is self: the row is loaded into self and self is returned *)
  _from_db_object db_obj false ;;
  modify (λ self, obj_refresh self self) ;;
  modify obj_reset_changes.

Definition refresh (eager : bool) : M aobj store unit :=
  uuid <- getattr "uuid" ;;
  current <- get_by_uuid uuid eager ;;
  modify (λ self, obj_refresh self current).

Definition soft_delete : M aobj store unit :=
  uuid <- getattr "uuid" ;;
  related_actions <- do_call (Action_list (by_action_plan_uuid uuid)) ;;
  for_each related_actions
    (λ related_action, do_call (Action_soft_delete related_action)) ;;
  uuid <- getattr "uuid" ;;
  related_efficacy_indicators <-
    do_call (EfficacyIndicator_list (by_action_plan_uuid uuid)) ;;
  for_each related_efficacy_indicators
    (λ related_efficacy_indicator,
       do_call (EfficacyIndicator_soft_delete related_efficacy_indicator)) ;;
  setattr "state" (VStr State.DELETED) ;;
  save ;;
  uuid <- getattr "uuid" ;;
  db_obj <- do_call (soft_delete_action_plan uuid) ;;
  obj <- on_fresh (_from_db_object db_obj false) ;;
  modify (λ self, obj_refresh self obj).
End Core.

Arguments getattr {store} name.
Arguments setattr {store} name v.
Arguments copy_columns {store} db_object names.

(** ** The identifier classifiers *)

Module Utils.
Definition is_digit (a : Ascii.ascii) : bool :=
  let n := Ascii.N_of_ascii a in ((48 <=? n) && (n <=? 57))%N.

Definition is_hex_digit (a : Ascii.ascii) : bool :=
  let n := Ascii.N_of_ascii a in
  (((48 <=? n) && (n <=? 57)) || ((97 <=? n) && (n <=? 102))
   || ((65 <=? n) && (n <=? 70)))%N.

Fixpoint digits_value (s : string) (acc : Z) : option Z :=
  match s with
  | EmptyString => Some acc
  | String a s' =>
      if is_digit a
      then digits_value s' (10 * acc + (Z.of_N (Ascii.N_of_ascii a) - 48))
      else None
  end.

Definition int_of_string (s : string) : option Z :=
  match s with
  | EmptyString => None
  | String "-"%char EmptyString => None
  | String "-"%char s' => Z.opp <$> digits_value s' 0
  | _ => digits_value s 0
  end.

(** Modelled from the spec: [is_int_like] of watcher.common.utils
    (defined outside action_plan.py): the key is a valid numeric string,
    one that reads as an integer and is that integer's decimal writing. *)
Definition is_int_like (v : value) : bool :=
  match v with
  | VInt _ => true
  | VStr s =>
      match int_of_string s with
      | Some z => bool_decide (pretty z = s)
      | None => false
      end
  | _ => false
  end.

Fixpoint uuid_shape (s : string) (i : nat) : bool :=
  match s with
  | EmptyString => bool_decide (i = 36%nat)
  | String a s' =>
      (if bool_decide (i ∈ [8; 13; 18; 23]%nat)
       then bool_decide (a = "-"%char) else is_hex_digit a)
      && uuid_shape s' (S i)
  end.

(** Modelled from the spec: [is_uuid_like] of watcher.common.utils
    (defined outside action_plan.py): the key is a valid UUID string, 32
    hexadecimal digits in groups of 8, 4, 4, 4 and 12 separated by
    hyphens. *)
Definition is_uuid_like (v : value) : bool :=
  match v with
  | VStr s => uuid_shape s 0
  | _ => false
  end.

Fixpoint all_hex (s : string) : bool :=
  match s with
  | EmptyString => true
  | String a s' => is_hex_digit a && all_hex s'
  end.

(** Modelled from the spec: the spec names the class of UUID-like keys
    and does not fix their writing.  This is the wider reading of
    [is_uuid_like] (defined outside action_plan.py), in which the 32
    hexadecimal digits of a UUID may also be written without the hyphens,
    as Python's [uuid.UUID] reads them. *)
Definition is_uuid_like_or_plain (v : value) : bool :=
  is_uuid_like v ||
  match v with
  | VStr s => bool_decide (String.length s = 32%nat) && all_hex s
  | _ => false
  end.
End Utils.

(** ** A reference storage *)

(** The storage API and the related-entity accessors (watcher.db.api,
    objects.Action, objects.EfficacyIndicator, objects.Audit and
    objects.Strategy) are defined outside action_plan.py.  This module
    gives them as tables in memory, following the spec: by-id and by-uuid
    lookups, create (which assigns the id, and the uuid when none is
    given, and keeps uuids unique), update of the given columns (id and
    uuid are immutable), soft delete (the row stays, marked), destroy
    (the row goes), and not-found reported as such. *)
Module RefStore.
Record plan_row := PlanRow { p_columns : row; p_deleted : bool }.

Record dep_row := DepRow {
  d_uuid : string;
  d_action_plan_uuid : value;
  d_deleted : bool
}.

Record store := Store {
  plans : list plan_row;
  actions : list dep_row;
  indicators : list dep_row;
  related : list relobj;
  next_id : Z
}.

Definition has (key : string) (v : value) (p : plan_row) : bool :=
  bool_decide (p_columns p !! key = Some v).

Definition find_plan (key : string) (v : value) (ps : list plan_row)
  : option plan_row :=
  List.find (has key v) ps.

(** A numeric string addresses the same row as the number it writes. *)
Definition id_of_key (k : value) : value :=
  match k with
  | VStr s => match Utils.int_of_string s with Some z => VInt z | None => k end
  | _ => k
  end.

Definition defaults : row :=
  list_to_map ((λ name, (name, VNone)) <$> column_fields).

Definition with_plans (st : store) (ps : list plan_row) : store :=
  Store ps (actions st) (indicators st) (related st) (next_id st).

Definition with_actions (st : store) (ds : list dep_row) : store :=
  Store (plans st) ds (indicators st) (related st) (next_id st).

Definition with_indicators (st : store) (ds : list dep_row) : store :=
  Store (plans st) (actions st) ds (related st) (next_id st).

Definition lookup_plan (key : string) (v : value) (st : store)
  : result row * store :=
  match find_plan key v (plans st) with
  | Some p => (Ok (p_columns p), st)
  | None => (Err NotFound, st)
  end.

Definition matches (filters : gmap string value) (r : row) : bool :=
  bool_decide (map_Forall (λ k v, r !! k = Some v) filters).

Definition plan_list (limit : option Z) (filters : option (gmap string value))
    (st : store) : list row :=
  let rows := p_columns <$> plans st in
  let rows := match filters with
              | Some f => List.filter (matches f) rows
              | None => rows
              end in
  match limit with
  | Some n => take (Z.to_nat n) rows
  | None => rows
  end.

Definition create_plan (values : gmap string value) (st : store)
  : result row * store :=
  let uuid := match values !! "uuid" with
              | Some (VStr u) => VStr u
              | _ => VStr ("generated-" +:+ pretty (next_id st))
              end in
  if existsb (has "uuid" uuid) (plans st) then (Err AlreadyExists, st)
  else
    let cols := <["id" := VInt (next_id st)]>
                  (<["uuid" := uuid]> (columns_of values ∪ defaults)) in
    (Ok cols,
     Store (plans st ++ [PlanRow cols false]) (actions st) (indicators st)
           (related st) (next_id st + 1)).

Definition apply_updates (uuid : value) (updates : gmap string value)
    (p : plan_row) : plan_row :=
  if has "uuid" uuid p
  then PlanRow (columns_of updates ∪ p_columns p) (p_deleted p)
  else p.

Definition update_plan (uuid : value) (updates : gmap string value)
    (st : store) : result row * store :=
  if bool_decide ("uuid" ∈ dom updates ∨ "id" ∈ dom updates)
  then (Err Invalid, st)
  else
    let ps := apply_updates uuid updates <$> plans st in
    match find_plan "uuid" uuid ps with
    | Some p => (Ok (p_columns p), with_plans st ps)
    | None => (Err NotFound, st)
    end.

Definition mark_deleted (uuid : value) (p : plan_row) : plan_row :=
  if has "uuid" uuid p then PlanRow (p_columns p) true else p.

Definition soft_delete_plan (uuid : value) (st : store) : result row * store :=
  match find_plan "uuid" uuid (plans st) with
  | Some p => (Ok (p_columns p), with_plans st (mark_deleted uuid <$> plans st))
  | None => (Err NotFound, st)
  end.

Definition destroy_plan (uuid : value) (st : store) : result unit * store :=
  if existsb (has "uuid" uuid) (plans st)
  then (Ok tt, with_plans st (List.filter (λ p, negb (has "uuid" uuid p)) (plans st)))
  else (Err NotFound, st).

Definition dep_matches (filters : gmap string value) (d : dep_row) : bool :=
  match filters !! "action_plan_uuid" with
  | Some u => bool_decide (d_action_plan_uuid d = u)
  | None => true
  end.

Definition dep_list (filters : gmap string value) (ds : list dep_row) : list dep :=
  (λ d, Dep (d_uuid d)) <$> List.filter (dep_matches filters) ds.

Definition is_dep (x : dep) (d : dep_row) : bool :=
  bool_decide (d_uuid d = dep_uuid x).

Definition dep_mark_deleted (x : dep) (d : dep_row) : dep_row :=
  if is_dep x d then DepRow (d_uuid d) (d_action_plan_uuid d) true else d.

Definition dep_soft_delete (x : dep) (ds : list dep_row)
  : option (list dep_row) :=
  if existsb (is_dep x) ds then Some (dep_mark_deleted x <$> ds) else None.

Definition dep_destroy (x : dep) (ds : list dep_row) : option (list dep_row) :=
  if existsb (is_dep x) ds
  then Some (List.filter (λ d, negb (is_dep x d)) ds)
  else None.

Definition related_get (c : relcls) (id : value) (st : store)
  : result relobj * store :=
  match List.find (λ r, bool_decide (rel_cls r = c ∧ VInt (rel_id r) = id))
                  (related st) with
  | Some r => (Ok r, st)
  | None => (Err NotFound, st)
  end.

(** Modelled from the spec: the storage API ([watcher.db.api]) and the
    accessors of the related entities, all defined outside
    action_plan.py, answered from the tables above. *)
Definition dbapi : collaborator store :=
  λ c,
    match c as c' return store → result (ret_of c') * store with
    | get_action_plan_by_id k _ => lookup_plan "id" (id_of_key k)
    | get_action_plan_by_uuid u _ => lookup_plan "uuid" u
    | get_action_plan_list limit _ filters _ _ _ =>
        λ st, (Ok (plan_list limit filters st), st)
    | create_action_plan values => create_plan values
    | update_action_plan u updates => update_plan u updates
    | destroy_action_plan u => destroy_plan u
    | soft_delete_action_plan u => soft_delete_plan u
    | Action_list f => λ st, (Ok (dep_list f (actions st)), st)
    | Action_soft_delete a =>
        λ st, match dep_soft_delete a (actions st) with
              | Some ds => (Ok tt, with_actions st ds)
              | None => (Err NotFound, st)
              end
    | EfficacyIndicator_list f => λ st, (Ok (dep_list f (indicators st)), st)
    | EfficacyIndicator_soft_delete e =>
        λ st, match dep_soft_delete e (indicators st) with
              | Some ds => (Ok tt, with_indicators st ds)
              | None => (Err NotFound, st)
              end
    | EfficacyIndicator_destroy e =>
        λ st, match dep_destroy e (indicators st) with
              | Some ds => (Ok tt, with_indicators st ds)
              | None => (Err NotFound, st)
              end
    | Related_get_by_id cls id => related_get cls id
    end.
End RefStore.

(** ** A small deployment, used to run the methods on concrete data *)

Module Sample.
Import RefStore.

Definition plan_uuid : string := "7ae81bb3-dec3-4289-8d6c-da80bd8001ae".
Definition other_uuid : string := "0a1b2c3d-0000-4000-8000-000000000002".

Definition audit1 : relobj := RelObj Audit 10 "a5d0b3c1-1111-4111-8111-111111111111".
Definition strategy1 : relobj := RelObj Strategy 20 "b6e1c4d2-2222-4222-8222-222222222222".

Definition plan1 : row :=
  list_to_map
    [ ("id", VInt 1); ("uuid", VStr plan_uuid); ("audit_id", VInt 10);
      ("strategy_id", VInt 20); ("first_action_id", VNone);
      ("state", VStr State.ONGOING); ("global_efficacy", VNone) ].

Definition plan2 : row :=
  list_to_map
    [ ("id", VInt 2); ("uuid", VStr other_uuid); ("audit_id", VInt 10);
      ("strategy_id", VInt 20); ("first_action_id", VNone);
      ("state", VStr State.RECOMMENDED); ("global_efficacy", VNone) ].

Definition st0 : store :=
  Store [PlanRow plan1 false; PlanRow plan2 false]
        [DepRow "act-1" (VStr plan_uuid) false;
         DepRow "act-2" (VStr plan_uuid) false;
         DepRow "act-3" (VStr other_uuid) false]
        [DepRow "ei-1" (VStr plan_uuid) false;
         DepRow "ei-2" (VStr other_uuid) false;
         DepRow "ei-3" (VStr plan_uuid) false]
        [audit1; strategy1]
        3.

(** The plan of [plan_uuid] as [get_by_uuid] loads it, lazily. *)
Definition loaded : aobj := AObj plan1 ∅.

(** A transient plan: built by the constructor and three assignments. *)
Definition transient1 : aobj :=
  AObj (list_to_map [ ("audit_id", VInt 10); ("strategy_id", VInt 20);
                      ("state", VStr State.RECOMMENDED) ])
       (list_to_set ["audit_id"; "strategy_id"; "state"]).
End Sample.

(** The calls that eager hydration makes to the related entities. *)
Definition is_related_get (c : call) : bool :=
  match c with Related_get_by_id _ _ => true | _ => false end.

(** The calls of a complete [destroy], given what the listing returned. *)
Definition destroy_calls (uuid : value) (eis : list dep) : list call :=
  EfficacyIndicator_list (by_action_plan_uuid uuid)
  :: (EfficacyIndicator_destroy <$> eis) ++ [destroy_action_plan uuid].

(** The calls that a [soft_delete] makes to the dependents. *)
Definition cascade_calls (uuid : value) (acts eis : list dep) : list call :=
  Action_list (by_action_plan_uuid uuid)
  :: (Action_soft_delete <$> acts)
  ++ EfficacyIndicator_list (by_action_plan_uuid uuid)
  :: (EfficacyIndicator_soft_delete <$> eis).

(** The calls of a complete [soft_delete], given what the listings
    returned, the changes that were saved, and the uuid the saved row
    carried. *)
Definition soft_delete_calls (uuid : value) (acts eis : list dep)
    (updates : gmap string value) (uuid' : value) : list call :=
  cascade_calls uuid acts eis
  ++ [update_action_plan uuid updates; soft_delete_action_plan uuid'].

(** The calls that act on Action rows. *)
Definition is_action_call (c : call) : bool :=
  match c with
  | Action_list _ | Action_soft_delete _ => true
  | _ => false
  end.

(** The calls that write the plan's row without removing it. *)
Definition is_update_call (c : call) : bool :=
  match c with update_action_plan _ _ => true | _ => false end.


(** A transient object: built by the constructor and by assignments only,
    so that every attribute that is set is recorded as changed. *)
Definition transient (o : aobj) : Prop := dom (attrs o) ⊆ changed o.

(** The object after [self.state = State.DELETED]. *)
Definition marked_deleted (o : aobj) : aobj :=
  AObj (<["state" := VStr State.DELETED]> (attrs o)) ({["state"]} ∪ changed o).

(** The state a collaborator is left in by a sequence of calls. *)
Fixpoint replay {store} (dbapi : collaborator store) (cs : list call) (st : store)
  : store :=
  match cs with
  | [] => st
  | c :: cs' => replay dbapi cs' (dbapi c st).2
  end.

(** The lookup of a plan's row by uuid. *)
Definition is_lookup_by_uuid (c : call) : bool :=
  match c with get_action_plan_by_uuid _ _ => true | _ => false end.

(** The calls that only read: the lookups and the listing of plans, and
    the fetches of related objects. *)
Definition is_read_call (c : call) : bool :=
  match c with
  | get_action_plan_by_id _ _ | get_action_plan_by_uuid _ _
  | get_action_plan_list _ _ _ _ _ _ | Related_get_by_id _ _ => true
  | _ => false
  end.

(** The calls that remove a row for good. *)
Definition is_destroy_call (c : call) : bool :=
  match c with
  | destroy_action_plan _ | EfficacyIndicator_destroy _ => true
  | _ => false
  end.

(** The calls that mark a row as deleted and keep it. *)
Definition is_soft_delete_call (c : call) : bool :=
  match c with
  | soft_delete_action_plan _ | Action_soft_delete _
  | EfficacyIndicator_soft_delete _ => true
  | _ => false
  end.

(** The soft delete of a plan's row. *)
Definition is_plan_soft_delete (c : call) : bool :=
  match c with soft_delete_action_plan _ => true | _ => false end.

(** The correspondence between a loaded object and the row it was loaded
    from: no change is recorded, and every column is set, to the row's
    value. *)
Definition loaded_from (o : aobj) (db_object : row) : Prop :=
  changed o = ∅ ∧
  ∀ f, f ∈ column_fields → is_Some (db_object !! f) ∧ attrs o !! f = db_object !! f.

(** ** Storage that fails, and objects it fails on *)

Module Faulty.
(** The reference storage with the plan table read-only: every update of
    a plan's row is refused. *)
Definition refusing_updates : collaborator RefStore.store :=
  λ c,
    match c as c' return RefStore.store → result (ret_of c') * RefStore.store with
    | update_action_plan _ _ => λ st, (Err StorageFailure, st)
    | c' => RefStore.dbapi c'
    end.


(** The reference storage on which no plan's row can be soft-deleted. *)
Definition refusing_soft_delete : collaborator RefStore.store :=
  λ c,
    match c as c' return RefStore.store → result (ret_of c') * RefStore.store with
    | soft_delete_action_plan _ => λ st, (Err StorageFailure, st)
    | c' => RefStore.dbapi c'
    end.

(** A plan that was loaded and whose row is gone since: its uuid is in
    no row of the sample deployment. *)
Definition stale : aobj :=
  AObj (<["uuid" := VStr "99999999-9999-4999-8999-999999999999"]> Sample.plan1) ∅.

(** A transient plan that asks for a uuid that is taken. *)
Definition duplicate : aobj :=
  AObj (<["uuid" := VStr Sample.plan_uuid]> (attrs Sample.transient1))
       ({["uuid"]} ∪ changed Sample.transient1).
End Faulty.

(** * Properties *)

Arguments assoc : simpl never.
Arguments column_fields : simpl never.
Arguments field_accepts : simpl never.

Ltac splits := repeat match goal with |- _ ∧ _ => split end.

Lemma bind_step {S store A B} (m : M S store A) (f : A → M S store B) s st r :
  m s st = r →
  bind m f s st =
  match res r with
  | Ok a => prepend (trace r) (f a (self_of r) (db_of r))
  | Err e => Out (Err e) (self_of r) (db_of r) (trace r)
  end.
Proof. intros <-. reflexivity. Qed.

Lemma res_prepend {S store A} t (r : out S store A) : res (prepend t r) = res r.
Proof. reflexivity. Qed.

Lemma self_of_prepend {S store A} t (r : out S store A) :
  self_of (prepend t r) = self_of r.
Proof. reflexivity. Qed.

Lemma db_of_prepend {S store A} t (r : out S store A) :
  db_of (prepend t r) = db_of r.
Proof. reflexivity. Qed.

Lemma trace_prepend {S store A} t (r : out S store A) :
  trace (prepend t r) = (t ++ trace r)%list.
Proof. reflexivity. Qed.

Lemma prepend_Out {S store A} t (x : result A) (s : S) (st : store) t' :
  prepend t (Out x s st t') = Out x s st (t ++ t')%list.
Proof. reflexivity. Qed.

(** Runs the monad's own operations, and nothing else. *)
Ltac msimpl :=
  cbn [bind ret raise modify get_self res self_of db_of trace app];
  rewrite ?prepend_Out, ?res_prepend, ?self_of_prepend, ?db_of_prepend,
    ?trace_prepend;
  cbn [bind ret raise modify get_self res self_of db_of trace app].

(** Lists of calls, nested to the right. *)
Ltac lnorm := rewrite <- ?app_assoc; cbn [app].

Ltac prefix_tac :=
  repeat (apply prefix_cons || apply prefix_app); try apply prefix_nil; try done.

(** Runs the first operation of a sequence, given what it yields. *)
Ltac mstep H := rewrite (bind_step _ _ _ _ _ H); msimpl.

(** ** The schema and the state values *)

Lemma column_fields_eq :
  column_fields =
  ["id"; "uuid"; "audit_id"; "strategy_id"; "first_action_id"; "state";
   "global_efficacy"].
Proof. reflexivity. Qed.

Lemma elem_of_column_fields name :
  bool_decide (name ∈ column_fields) = true → name ∈ column_fields.
Proof. apply bool_decide_eq_true. Qed.

Lemma not_elem_of_column_fields name :
  bool_decide (name ∈ column_fields) = false → name ∉ column_fields.
Proof. apply bool_decide_eq_false. Qed.

Lemma coerce_Some f v v' : coerce f v = Some v' → v' = v.
Proof.
  unfold coerce. destruct v, (f_type f); try discriminate;
    try (destruct (nullable f); congruence); try congruence.
  destruct (decide _); congruence.
Qed.

Lemma obj_get_changes_empty o : changed o = ∅ → obj_get_changes o = ∅.
Proof.
  intros H. unfold obj_get_changes. rewrite H.
  apply map_eq. intros k. rewrite lookup_empty.
  apply map_lookup_filter_None. right. intros v _ Hin. simpl in Hin.
  by apply not_elem_of_empty in Hin.
Qed.

Lemma obj_get_changes_lookup o k :
  obj_get_changes o !! k = if decide (k ∈ changed o) then attrs o !! k else None.
Proof.
  unfold obj_get_changes. destruct (decide _) as [Hin|Hin].
  - destruct (attrs o !! k) as [v|] eqn:E.
    + apply map_lookup_filter_Some. auto.
    + apply map_lookup_filter_None. auto.
  - apply map_lookup_filter_None. right. intros v _ Hc. simpl in Hc. done.
Qed.

(** ** Running programs *)

Section Generic.
Context {store : Type}.
Variable dbapi : collaborator store.

Lemma bind_Ok {S A B} (m : M S store A) (f : A → M S store B) s st a :
  res (m s st) = Ok a →
  bind m f s st =
  Out (res (f a (self_of (m s st)) (db_of (m s st))))
      (self_of (f a (self_of (m s st)) (db_of (m s st))))
      (db_of (f a (self_of (m s st)) (db_of (m s st))))
      (trace (m s st) ++ trace (f a (self_of (m s st)) (db_of (m s st)))).
Proof. intros H. unfold bind. rewrite H. reflexivity. Qed.

Lemma bind_Err {S A B} (m : M S store A) (f : A → M S store B) s st e :
  res (m s st) = Err e →
  bind m f s st = Out (Err e) (self_of (m s st)) (db_of (m s st)) (trace (m s st)).
Proof. intros H. unfold bind. rewrite H. reflexivity. Qed.

Lemma invoke_eq {S} (c : call) (s : S) (st st' : store) r :
  dbapi c st = (r, st') → invoke dbapi c s st = Out r s st' [c].
Proof. intros H. unfold invoke. by rewrite H. Qed.

(** Assignment: no call, and on success exactly one attribute written
    and recorded. *)
Lemma setattr_spec name v (o : aobj) (st : store) :
  let r := setattr name v o st in
  trace r = [] ∧ db_of r = st ∧
  ((∃ f, assoc name fields = Some f ∧ coerce f v = Some v ∧ res r = Ok tt ∧
         self_of r = AObj (<[name := v]> (attrs o)) ({[name]} ∪ changed o))
   ∨ ((∃ e, res r = Err e) ∧ self_of r = o ∧
      ¬ (∃ f, assoc name fields = Some f ∧ is_Some (coerce f v)))).
Proof.
  unfold setattr. destruct (assoc name fields) as [f|] eqn:Ef; simpl.
  - destruct (coerce f v) as [v'|] eqn:Ec; simpl.
    + pose proof (coerce_Some _ _ _ Ec); subst v'.
      repeat split; auto. left. exists f. auto.
    + repeat split; auto. right. repeat split; eauto.
      intros (f' & Hf' & [v' Hv']). congruence.
  - repeat split; auto. right. repeat split; eauto.
    intros (f' & Hf' & _). congruence.
Qed.

(** Copying columns from a row: no call; attributes outside the copied
    names are untouched; it succeeds exactly on the rows the fields
    accept, and then every copied name holds the row's value. *)
Lemma copy_columns_spec (db_object : row) names (o : aobj) (st : store) :
  let r := copy_columns db_object names o st in
  trace r = [] ∧ db_of r = st ∧
  (∀ f, f ∉ names → attrs (self_of r) !! f = attrs o !! f) ∧
  (res r = Ok tt ↔ accepts names db_object = true) ∧
  (res r = Ok tt → ∀ f, f ∈ names → attrs (self_of r) !! f = db_object !! f).
Proof.
  revert o. induction names as [|n ns IH]; intros o; simpl.
  - repeat split; auto. intros _ f Hf. inversion Hf.
  - destruct (db_object !! n) as [v|] eqn:En; simpl.
    2:{ repeat split; auto; try discriminate.
        unfold field_accepts. rewrite En. by destruct (assoc n fields). }
    destruct (setattr_spec n v o st) as (Ht & Hd & Hs).
    destruct Hs as [(f & Hf & Hc & Hr & Hself)|((e & He) & Hself & Hno)].
    + rewrite (bind_Ok _ _ _ _ _ Hr). simpl. rewrite Ht, Hd, Hself.
      destruct (IH (AObj (<[n:=v]> (attrs o)) ({[n]} ∪ changed o)))
        as (IHt & IHd & IHf & IHr & IHv).
      simpl. rewrite IHt, IHd. repeat split; auto.
      * intros g Hg. apply not_elem_of_cons in Hg as [Hne Hg].
        rewrite IHf by done. simpl. by apply lookup_insert_ne.
      * intros H. unfold field_accepts. rewrite Hf, En.
        rewrite bool_decide_true by eauto. simpl. by apply IHr.
      * intros H. apply andb_true_iff in H as [_ H]. by apply IHr.
      * intros H g Hg. destruct (decide (g ∈ ns)) as [Hin|Hin].
        -- by apply IHv.
        -- rewrite IHf by done. simpl.
           apply elem_of_cons in Hg as [->|Hg]; [|done].
           by rewrite lookup_insert_eq.
    + rewrite (bind_Err _ _ _ _ _ He). simpl. rewrite Ht, Hd, Hself.
      repeat split; auto; try discriminate.
      intros H. exfalso. apply Hno.
      apply andb_true_iff in H as [H _]. unfold field_accepts in H.
      rewrite En in H. destruct (assoc n fields) as [f|]; [|discriminate].
      apply bool_decide_eq_true in H. eauto.
Qed.

Lemma replay_app cs1 cs2 (st : store) :
  replay dbapi (cs1 ++ cs2) st = replay dbapi cs2 (replay dbapi cs1 st).
Proof. revert st. induction cs1; intros; simpl; auto. Qed.

Lemma invoke_spec {S} (c : call) (s : S) (st : store) :
  let r := invoke dbapi c s st in
  res r = (dbapi c st).1 ∧ self_of r = s ∧ db_of r = (dbapi c st).2 ∧
  trace r = [c].
Proof. unfold invoke. destruct (dbapi c st); simpl. auto. Qed.

Lemma columns_of_lookup (m : gmap string value) f :
  columns_of m !! f = if decide (f ∈ column_fields) then m !! f else None.
Proof.
  unfold columns_of. destruct (decide _) as [Hin|Hin].
  - destruct (m !! f) as [v|] eqn:E.
    + apply map_lookup_filter_Some. auto.
    + apply map_lookup_filter_None. auto.
  - apply map_lookup_filter_None. right. intros v _ Hc. done.
Qed.

Lemma accepts_lookup names (db_object : row) f :
  accepts names db_object = true → f ∈ names → is_Some (db_object !! f).
Proof.
  unfold accepts. rewrite forallb_forall. intros H Hin.
  apply list_elem_of_In in Hin. specialize (H _ Hin).
  unfold field_accepts in H. destruct (assoc f fields); [|discriminate].
  destruct (db_object !! f); [eauto|discriminate].
Qed.

(** Lazy hydration: no call; the relationship fields are left as they
    are; every column is taken from the row; no change is recorded. *)
Lemma from_db_lazy_spec (db_object : row) (o : aobj) (st : store) :
  let r := _from_db_object dbapi db_object false o st in
  trace r = [] ∧ db_of r = st ∧
  (∀ f, f ∉ column_fields → attrs (self_of r) !! f = attrs o !! f) ∧
  (res r = Ok tt ↔ accepts column_fields db_object = true) ∧
  (res r = Ok tt →
   changed (self_of r) = ∅ ∧ attrs (self_of r) = columns_of db_object ∪ attrs o).
Proof.
  unfold _from_db_object.
  destruct (copy_columns_spec db_object column_fields o st)
    as (Ht & Hd & Hf & Hr & Hv).
  destruct (res (copy_columns db_object column_fields o st)) as [[]|e] eqn:E.
  - rewrite (bind_Ok _ _ _ _ _ E). msimpl. rewrite Ht, Hd.
    splits; auto.
    intros _. unfold obj_reset_changes. cbn [attrs changed]. split; [done|].
    { apply map_eq. intros f. rewrite lookup_union, columns_of_lookup.
      destruct (decide (f ∈ column_fields)) as [Hin|Hin].
      * rewrite (Hv eq_refl f Hin).
        destruct (accepts_lookup _ db_object f (proj1 Hr eq_refl) Hin) as [v ->].
        by destruct (attrs o !! f).
      * rewrite (Hf f Hin). by destruct (attrs o !! f). }
  - rewrite (bind_Err _ _ _ _ _ E). msimpl. rewrite Ht, Hd.
    splits; auto; discriminate.
Qed.

(** Hydrating a fresh instance lazily. *)
Lemma on_fresh_lazy_spec {S} (db_object : row) (s : S) (st : store) :
  let r := on_fresh (_from_db_object dbapi db_object false) s st in
  trace r = [] ∧ db_of r = st ∧ self_of r = s ∧
  ((accepts column_fields db_object = true ∧
    res r = Ok (AObj (columns_of db_object) ∅))
   ∨ (accepts column_fields db_object = false ∧ ∃ e, res r = Err e)).
Proof.
  unfold on_fresh.
  destruct (from_db_lazy_spec db_object new_obj st) as (Ht & Hd & Hf & Hr & Hv).
  msimpl. rewrite Ht, Hd. splits; auto.
  destruct (res (_from_db_object dbapi db_object false new_obj st))
    as [[]|e] eqn:E.
  - left. split; [by apply Hr|]. destruct (Hv eq_refl) as [Hc Ha].
    destruct (self_of _) as [a c]. simpl in *. subst.
    by rewrite (right_id_L ∅ (∪)).
  - right. split; eauto. destruct (accepts _ _); auto.
    destruct Hr as [_ Hr]. specialize (Hr eq_refl). discriminate.
Qed.

(** A loop whose body issues one call per element and leaves the object
    alone: the calls are those of the elements, in order, up to the
    first that raises. *)
Lemma for_each_spec {T A} (xs : list A) (c : A → call)
    (body : A → M T store unit) (s : T) (st : store) :
  (∀ x s st, let r := body x s st in
             trace r = [c x] ∧ self_of r = s ∧ db_of r = (dbapi (c x) st).2) →
  let r := for_each xs body s st in
  self_of r = s ∧ db_of r = replay dbapi (trace r) st ∧
  (∃ n, trace r = c <$> take n xs) ∧
  (res r = Ok tt → trace r = c <$> xs).
Proof.
  intros Hbody. revert st. induction xs as [|x xs IH]; intros st; simpl.
  - splits; auto. by exists 0%nat.
  - destruct (Hbody x s st) as (Ht & Hs & Hd).
    destruct (res (body x s st)) as [[]|e] eqn:E.
    + rewrite (bind_Ok _ _ _ _ _ E). msimpl. rewrite Ht, Hs, Hd.
      destruct (IH (dbapi (c x) st).2) as (IHs & IHd & [n IHn] & IHr).
      splits; auto.
      * exists (S n). simpl. by rewrite IHn.
      * intros H. simpl. by rewrite (IHr H).
    + rewrite (bind_Err _ _ _ _ _ E). msimpl. rewrite Ht, Hs, Hd.
      splits; auto; [|discriminate]. by exists 1%nat.
Qed.

Lemma getattr_Some name v (o : aobj) (st : store) :
  attrs o !! name = Some v → getattr name o st = Out (Ok v) o st [].
Proof. intros H. unfold getattr, bind. msimpl. by rewrite H. Qed.

Lemma getattr_None name (o : aobj) (st : store) :
  attrs o !! name = None →
  getattr name o st = Out (Err (AttributeNotSet name)) o st [].
Proof. intros H. unfold getattr, bind. msimpl. by rewrite H. Qed.

(** [save]: one call, the update of the changed fields under the plan's
    uuid; then the object is the returned row on every column, with no
    change recorded. *)
Lemma save_spec (o : aobj) (st : store) uuid :
  attrs o !! "uuid" = Some uuid →
  let c := update_action_plan uuid (obj_get_changes o) in
  let r := save dbapi o st in
  trace r = [c] ∧ db_of r = (dbapi c st).2 ∧
  (∀ f, f ∉ column_fields → attrs (self_of r) !! f = attrs o !! f) ∧
  (res r = Ok tt ↔
   ∃ db_obj, (dbapi c st).1 = Ok db_obj ∧ accepts column_fields db_obj = true) ∧
  (∀ db_obj, (dbapi c st).1 = Ok db_obj → res r = Ok tt →
     attrs (self_of r) = columns_of db_obj ∪ attrs o ∧ changed (self_of r) = ∅).
Proof.
  intros Hu. unfold save. msimpl.
  mstep (getattr_Some _ _ _ st Hu).
  set (c := update_action_plan uuid (obj_get_changes o)).
  destruct (dbapi c st) as [[db_obj|e] st'] eqn:Ec;
    mstep (invoke_eq c o _ _ _ Ec).
  - destruct (from_db_lazy_spec db_obj o st') as (Ft & Fd & Ff & Fr & Fv).
    destruct (_from_db_object dbapi db_obj false o st') as [[[]|e] o' st'' t] eqn:E;
      mstep E; cbn [res self_of db_of trace] in *; subst;
      unfold obj_refresh, obj_reset_changes;
      cbn [attrs changed fst snd]; splits; auto; try discriminate.
    + intros f Hf. rewrite lookup_union. rewrite (Ff f Hf).
      by destruct (attrs o !! f).
    + split; [|done]. intros _. exists db_obj. split; auto. by apply Fr.
    + intros d Hd' _. inversion Hd'; subst.
      destruct (Fv eq_refl) as [Fc Fa]. rewrite (idemp_L (∪)). done.
    + split; [discriminate|].
      intros (d & Hd' & Hacc). inversion Hd'; subst.
      apply Fr in Hacc. discriminate.
  - cbn [fst snd]. splits; auto; try discriminate.
    split; [discriminate|]. intros (d & Hd' & _). discriminate.
Qed.

Lemma setattr_obj_Ok name cls (x : relobj) (o : aobj) (st : store) :
  assoc name fields = Some (Field (ObjectField cls) true) →
  rel_cls x = cls →
  setattr name (VObj x) o st =
  Out (Ok tt) (AObj (<[name := VObj x]> (attrs o)) ({[name]} ∪ changed o)) st [].
Proof.
  intros Hf Hc. unfold setattr. rewrite Hf. unfold coerce. cbn [f_type].
  destruct (decide (rel_cls x = cls)); [reflexivity|done].
Qed.

Lemma setattr_obj_Err name cls (x : relobj) (o : aobj) (st : store) :
  assoc name fields = Some (Field (ObjectField cls) true) →
  rel_cls x ≠ cls →
  setattr name (VObj x) o st = Out (Err (ValueError name)) o st [].
Proof.
  intros Hf Hc. unfold setattr. rewrite Hf. unfold coerce. cbn [f_type].
  destruct (decide (rel_cls x = cls)); [done|reflexivity].
Qed.

(** The relationship fetches of eager hydration, on an object whose
    foreign keys are set. *)
Lemma load_object_fields_spec (o1 : aobj) (st : store) a_id s_id :
  attrs o1 !! "audit_id" = Some a_id →
  attrs o1 !! "strategy_id" = Some s_id →
  let r := load_object_fields dbapi object_fields o1 st in
  forallb is_related_get (trace r) = true ∧
  db_of r = replay dbapi (trace r) st ∧
  (res r = Ok tt →
   ∃ a s,
     (dbapi (Related_get_by_id Audit a_id) st).1 = Ok a ∧
     (dbapi (Related_get_by_id Strategy s_id)
            (dbapi (Related_get_by_id Audit a_id) st).2).1 = Ok s ∧
     rel_cls a = Audit ∧ rel_cls s = Strategy ∧
     trace r = [Related_get_by_id Audit a_id; Related_get_by_id Strategy s_id] ∧
     attrs (self_of r) = <["strategy" := VObj s]> (<["audit" := VObj a]> (attrs o1)) ∧
     changed (self_of r) = {["strategy"]} ∪ ({["audit"]} ∪ changed o1)).
Proof.
  intros Ha_obj Hs_obj. cbn [load_object_fields object_fields].
  mstep (getattr_Some _ _ _ st Ha_obj).
  destruct (dbapi (Related_get_by_id Audit a_id) st) as [[a|e] st2] eqn:Ea;
    mstep (invoke_eq (Related_get_by_id Audit a_id) o1 _ _ _ Ea);
    [|cbn [replay]; rewrite Ea; by splits].
  destruct (decide (rel_cls a = Audit)) as [Hca|Hca].
  2:{ mstep (setattr_obj_Err "audit" Audit a o1 st2 eq_refl Hca).
      cbn [replay]. rewrite Ea. by splits. }
  mstep (setattr_obj_Ok "audit" Audit a o1 st2 eq_refl Hca).
  set (o2 := AObj (<["audit":=VObj a]> (attrs o1)) ({["audit"]} ∪ changed o1)).
  assert (Hs2 : attrs o2 !! "strategy_id" = Some s_id).
  { unfold o2. cbn [attrs]. by rewrite lookup_insert_ne. }
  mstep (getattr_Some _ _ _ st2 Hs2).
  destruct (dbapi (Related_get_by_id Strategy s_id) st2) as [[s|e] st3] eqn:Es;
    mstep (invoke_eq (Related_get_by_id Strategy s_id) o2 _ _ _ Es);
    [|cbn [replay]; rewrite Ea; cbn [snd]; rewrite Es; by splits].
  destruct (decide (rel_cls s = Strategy)) as [Hcs|Hcs].
  2:{ mstep (setattr_obj_Err "strategy" Strategy s o2 st3 eq_refl Hcs).
      cbn [replay]. rewrite Ea. cbn [snd]. rewrite Es. by splits. }
  mstep (setattr_obj_Ok "strategy" Strategy s o2 st3 eq_refl Hcs).
  cbn [replay]. rewrite Ea. cbn [snd]. rewrite Es. cbn [snd fst].
  splits; auto.
  intros _. exists a, s. by splits.
Qed.

(** Eager hydration: after the columns, one fetch per relationship, the
    audit by [audit_id] and then the strategy by [strategy_id]; both
    relationship fields then hold the fetched objects. *)
Lemma from_db_eager_spec (db_object : row) (o : aobj) (st : store) :
  let r := _from_db_object dbapi db_object true o st in
  forallb is_related_get (trace r) = true ∧
  db_of r = replay dbapi (trace r) st ∧
  (res r = Ok tt →
   ∃ a_id s_id a s,
     db_object !! "audit_id" = Some a_id ∧
     db_object !! "strategy_id" = Some s_id ∧
     accepts column_fields db_object = true ∧
     (dbapi (Related_get_by_id Audit a_id) st).1 = Ok a ∧
     (dbapi (Related_get_by_id Strategy s_id)
            (dbapi (Related_get_by_id Audit a_id) st).2).1 = Ok s ∧
     rel_cls a = Audit ∧ rel_cls s = Strategy ∧
     trace r = [Related_get_by_id Audit a_id; Related_get_by_id Strategy s_id] ∧
     attrs (self_of r) =
       <["strategy" := VObj s]> (<["audit" := VObj a]> (columns_of db_object ∪ attrs o)) ∧
     changed (self_of r) = ∅).
Proof.
  unfold _from_db_object.
  destruct (copy_columns_spec db_object column_fields o st)
    as (Ht & Hd & Hf & Hr & Hv).
  destruct (copy_columns db_object column_fields o st)
    as [[[]|e] o1 st1 t1] eqn:E; mstep E; cbn [res self_of db_of trace] in *;
    subst; [|by splits].
  pose proof (proj1 Hr eq_refl) as Hacc. specialize (Hv eq_refl).
  assert (Ha1 : attrs o1 = columns_of db_object ∪ attrs o).
  { apply map_eq. intros f. rewrite lookup_union, columns_of_lookup.
    destruct (decide (f ∈ column_fields)) as [Hin|Hin].
    - rewrite (Hv f Hin).
      destruct (accepts_lookup _ db_object f Hacc Hin) as [v ->].
      by destruct (attrs o !! f).
    - rewrite (Hf f Hin). by destruct (attrs o !! f). }
  assert (Hcol : ∀ f, f ∈ column_fields → ∃ v, db_object !! f = Some v ∧
                                            attrs o1 !! f = Some v).
  { intros f Hin. destruct (accepts_lookup _ db_object f Hacc Hin) as [v Hv'].
    exists v. split; auto. by rewrite (Hv f Hin). }
  destruct (Hcol "audit_id" (elem_of_column_fields "audit_id" eq_refl))
    as (a_id & Ha_row & Ha_obj).
  destruct (Hcol "strategy_id" (elem_of_column_fields "strategy_id" eq_refl))
    as (s_id & Hs_row & Hs_obj).
  destruct (load_object_fields_spec o1 st a_id s_id Ha_obj Hs_obj)
    as (Lt & Ld & Lr).
  destruct (load_object_fields dbapi object_fields o1 st)
    as [[[]|e] o2 st2 t2] eqn:EL; mstep EL; cbn [res self_of db_of trace] in *;
    rewrite ?app_nil_r; [|by splits].
  splits; auto.
  intros _. destruct (Lr eq_refl) as (a & s & H1 & H2 & H3 & H4 & H5 & H6 & H7).
  exists a_id, s_id, a, s. unfold obj_reset_changes. cbn [attrs changed].
  rewrite H6, Ha1. by splits.
Qed.

Lemma prefix_cons_fmap {A} (c : A → call) (c0 : call) n xs k :
  (c0 :: (c <$> take n xs)) `prefix_of` (c0 :: (c <$> xs) ++ k).
Proof.
  apply prefix_cons. rewrite <- (take_drop n xs) at 2. rewrite fmap_app.
  rewrite <- app_assoc. by apply prefix_app_r.
Qed.

(** [destroy]: the indicators are listed by the plan's uuid and destroyed
    one by one, then the plan's row is destroyed; the object's
    attributes are never written, and its change set is cleared at the
    very end. *)
Lemma destroy_spec (o : aobj) (st : store) uuid :
  attrs o !! "uuid" = Some uuid →
  let r := destroy dbapi o st in
  ∃ eis,
    trace r `prefix_of` destroy_calls uuid eis ∧
    db_of r = replay dbapi (trace r) st ∧
    (res r = Ok tt →
     (dbapi (EfficacyIndicator_list (by_action_plan_uuid uuid)) st).1 = Ok eis ∧
     trace r = destroy_calls uuid eis ∧ self_of r = obj_reset_changes o) ∧
    (res r ≠ Ok tt → self_of r = o).
Proof.
  intros Hu. unfold destroy, destroy_calls.
  mstep (getattr_Some _ _ _ st Hu).
  set (l := EfficacyIndicator_list (by_action_plan_uuid uuid)).
  destruct (dbapi l st) as [[eis|e] st1] eqn:El; mstep (invoke_eq l o _ _ _ El).
  2:{ exists []. cbn [replay]. rewrite El. splits; auto; try discriminate.
      by apply prefix_cons, prefix_nil. }
  exists eis.
  destruct (for_each_spec eis EfficacyIndicator_destroy
              (λ e, invoke dbapi (EfficacyIndicator_destroy e)) o st1)
    as (Fs & Fd & [n Fn] & Fr).
  { intros x s' st'. destruct (invoke_spec (EfficacyIndicator_destroy x) s' st')
      as (_ & H1 & H2 & H3). auto. }
  destruct (for_each eis _ o st1) as [[[]|e] o1 st2 t] eqn:EF; mstep EF;
    cbn [res self_of db_of trace] in *; subst o1.
  2:{ cbn [replay]. rewrite El. cbn [snd]. rewrite <- Fd.
      splits; auto; try discriminate. rewrite Fn. apply prefix_cons_fmap. }
  mstep (getattr_Some _ _ _ st2 Hu).
  set (d := destroy_action_plan uuid).
  rewrite (Fr eq_refl) in *.
  destruct (dbapi d st2) as [[[]|e] st3] eqn:Ed; mstep (invoke_eq d o _ _ _ Ed);
    cbn [replay]; rewrite El; cbn [snd]; rewrite replay_app, <- Fd;
    cbn [replay]; rewrite Ed; cbn [snd]; splits; auto; try discriminate;
    try done.
Qed.

Lemma destroy_unset (o : aobj) (st : store) :
  attrs o !! "uuid" = None →
  destroy dbapi o st = Out (Err (AttributeNotSet "uuid")) o st [].
Proof. intros Hu. unfold destroy. by mstep (getattr_None _ _ st Hu). Qed.

Lemma setattr_state_DELETED (o : aobj) (st : store) :
  setattr "state" (VStr State.DELETED) o st = Out (Ok tt) (marked_deleted o) st [].
Proof. reflexivity. Qed.

(** [soft_delete]: the actions are listed and soft-deleted, then the
    indicators are listed and soft-deleted, then the state is set to
    DELETED and saved, then the row is soft-deleted in storage and the
    object refreshed from the row that comes back. *)
Lemma soft_delete_spec (o : aobj) (st : store) uuid :
  attrs o !! "uuid" = Some uuid →
  let r := soft_delete dbapi o st in
  let updates := obj_get_changes (marked_deleted o) in
  ∃ acts eis uuid',
    trace r `prefix_of` soft_delete_calls uuid acts eis updates uuid' ∧
    db_of r = replay dbapi (trace r) st ∧
    (res r = Ok tt →
     trace r = soft_delete_calls uuid acts eis updates uuid' ∧
     ∃ st1 st3 st5 db_obj1 db_obj2,
       dbapi (Action_list (by_action_plan_uuid uuid)) st = (Ok acts, st1) ∧
       dbapi (EfficacyIndicator_list (by_action_plan_uuid uuid))
             (replay dbapi (Action_soft_delete <$> acts) st1) = (Ok eis, st3) ∧
       dbapi (update_action_plan uuid updates)
             (replay dbapi (EfficacyIndicator_soft_delete <$> eis) st3)
         = (Ok db_obj1, st5) ∧
       db_obj1 !! "uuid" = Some uuid' ∧
       dbapi (soft_delete_action_plan uuid') st5 = (Ok db_obj2, db_of r) ∧
       accepts column_fields db_obj1 = true ∧
       accepts column_fields db_obj2 = true ∧
       attrs (self_of r) =
         columns_of db_obj2 ∪ (columns_of db_obj1 ∪ attrs (marked_deleted o)) ∧
       changed (self_of r) = ∅).
Proof.
  intros Hu. unfold soft_delete, soft_delete_calls, cascade_calls.
  mstep (getattr_Some _ _ _ st Hu).
  set (f := by_action_plan_uuid uuid).
  (* the actions *)
  destruct (dbapi (Action_list f) st) as [[acts|e] st1] eqn:El;
    mstep (invoke_eq (Action_list f) o _ _ _ El).
  2:{ exists [], [], VNone. cbn [replay]. rewrite El.
      splits; auto; try discriminate. prefix_tac. }
  exists acts.
  destruct (for_each_spec acts Action_soft_delete
              (λ a, invoke dbapi (Action_soft_delete a)) o st1)
    as (Fs & Fd & [n Fn] & Fr).
  { intros x s' st'. destruct (invoke_spec (Action_soft_delete x) s' st')
      as (_ & H1 & H2 & H3). auto. }
  destruct (for_each acts _ o st1) as [[[]|e] o1 st2 t] eqn:EF; mstep EF;
    cbn [res self_of db_of trace] in *; subst o1.
  2:{ exists [], VNone. cbn [replay]. rewrite El. cbn [snd]. rewrite <- Fd.
      splits; auto; try discriminate. rewrite Fn. lnorm.
      apply prefix_cons_fmap. }
  rewrite (Fr eq_refl) in *. clear Fr Fn n.
  (* the efficacy indicators *)
  mstep (getattr_Some _ _ _ st2 Hu). fold f.
  destruct (dbapi (EfficacyIndicator_list f) st2) as [[eis|e] st3] eqn:El2;
    mstep (invoke_eq (EfficacyIndicator_list f) o _ _ _ El2).
  2:{ exists [], VNone. lnorm. cbn [replay]. rewrite El. cbn [snd].
      rewrite replay_app, <- Fd. cbn [replay]. rewrite El2.
      splits; auto; try discriminate. prefix_tac. }
  exists eis.
  destruct (for_each_spec eis EfficacyIndicator_soft_delete
              (λ a, invoke dbapi (EfficacyIndicator_soft_delete a)) o st3)
    as (Gs & Gd & [n Gn] & Gr).
  { intros x s' st'. destruct (invoke_spec (EfficacyIndicator_soft_delete x) s' st')
      as (_ & H1 & H2 & H3). auto. }
  destruct (for_each eis _ o st3) as [[[]|e] o1 st4 t'] eqn:EG; mstep EG;
    cbn [res self_of db_of trace] in *; subst o1.
  2:{ exists VNone. lnorm. cbn [replay]. rewrite El. cbn [snd].
      rewrite replay_app, <- Fd. cbn [replay]. rewrite El2. cbn [snd].
      rewrite <- Gd. splits; auto; try discriminate. rewrite Gn.
      apply prefix_cons, prefix_app. apply prefix_cons_fmap. }
  rewrite (Gr eq_refl) in *. clear Gr Gn n.
  (* the plan itself *)
  mstep (setattr_state_DELETED o st4).
  assert (Hu2 : attrs (marked_deleted o) !! "uuid" = Some uuid).
  { unfold marked_deleted. cbn [attrs]. by rewrite lookup_insert_ne. }
  destruct (save_spec (marked_deleted o) st4 uuid Hu2) as (St & Sd & Sf & Sr & Sv).
  set (upd := update_action_plan uuid (obj_get_changes (marked_deleted o))) in *.
  assert (Hrep : ∀ k, replay dbapi
                   (Action_list f :: (Action_soft_delete <$> acts) ++
                      EfficacyIndicator_list f ::
                      (EfficacyIndicator_soft_delete <$> eis) ++ k) st
                 = replay dbapi k st4).
  { intros k. cbn [replay]. rewrite El. cbn [snd].
    rewrite replay_app, <- Fd. cbn [replay]. rewrite El2. cbn [snd].
    by rewrite replay_app, <- Gd. }
  destruct (dbapi upd st4) as [[db_obj1|e] st5] eqn:Eu; cbn [fst snd] in *.
  2:{ destruct (save dbapi (marked_deleted o) st4) as [[[]|e'] o3 st5' t''] eqn:ES;
        mstep ES; cbn [res self_of db_of trace] in *; subst.
      - destruct (proj1 Sr eq_refl) as (? & ? & _). discriminate.
      - exists VNone. lnorm. rewrite Hrep. cbn [replay]. rewrite Eu. cbn [snd].
        splits; auto; try discriminate. prefix_tac. }
  destruct (save dbapi (marked_deleted o) st4) as [[[]|e'] o3 st5' t''] eqn:ES;
    mstep ES; cbn [res self_of db_of trace] in *; subst.
  2:{ exists VNone. lnorm. rewrite Hrep. cbn [replay]. rewrite Eu. cbn [snd].
      splits; auto; try discriminate. prefix_tac. }
  destruct (proj1 Sr eq_refl) as (d1 & Hd1 & Hacc1). inversion Hd1; subst d1.
  destruct (Sv db_obj1 eq_refl eq_refl) as [Sa Sc].
  destruct (accepts_lookup _ db_obj1 "uuid" Hacc1
              (elem_of_column_fields "uuid" eq_refl)) as [uuid' Hu'].
  assert (Hu3 : attrs o3 !! "uuid" = Some uuid').
  { rewrite Sa, lookup_union, columns_of_lookup.
    rewrite decide_True by exact (elem_of_column_fields "uuid" eq_refl).
    rewrite Hu'. by destruct (attrs (marked_deleted o) !! "uuid"). }
  exists uuid'.
  mstep (getattr_Some _ _ _ st5 Hu3).
  set (sd := soft_delete_action_plan uuid').
  destruct (dbapi sd st5) as [[db_obj2|e] st6] eqn:Esd;
    mstep (invoke_eq sd o3 _ _ _ Esd).
  2:{ lnorm. rewrite Hrep. cbn [replay]. rewrite Eu. cbn [snd]. rewrite Esd.
      splits; auto; try discriminate. }
  destruct (on_fresh_lazy_spec (S:=aobj) db_obj2 o3 st6) as (Ot & Od & Os & Or).
  destruct (on_fresh (_from_db_object dbapi db_obj2 false) o3 st6)
    as [ro o4 st7 t3] eqn:EO; mstep EO; cbn [res self_of db_of trace] in *; subst.
  lnorm. rewrite Hrep. cbn [replay]. rewrite Eu. cbn [snd]. rewrite Esd.
  cbn [snd].
  destruct Or as [[Hacc2 ->]|[Hacc2 [e ->]]]; msimpl;
    splits; auto; try discriminate.
  intros _. split; [done|].
  exists st1, st3, st5, db_obj1, db_obj2.
  unfold obj_refresh. cbn [attrs changed]. rewrite Sa. by splits.
Qed.

Lemma soft_delete_unset (o : aobj) (st : store) :
  attrs o !! "uuid" = None →
  soft_delete dbapi o st = Out (Err (AttributeNotSet "uuid")) o st [].
Proof. intros Hu. unfold soft_delete. by mstep (getattr_None _ _ st Hu). Qed.

(** Until the update of the plan's row is issued, [soft_delete] has not
    written the object: a run that stops during the cascade leaves it as
    it was. *)
Lemma soft_delete_untouched_before_save (o : aobj) (st : store) :
  let r := soft_delete dbapi o st in
  forallb (λ c, negb (is_update_call c)) (trace r) = true → self_of r = o.
Proof.
  destruct (attrs o !! "uuid") as [uuid|] eqn:Hu.
  2:{ unfold soft_delete. by mstep (getattr_None _ _ st Hu). }
  unfold soft_delete. mstep (getattr_Some _ _ _ st Hu).
  set (f := by_action_plan_uuid uuid).
  destruct (dbapi (Action_list f) st) as [[acts|e] st1] eqn:El;
    mstep (invoke_eq (Action_list f) o _ _ _ El); [|done].
  destruct (for_each_spec acts Action_soft_delete
              (λ a, invoke dbapi (Action_soft_delete a)) o st1) as (Fs & _).
  { intros x s' st'. destruct (invoke_spec (Action_soft_delete x) s' st')
      as (_ & H1 & H2 & H3). auto. }
  destruct (for_each acts _ o st1) as [[[]|e] o1 st2 t] eqn:EF; mstep EF;
    cbn [self_of] in Fs; subst o1; [|done].
  mstep (getattr_Some _ _ _ st2 Hu). fold f.
  destruct (dbapi (EfficacyIndicator_list f) st2) as [[eis|e] st3] eqn:El2;
    mstep (invoke_eq (EfficacyIndicator_list f) o _ _ _ El2); [|done].
  destruct (for_each_spec eis EfficacyIndicator_soft_delete
              (λ a, invoke dbapi (EfficacyIndicator_soft_delete a)) o st3)
    as (Gs & _).
  { intros x s' st'. destruct (invoke_spec (EfficacyIndicator_soft_delete x) s' st')
      as (_ & H1 & H2 & H3). auto. }
  destruct (for_each eis _ o st3) as [[[]|e] o1 st4 t'] eqn:EG; mstep EG;
    cbn [self_of] in Gs; subst o1; [|done].
  mstep (setattr_state_DELETED o st4).
  assert (Hu2 : attrs (marked_deleted o) !! "uuid" = Some uuid).
  { unfold marked_deleted. cbn [attrs]. by rewrite lookup_insert_ne. }
  destruct (save_spec (marked_deleted o) st4 uuid Hu2) as (St & _).
  intros Hno. exfalso. revert Hno.
  destruct (save dbapi (marked_deleted o) st4) as [rs o3 st5 ts] eqn:ES.
  cbn [trace] in St. subst ts. destruct rs as [[]|e]; mstep ES; lnorm;
    repeat (rewrite forallb_app || cbn [forallb is_update_call negb andb]);
    rewrite ?andb_false_r; discriminate.
Qed.

Lemma save_unset (o : aobj) (st : store) :
  attrs o !! "uuid" = None →
  save dbapi o st = Out (Err (AttributeNotSet "uuid")) o st [].
Proof. intros Hu. unfold save. msimpl. by mstep (getattr_None _ _ st Hu). Qed.

(** [create]: one call with the changes of the object, then the eager
    hydration from the row that comes back. *)
Lemma create_spec (o : aobj) (st : store) :
  let c := create_action_plan (obj_get_changes o) in
  let r := create dbapi o st in
  (∃ t, trace r = c :: t ∧ forallb is_related_get t = true) ∧
  db_of r = replay dbapi (trace r) st ∧
  (res r = Ok tt →
   ∃ db_action_plan a_id s_id a s st1 st2,
     dbapi c st = (Ok db_action_plan, st1) ∧
     accepts column_fields db_action_plan = true ∧
     db_action_plan !! "audit_id" = Some a_id ∧
     db_action_plan !! "strategy_id" = Some s_id ∧
     dbapi (Related_get_by_id Audit a_id) st1 = (Ok a, st2) ∧
     dbapi (Related_get_by_id Strategy s_id) st2 = (Ok s, db_of r) ∧
     rel_cls a = Audit ∧ rel_cls s = Strategy ∧
     trace r = [c; Related_get_by_id Audit a_id; Related_get_by_id Strategy s_id] ∧
     attrs (self_of r) =
       <["strategy" := VObj s]>
         (<["audit" := VObj a]> (columns_of db_action_plan ∪ attrs o)) ∧
     changed (self_of r) = ∅).
Proof.
  unfold create. msimpl.
  set (c := create_action_plan (obj_get_changes o)).
  destruct (dbapi c st) as [[db_action_plan|e] st1] eqn:Ec;
    mstep (invoke_eq c o _ _ _ Ec).
  2:{ cbn [replay]. rewrite Ec. splits; eauto; discriminate. }
  destruct (from_db_eager_spec db_action_plan o st1) as (Et & Ed & Er).
  cbn [replay]. rewrite Ec. cbn [snd]. splits; eauto.
  intros Hok. destruct (Er Hok)
    as (a_id & s_id & a & s & H1 & H2 & H3 & H4 & H5 & H6 & H7 & H8 & H9 & H10).
  destruct (dbapi (Related_get_by_id Audit a_id) st1) as [ra st2] eqn:Ea.
  cbn [fst snd] in *.
  destruct (dbapi (Related_get_by_id Strategy s_id) st2) as [rs st3] eqn:Es.
  cbn [fst snd] in *. subst ra rs.
  exists db_action_plan, a_id, s_id, a, s, st1, st2.
  rewrite Ed, H8. cbn [replay]. rewrite Ea. cbn [snd]. rewrite Es. cbn [snd].
  by splits.
Qed.

(** Hydration of a fresh instance, lazy or eager: the columns are the
    row's, no change is recorded, and only an eager one makes calls and
    sets the relationship fields. *)
Lemma on_fresh_spec {S} (db_object : row) eager (s : S) (st : store) o :
  let r := on_fresh (_from_db_object dbapi db_object eager) s st in
  res r = Ok o →
  changed o = ∅ ∧ accepts column_fields db_object = true ∧
  (∀ f, f ∈ column_fields → attrs o !! f = db_object !! f) ∧
  (eager = false → attrs o = columns_of db_object ∧ trace r = [] ∧ db_of r = st).
Proof.
  destruct eager.
  - unfold on_fresh. msimpl.
    destruct (from_db_eager_spec db_object new_obj st) as (Et & Ed & Er).
    destruct (_from_db_object dbapi db_object true new_obj st)
      as [[[]|e] o1 st1 t1] eqn:E; cbn [res self_of db_of trace] in *;
      [|discriminate].
    intros [= <-].
    destruct (Er eq_refl)
      as (a_id & s_id & a & s' & H1 & H2 & H3 & H4 & H5 & H6 & H7 & H8 & H9 & H10).
    splits; auto; try discriminate.
    intros f Hf. rewrite H9.
    assert (f ≠ "strategy" ∧ f ≠ "audit") as [Hn1 Hn2].
    { split; intros ->.
      - exact (not_elem_of_column_fields "strategy" eq_refl Hf).
      - exact (not_elem_of_column_fields "audit" eq_refl Hf). }
    rewrite !lookup_insert_ne by done.
    rewrite lookup_union, columns_of_lookup, decide_True by done.
    cbn [new_obj attrs]. rewrite lookup_empty.
    by destruct (db_object !! f).
  - destruct (on_fresh_lazy_spec (S:=S) db_object s st) as (Ot & Od & Os & Or).
    cbn zeta. intros Hr.
    destruct Or as [[Hacc Hr']|[_ [e Hr']]]; rewrite Hr' in Hr; [|discriminate].
    injection Hr as <-. cbn [attrs changed]. splits; auto.
    intros f Hf. by rewrite columns_of_lookup, decide_True.
Qed.

(** [get_by_uuid] and [get_by_id]: the lookup call first, then only
    fetches of related objects. *)
Lemma get_by_uuid_trace {S} uuid eager (s : S) (st : store) :
  ∃ t, trace (get_by_uuid dbapi uuid eager s st)
       = get_action_plan_by_uuid uuid eager :: t.
Proof.
  unfold get_by_uuid.
  destruct (dbapi (get_action_plan_by_uuid uuid eager) st) as [[d|e] st1] eqn:Ec;
    mstep (invoke_eq (get_action_plan_by_uuid uuid eager) s _ _ _ Ec); eauto.
Qed.

Lemma get_by_id_trace {S} action_plan_id eager (s : S) (st : store) :
  ∃ t, trace (get_by_id dbapi action_plan_id eager s st)
       = get_action_plan_by_id action_plan_id eager :: t.
Proof.
  unfold get_by_id.
  destruct (dbapi (get_action_plan_by_id action_plan_id eager) st)
    as [[d|e] st1] eqn:Ec;
    mstep (invoke_eq (get_action_plan_by_id action_plan_id eager) s _ _ _ Ec);
    eauto.
Qed.

Lemma get_by_uuid_Ok {S} uuid eager (s : S) (st : store) o :
  res (get_by_uuid dbapi uuid eager s st) = Ok o →
  ∃ db_action_plan st1,
    dbapi (get_action_plan_by_uuid uuid eager) st = (Ok db_action_plan, st1) ∧
    res (on_fresh (_from_db_object dbapi db_action_plan eager) s st1) = Ok o ∧
    db_of (get_by_uuid dbapi uuid eager s st)
    = db_of (on_fresh (_from_db_object dbapi db_action_plan eager) s st1).
Proof.
  unfold get_by_uuid.
  destruct (dbapi (get_action_plan_by_uuid uuid eager) st) as [[d|e] st1] eqn:Ec;
    mstep (invoke_eq (get_action_plan_by_uuid uuid eager) s _ _ _ Ec);
    [|discriminate].
  intros H. by exists d, st1.
Qed.

(** [refresh]: on success no change is recorded. *)
Lemma refresh_Ok eager (o : aobj) (st : store) :
  let r := refresh dbapi eager o st in
  res r = Ok tt →
  ∃ uuid current,
    attrs o !! "uuid" = Some uuid ∧
    res (get_by_uuid dbapi uuid eager o st) = Ok current ∧
    self_of r = obj_refresh o current.
Proof.
  unfold refresh. destruct (attrs o !! "uuid") as [uuid|] eqn:Hu.
  2:{ mstep (getattr_None _ _ st Hu). discriminate. }
  mstep (getattr_Some _ _ _ st Hu).
  assert (Hs : self_of (get_by_uuid dbapi uuid eager o st) = o).
  { unfold get_by_uuid.
    destruct (dbapi (get_action_plan_by_uuid uuid eager) st) as [[d|e] st1] eqn:Ec;
      by mstep (invoke_eq (get_action_plan_by_uuid uuid eager) o _ _ _ Ec). }
  destruct (get_by_uuid dbapi uuid eager o st) as [[current|e] o1 st1 t1] eqn:E;
    mstep E; [|discriminate].
  cbn [self_of] in Hs. subst o1. intros _. exists uuid, current.
  rewrite E. by splits.
Qed.
End Generic.

(** ** The reference storage *)

Section OnRefStore.
Import RefStore.

Lemma forallb_prefix {A} (p : A → bool) (t l : list A) :
  t `prefix_of` l → forallb p l = true → forallb p t = true.
Proof. intros [k ->]. rewrite forallb_app. by intros [H _]%andb_true_iff. Qed.

Lemma store_eta (st : store) : with_plans st (plans st) = st.
Proof. by destruct st. Qed.









Lemma find_plan_Some key v ps p :
  find_plan key v ps = Some p → p ∈ ps ∧ p_columns p !! key = Some v.
Proof.
  intros [Hin Hhas]%find_some. split; [by apply list_elem_of_In|].
  unfold has in Hhas. by apply bool_decide_eq_true in Hhas.
Qed.

Lemma find_plan_fmap key v (g : plan_row → plan_row) ps :
  (∀ p, has key v (g p) = has key v p) →
  find_plan key v (g <$> ps) = g <$> find_plan key v ps.
Proof.
  intros Hg. unfold find_plan. induction ps as [|p ps IH]; [done|].
  cbn [fmap list_fmap find]. rewrite Hg. destruct (has key v p); [done|].
  exact IH.
Qed.

Lemma find_plan_app_new key v ps p :
  existsb (has key v) ps = false → has key v p = true →
  find_plan key v (ps ++ [p]) = Some p.
Proof.
  unfold find_plan. induction ps as [|q ps IH]; cbn [existsb app find].
  - intros _ ->. done.
  - intros [Hq Hps]%orb_false_iff Hp. rewrite Hq. by apply IH.
Qed.

Lemma columns_of_empty : columns_of ∅ = ∅.
Proof. unfold columns_of. apply map_filter_empty. Qed.

Lemma related_get_store c id (st : store) :
  (dbapi (Related_get_by_id c id) st).2 = st.
Proof. cbn [dbapi]. unfold related_get. by case_match. Qed.

Lemma replay_related (cs : list call) (st : store) :
  forallb is_related_get cs = true → replay dbapi cs st = st.
Proof.
  revert st. induction cs as [|c cs IH]; intros st; [done|].
  cbn [forallb replay]. intros [Hc Hcs]%andb_true_iff.
  rewrite IH by done. destruct c; try discriminate. apply related_get_store.
Qed.

(** An update of no column returns the row and changes nothing. *)
Lemma update_empty uuid (st : store) p :
  find_plan "uuid" uuid (plans st) = Some p →
  dbapi (update_action_plan uuid ∅) st = (Ok (p_columns p), st).
Proof.
  intros Hf. cbn [dbapi]. unfold update_plan.
  rewrite bool_decide_false.
  2:{ rewrite dom_empty_L. intros [Hd|Hd]; by apply not_elem_of_empty in Hd. }
  assert (Hid : apply_updates uuid ∅ <$> plans st = plans st).
  { rewrite <- (list_fmap_id (plans st)) at 2. apply list_fmap_ext.
    intros i [cols del] _. unfold apply_updates. case_match; [|done].
    cbn. by rewrite columns_of_empty, (left_id_L ∅ (∪)). }
  rewrite Hid, Hf. by rewrite store_eta.
Qed.

Lemma has_apply_updates uuid updates (p : plan_row) :
  columns_of updates !! "uuid" = None →
  has "uuid" uuid (apply_updates uuid updates p) = has "uuid" uuid p.
Proof.
  intros Hu. destruct p as [cols del]. unfold apply_updates.
  destruct (has "uuid" uuid (PlanRow cols del)) eqn:E; [|done].
  unfold has in *. cbn [p_columns] in *. apply bool_decide_eq_true in E.
  apply bool_decide_eq_true. by rewrite lookup_union, Hu, E.
Qed.

(** Updating columns other than the uuid: the row found under the uuid
    afterwards is the one found before, with the columns overlaid. *)
Lemma update_plan_Ok uuid updates (st st' : store) db_obj :
  dbapi (update_action_plan uuid updates) st = (Ok db_obj, st') →
  ∃ p, find_plan "uuid" uuid (plans st) = Some p ∧
       db_obj = columns_of updates ∪ p_columns p ∧
       find_plan "uuid" uuid (plans st')
       = Some (PlanRow db_obj (p_deleted p)) ∧
       db_obj !! "uuid" = Some uuid.
Proof.
  cbn [dbapi]. unfold update_plan. case_bool_decide as Hdom; [discriminate|].
  assert (Hu : columns_of updates !! "uuid" = None).
  { rewrite columns_of_lookup. case_decide; [|done].
    apply not_elem_of_dom. intros Hin. apply Hdom. by left. }
  rewrite find_plan_fmap.
  2:{ intros q. by apply has_apply_updates. }
  destruct (find_plan "uuid" uuid (plans st)) as [p|] eqn:Ef; [|discriminate].
  destruct (find_plan_Some _ _ _ _ Ef) as [_ Hp].
  cbn [fmap option_fmap option_map]. unfold apply_updates at 1.
  unfold has at 1. rewrite bool_decide_true by done. cbn [p_columns].
  intros [= <- <-]. exists p. cbn [plans with_plans].
  rewrite find_plan_fmap.
  2:{ intros q. by apply has_apply_updates. }
  rewrite Ef. cbn [fmap option_fmap option_map]. unfold apply_updates.
  unfold has. rewrite bool_decide_true by done. splits; auto.
  change ((columns_of updates ∪ p_columns p : gmap string value) !! "uuid"
          = Some uuid).
  by rewrite lookup_union, Hu, Hp.
Qed.

Lemma soft_delete_plan_Ok uuid (st st' : store) db_obj p :
  find_plan "uuid" uuid (plans st) = Some p →
  dbapi (soft_delete_action_plan uuid) st = (Ok db_obj, st') →
  db_obj = p_columns p ∧
  find_plan "uuid" uuid (plans st') = Some (PlanRow (p_columns p) true).
Proof.
  intros Hf. cbn [dbapi]. unfold soft_delete_plan. rewrite Hf.
  intros [= <- <-]. split; [done|]. cbn [plans with_plans].
  rewrite find_plan_fmap.
  2:{ intros [cols del]. unfold mark_deleted. by case_match. }
  rewrite Hf. cbn [fmap option_fmap option_map]. unfold mark_deleted.
  destruct (find_plan_Some _ _ _ _ Hf) as [_ Hp].
  unfold has. by rewrite bool_decide_true.
Qed.

(** A created row is found again under the uuid it was given. *)
Lemma create_plan_Ok values (st st' : store) db_obj :
  dbapi (create_action_plan values) st = (Ok db_obj, st') →
  ∃ uuid, db_obj !! "uuid" = Some uuid ∧
          find_plan "uuid" uuid (plans st') = Some (PlanRow db_obj false) ∧
          related st' = related st.
Proof.
  cbn [dbapi]. unfold create_plan.
  set (uuid := match values !! "uuid" with
               | Some (VStr u) => VStr u
               | _ => VStr ("generated-" +:+ pretty (next_id st))
               end).
  destruct (existsb (has "uuid" uuid) (plans st)) eqn:Ex; [discriminate|].
  intros [= <- <-]. exists uuid. cbn [plans related].
  assert (Hu : (<["id":=VInt (next_id st)]>
                  (<["uuid":=uuid]> (columns_of values ∪ defaults)) : row)
               !! "uuid" = Some uuid).
  { rewrite lookup_insert_ne by done. by rewrite lookup_insert_eq. }
  splits; auto. apply find_plan_app_new; [done|].
  unfold has. by apply bool_decide_eq_true.
Qed.

Lemma lookup_plan_uuid uuid eager (st : store) p :
  find_plan "uuid" uuid (plans st) = Some p →
  dbapi (get_action_plan_by_uuid uuid eager) st = (Ok (p_columns p), st).
Proof. intros H. cbn [dbapi]. unfold lookup_plan. by rewrite H. Qed.

Lemma lookup_plan_uuid_Ok uuid eager (st st' : store) db_obj :
  dbapi (get_action_plan_by_uuid uuid eager) st = (Ok db_obj, st') →
  st' = st ∧ ∃ p, find_plan "uuid" uuid (plans st) = Some p ∧ db_obj = p_columns p.
Proof.
  cbn [dbapi]. unfold lookup_plan.
  destruct (find_plan "uuid" uuid (plans st)) as [p|] eqn:E; [|discriminate].
  intros [= <- <-]. eauto.
Qed.
End OnRefStore.

(** ** Order of the cascade *)

Lemma forallb_fmap_all {A} (p : call → bool) (c : A → call) (xs : list A) :
  (∀ x, p (c x) = true) → forallb p (c <$> xs) = true.
Proof. intros H. induction xs as [|x xs IH]; [done|]. cbn. by rewrite H, IH. Qed.

Lemma cascade_calls_no_update uuid acts eis :
  forallb (λ c, negb (is_update_call c)) (cascade_calls uuid acts eis) = true.
Proof.
  unfold cascade_calls. cbn [forallb is_update_call negb andb].
  rewrite forallb_app. cbn [forallb is_update_call negb andb].
  by rewrite !forallb_fmap_all.
Qed.


(** ** soft_delete: order of the cascade and of the save *)



(** ** destroy: the cascade and the object *)

Lemma destroy_calls_no_update uuid eis :
  forallb (λ c, negb (is_update_call c)) (destroy_calls uuid eis) = true.
Proof.
  unfold destroy_calls. cbn [forallb is_update_call negb andb].
  rewrite forallb_app. by rewrite forallb_fmap_all.
Qed.



(** C10. [destroy] never writes an attribute of the object: whatever the
    storage answers, the attributes after it are those before it; it
    issues no update of the row (no save); the change set is cleared when
    it completes, and the object is untouched when it raises. *)
Theorem destroy_writes_no_field :
  ∀ (store : Type) (dbapi : collaborator store) (o : aobj) (st : store),
    let r := destroy dbapi o st in
    attrs (self_of r) = attrs o ∧
    forallb (λ c, negb (is_update_call c)) (trace r) = true ∧
    (res r = Ok tt → self_of r = obj_reset_changes o) ∧
    (res r ≠ Ok tt → self_of r = o).
Proof.
  intros store dbapi o st. cbn zeta.
  destruct (attrs o !! "uuid") as [uuid|] eqn:Hu.
  - destruct (destroy_spec dbapi o st uuid Hu) as (eis & Hp & Hd & Hr & He).
    splits.
    + destruct (res (destroy dbapi o st)) as [[]|e] eqn:E.
      * destruct (Hr eq_refl) as (_ & _ & ->). reflexivity.
      * rewrite He; [done|discriminate].
    + eapply forallb_prefix; [exact Hp|]. apply destroy_calls_no_update.
    + intros Hok. by destruct (Hr Hok) as (_ & _ & ->).
    + exact He.
  - rewrite (destroy_unset dbapi o st Hu). by splits.
Qed.

(** ** get: the identifier resolver *)

Lemma get_by_id_no_lookup_by_uuid {S store} (dbapi : collaborator store)
    action_plan_id eager (s : S) (st : store) :
  existsb is_lookup_by_uuid (trace (get_by_id dbapi action_plan_id eager s st))
  = false.
Proof.
  unfold get_by_id.
  destruct (dbapi (get_action_plan_by_id action_plan_id eager) st)
    as [[d|e] st1] eqn:Ec;
    mstep (invoke_eq dbapi (get_action_plan_by_id action_plan_id eager) s _ _ _ Ec);
    [|reflexivity].
  cbn [existsb is_lookup_by_uuid orb]. unfold on_fresh. cbn [trace].
  assert (Hrel : forallb is_related_get
                   (trace (_from_db_object dbapi d eager new_obj st1)) = true).
  { destruct eager.
    - by destruct (from_db_eager_spec dbapi d new_obj st1) as (Ht & _).
    - by destruct (from_db_lazy_spec dbapi d new_obj st1) as (-> & _). }
  revert Hrel. generalize (trace (_from_db_object dbapi d eager new_obj st1)).
  intros t. induction t as [|c t IH]; [done|]. cbn [forallb existsb].
  intros [Hc Ht]%andb_true_iff. rewrite (IH Ht). by destruct c.
Qed.

(** C3, as the code has it. [get] on a string key: an integer-like key
    is resolved by [get_by_id], which asks the storage for the row by id;
    a key that is not integer-like and is UUID-like is resolved by
    [get_by_uuid], which asks the storage for the row by uuid; any other
    key raises InvalidIdentity carrying the key, without any call.  The
    integer test comes first in the code: a key that both tests accept is
    resolved by id, and no lookup by uuid is made for it. *)
Theorem get_resolves_by_kind_of_key :
  ∀ (store : Type) (dbapi : collaborator store)
    (is_int_like is_uuid_like : value → bool)
    (key : string) (eager : bool) (st : store),
    let r := get dbapi is_int_like is_uuid_like (VStr key) eager tt st in
    (is_int_like (VStr key) = true →
     r = get_by_id dbapi (VStr key) eager tt st ∧
     ∃ t, trace r = get_action_plan_by_id (VStr key) eager :: t) ∧
    (is_int_like (VStr key) = false → is_uuid_like (VStr key) = true →
     r = get_by_uuid dbapi (VStr key) eager tt st ∧
     ∃ t, trace r = get_action_plan_by_uuid (VStr key) eager :: t) ∧
    (is_int_like (VStr key) = false → is_uuid_like (VStr key) = false →
     res r = Err (InvalidIdentity (VStr key)) ∧ trace r = [] ∧ db_of r = st) ∧
    (is_int_like (VStr key) = true → is_uuid_like (VStr key) = true →
     r = get_by_id dbapi (VStr key) eager tt st ∧
     existsb is_lookup_by_uuid (trace r) = false).
Proof.
  intros store dbapi is_int_like is_uuid_like key eager st. cbn zeta.
  unfold get. splits.
  - intros ->. split; [done|]. apply get_by_id_trace.
  - intros -> ->. split; [done|]. apply get_by_uuid_trace.
  - intros -> ->. by splits.
  - intros -> _. split; [done|]. apply get_by_id_no_lookup_by_uuid.
Qed.

Lemma get_resolves_by_kind_of_key_witness :
  (Utils.is_int_like (VStr "2") = true ∧
   res (get RefStore.dbapi Utils.is_int_like Utils.is_uuid_like
          (VStr "2") false tt Sample.st0)
   = Ok (AObj Sample.plan2 ∅)) ∧
  (Utils.is_int_like (VStr Sample.plan_uuid) = false ∧
   Utils.is_uuid_like (VStr Sample.plan_uuid) = true ∧
   res (get RefStore.dbapi Utils.is_int_like Utils.is_uuid_like
          (VStr Sample.plan_uuid) false tt Sample.st0)
   = Ok Sample.loaded) ∧
  (Utils.is_int_like (VStr "plan-1") = false ∧
   Utils.is_uuid_like (VStr "plan-1") = false ∧
   res (get RefStore.dbapi Utils.is_int_like Utils.is_uuid_like
          (VStr "plan-1") false tt Sample.st0)
   = Err (InvalidIdentity (VStr "plan-1"))).
Proof.
  pose proof (get_resolves_by_kind_of_key RefStore.store RefStore.dbapi
                Utils.is_int_like Utils.is_uuid_like) as H.
  split; [split; [reflexivity|]
        |split; [split; [reflexivity|split; [reflexivity|]]
                |split; [reflexivity|split; [reflexivity|]]]].
  - destruct (H "2" false Sample.st0) as ((-> & _) & _); [reflexivity|].
    vm_compute. reflexivity.
  - destruct (H Sample.plan_uuid false Sample.st0) as (_ & (-> & _) & _);
      [reflexivity|reflexivity|]. vm_compute. reflexivity.
  - destruct (H "plan-1" false Sample.st0) as (_ & _ & (-> & _) & _);
      [reflexivity|reflexivity|]. reflexivity.
Defined.

(** C3, as stated, fails: a key can be integer-like and UUID-like at
    once -- thirty-two decimal digits are a number and, without the
    hyphens, the digits of a UUID -- and [get] resolves such a key by id:
    the lookup by id is its only call, and none is made by uuid. *)
Lemma get_resolves_a_numeric_uuid_by_id :
  let key := VStr "12345678123456781234567812345678" in
  let r := get RefStore.dbapi Utils.is_int_like Utils.is_uuid_like_or_plain
             key false tt Sample.st0 in
  Utils.is_int_like key = true ∧
  Utils.is_uuid_like_or_plain key = true ∧
  trace r = [get_action_plan_by_id key false] ∧
  existsb is_lookup_by_uuid (trace r) = false ∧
  trace (get_by_uuid RefStore.dbapi key false tt Sample.st0)
  = [get_action_plan_by_uuid key false].
Proof. cbn zeta. splits; vm_compute; reflexivity. Qed.

(** ** save *)

(** C4. [save] on a plan with a uuid: the changes are computed, and the
    storage is asked, once, to update the row of that uuid with exactly
    them (each changed field with its current value, and no other field);
    when the storage returns a row, every column of the object is then the
    row's, the relationship fields are left as they were, and no change
    is recorded. *)
Theorem save_persists_changes_and_rehydrates :
  ∀ (store : Type) (dbapi : collaborator store) (o : aobj) (st : store)
    (uuid : value),
    attrs o !! "uuid" = Some uuid →
    let updates := obj_get_changes o in
    let c := update_action_plan uuid updates in
    let r := save dbapi o st in
    (∀ f v, updates !! f = Some v ↔ f ∈ changed o ∧ attrs o !! f = Some v) ∧
    trace r = [c] ∧
    db_of r = (dbapi c st).2 ∧
    (res r = Ok tt ↔
     ∃ db_obj, (dbapi c st).1 = Ok db_obj ∧ accepts column_fields db_obj = true) ∧
    (∀ db_obj, (dbapi c st).1 = Ok db_obj → res r = Ok tt →
       (∀ f, f ∈ column_fields → attrs (self_of r) !! f = db_obj !! f) ∧
       (∀ f, f ∉ column_fields → attrs (self_of r) !! f = attrs o !! f) ∧
       changed (self_of r) = ∅ ∧
       obj_get_changes (self_of r) = ∅).
Proof.
  intros store dbapi o st uuid Hu. cbn zeta.
  destruct (save_spec dbapi o st uuid Hu) as (Ht & Hd & Hf & Hr & Hv).
  splits; auto.
  - intros f v. rewrite obj_get_changes_lookup.
    destruct (decide (f ∈ changed o)) as [Hin|Hin]; split.
    + by intros ->.
    + by intros [_ ->].
    + discriminate.
    + by intros [? _].
  - intros db_obj Hdb Hok. destruct (Hv db_obj Hdb Hok) as [Ha Hc].
    splits; auto.
    + intros f Hin. rewrite Ha, lookup_union, columns_of_lookup.
      rewrite decide_True by done.
      destruct (proj1 Hr Hok) as (d & Hd' & Hacc).
      rewrite Hdb in Hd'. injection Hd' as <-.
      destruct (accepts_lookup _ db_obj f Hacc Hin) as [v Hv'].
      cbn [ret_of] in *. rewrite Hv'.
      by destruct (attrs o !! f).
    + by apply obj_get_changes_empty.
Qed.

Lemma save_persists_changes_and_rehydrates_witness :
  attrs (marked_deleted Sample.loaded) !! "uuid" = Some (VStr Sample.plan_uuid) ∧
  trace (save RefStore.dbapi (marked_deleted Sample.loaded) Sample.st0)
  = [update_action_plan (VStr Sample.plan_uuid)
       {[ "state" := VStr State.DELETED ]}] ∧
  res (save RefStore.dbapi (marked_deleted Sample.loaded) Sample.st0) = Ok tt.
Proof.
  destruct (save_persists_changes_and_rehydrates RefStore.store RefStore.dbapi
              (marked_deleted Sample.loaded) Sample.st0 (VStr Sample.plan_uuid)
              eq_refl) as (_ & Ht & _).
  split; [reflexivity|]. split; [|vm_compute; reflexivity].
  rewrite Ht. vm_compute. reflexivity.
Defined.

(** ** create *)

Lemma transient_changes (o : aobj) : transient o → obj_get_changes o = attrs o.
Proof.
  intros Ht. apply map_eq. intros k. rewrite obj_get_changes_lookup.
  destruct (decide (k ∈ changed o)) as [Hin|Hin]; [done|].
  symmetry. apply not_elem_of_dom. intros Hd. apply Hin. by apply Ht.
Qed.

Lemma transient_new_obj : transient new_obj.
Proof. unfold transient, new_obj. cbn. by rewrite dom_empty_L. Qed.

Lemma transient_setattr {store} name v (o : aobj) (st : store) :
  transient o → transient (self_of (setattr name v o st)).
Proof.
  intros Ht. destruct (setattr_spec name v o st) as (_ & _ & Hs).
  destruct Hs as [(f & _ & _ & _ & ->)|(_ & -> & _)]; [|done].
  unfold transient in *. cbn [attrs changed]. rewrite dom_insert_L.
  by apply union_mono_l.
Qed.

(** C5. [create]: the storage is asked to create a row from the changes
    of the object, which for a transient object are all the fields set so
    far; the row that comes back is then loaded eagerly, whatever the
    caller's habits: the audit is fetched by the row's [audit_id], then
    the strategy by its [strategy_id]; after a [create] that succeeds,
    reading [audit] and [strategy] yields the fetched objects, of the
    right class, without any further call, and no change is recorded. *)
Theorem create_persists_all_and_loads_eagerly :
  ∀ (store : Type) (dbapi : collaborator store) (o : aobj) (st : store),
    let c := create_action_plan (obj_get_changes o) in
    let r := create dbapi o st in
    (transient o → obj_get_changes o = attrs o) ∧
    (∃ t, trace r = c :: t ∧ forallb is_related_get t = true) ∧
    (res r = Ok tt →
     ∃ db_action_plan a_id s_id a s st1 st2,
       dbapi c st = (Ok db_action_plan, st1) ∧
       db_action_plan !! "audit_id" = Some a_id ∧
       db_action_plan !! "strategy_id" = Some s_id ∧
       dbapi (Related_get_by_id Audit a_id) st1 = (Ok a, st2) ∧
       dbapi (Related_get_by_id Strategy s_id) st2 = (Ok s, db_of r) ∧
       rel_cls a = Audit ∧ rel_cls s = Strategy ∧
       trace r = [c; Related_get_by_id Audit a_id; Related_get_by_id Strategy s_id] ∧
       getattr "audit" (self_of r) (db_of r)
         = Out (Ok (VObj a)) (self_of r) (db_of r) [] ∧
       getattr "strategy" (self_of r) (db_of r)
         = Out (Ok (VObj s)) (self_of r) (db_of r) [] ∧
       (∀ f, f ∈ column_fields → attrs (self_of r) !! f = db_action_plan !! f) ∧
       changed (self_of r) = ∅).
Proof.
  intros store dbapi o st. cbn zeta.
  destruct (create_spec dbapi o st) as (Ht & Hd & Hr).
  splits; auto using transient_changes.
  intros Hok. destruct (Hr Hok)
    as (row & a_id & s_id & a & s & st1 & st2 & H1 & H2 & H3 & H4 & H5 & H6
        & H7 & H8 & H9 & H10 & H11).
  exists row, a_id, s_id, a, s, st1, st2. splits; auto.
  - apply getattr_Some. rewrite H10.
    rewrite lookup_insert_ne by done. by rewrite lookup_insert_eq.
  - apply getattr_Some. rewrite H10. by rewrite lookup_insert_eq.
  - intros f Hf. rewrite H10.
    assert (f ≠ "strategy" ∧ f ≠ "audit") as [Hn1 Hn2].
    { split; intros ->.
      - exact (not_elem_of_column_fields "strategy" eq_refl Hf).
      - exact (not_elem_of_column_fields "audit" eq_refl Hf). }
    rewrite !lookup_insert_ne by done.
    rewrite lookup_union, columns_of_lookup, decide_True by done.
    destruct (accepts_lookup _ row f H2 Hf) as [v Hv].
    cbn [ret_of] in *. rewrite Hv. by destruct (attrs o !! f).
Qed.

Lemma create_persists_all_and_loads_eagerly_witness :
  transient Sample.transient1 ∧
  res (create RefStore.dbapi Sample.transient1 Sample.st0) = Ok tt ∧
  trace (create RefStore.dbapi Sample.transient1 Sample.st0)
  = [ create_action_plan (attrs Sample.transient1);
      Related_get_by_id Audit (VInt 10);
      Related_get_by_id Strategy (VInt 20) ] ∧
  res (getattr "audit"
         (self_of (create RefStore.dbapi Sample.transient1 Sample.st0))
         (db_of (create RefStore.dbapi Sample.transient1 Sample.st0)))
  = Ok (VObj Sample.audit1).
Proof.
  assert (Ht : transient Sample.transient1).
  { unfold transient. apply (bool_decide_unpack _). vm_compute. exact I. }
  destruct (create_persists_all_and_loads_eagerly RefStore.store RefStore.dbapi
              Sample.transient1 Sample.st0) as (Hc & _ & _).
  split; [exact Ht|]. split; [vm_compute; reflexivity|]. split.
  - rewrite <- (Hc Ht). vm_compute. reflexivity.
  - vm_compute. reflexivity.
Defined.

(** ** The change set *)

Lemma get_by_id_Ok {S store} (dbapi : collaborator store) action_plan_id eager
    (s : S) (st : store) o :
  res (get_by_id dbapi action_plan_id eager s st) = Ok o →
  ∃ db_action_plan st1,
    dbapi (get_action_plan_by_id action_plan_id eager) st = (Ok db_action_plan, st1) ∧
    res (on_fresh (_from_db_object dbapi db_action_plan eager) s st1) = Ok o.
Proof.
  unfold get_by_id.
  destruct (dbapi (get_action_plan_by_id action_plan_id eager) st)
    as [[d|e] st1] eqn:Ec;
    mstep (invoke_eq dbapi (get_action_plan_by_id action_plan_id eager) s _ _ _ Ec);
    [|discriminate].
  intros H. by exists d, st1.
Qed.

Lemma changes_after_setattr {store} name v (o : aobj) (st : store) :
  changed o = ∅ → res (setattr name v o st) = Ok tt →
  obj_get_changes (self_of (setattr name v o st)) = {[ name := v ]}.
Proof.
  intros Hc Hr. destruct (setattr_spec name v o st) as (_ & _ & Hs).
  destruct Hs as [(f & _ & _ & _ & ->)|((e & He) & _)]; [|congruence].
  apply map_eq. intros k. rewrite obj_get_changes_lookup. cbn [attrs changed].
  rewrite Hc, (right_id_L ∅ (∪)).
  destruct (decide (k = name)) as [->|Hne].
  - rewrite decide_True by (by apply elem_of_singleton).
    by rewrite lookup_insert_eq, lookup_singleton_eq.
  - rewrite decide_False by (by rewrite elem_of_singleton).
    by rewrite lookup_singleton_ne.
Qed.

(** ** The state that is persisted *)

Lemma elem_of_prefix {A} (x : A) (t l : list A) : t `prefix_of` l → x ∈ t → x ∈ l.
Proof. intros [k ->] H. apply elem_of_app. by left. Qed.

Lemma update_in_soft_delete_calls uuid acts eis updates uuid' u upd :
  update_action_plan u upd ∈ soft_delete_calls uuid acts eis updates uuid' →
  upd = updates.
Proof.
  unfold soft_delete_calls. intros [H|H]%elem_of_app.
  - pose proof (cascade_calls_no_update uuid acts eis) as Hno.
    rewrite forallb_forall in Hno. apply list_elem_of_In, Hno in H. discriminate.
  - apply elem_of_cons in H as [H|H]; [by injection H|].
    apply elem_of_cons in H as [H|H]; [discriminate|]. by apply not_elem_of_nil in H.
Qed.

Lemma marked_deleted_state (o : aobj) :
  obj_get_changes (marked_deleted o) !! "state" = Some (VStr State.DELETED).
Proof.
  rewrite obj_get_changes_lookup. unfold marked_deleted. cbn [attrs changed].
  rewrite decide_True by (apply elem_of_union_l; by apply elem_of_singleton).
  by rewrite lookup_insert_eq.
Qed.

(** On the reference storage, a [soft_delete] that succeeds leaves the
    state DELETED in the object and in the stored row. *)
Lemma soft_delete_on_refstore (o : aobj) (st : RefStore.store) uuid :
  attrs o !! "uuid" = Some uuid →
  let r := soft_delete RefStore.dbapi o st in
  res r = Ok tt →
  attrs (self_of r) !! "state" = Some (VStr State.DELETED) ∧
  ∃ p, RefStore.find_plan "uuid" uuid (RefStore.plans (db_of r)) = Some p ∧
       RefStore.p_columns p !! "state" = Some (VStr State.DELETED) ∧
       RefStore.p_deleted p = true.
Proof.
  intros Hu r Hok. subst r.
  destruct (soft_delete_spec RefStore.dbapi o st uuid Hu)
    as (acts & eis & uuid' & _ & _ & Hr).
  destruct (Hr Hok)
    as (_ & st1 & st3 & st5 & d1 & d2 & _ & _ & H3 & H4 & H5 & H6 & H7 & H8 & H9).
  destruct (update_plan_Ok _ _ _ _ _ H3) as (p & Hp & Hd1 & Hf5 & Hu1).
  cbn [ret_of] in *. rewrite Hu1 in H4. injection H4 as <-.
  destruct (soft_delete_plan_Ok _ _ _ _ _ Hf5 H5) as [Hd2 Hf6].
  cbn [RefStore.p_columns] in Hd2, Hf6. subst d2.
  assert (Hs : d1 !! "state" = Some (VStr State.DELETED)).
  { rewrite Hd1, lookup_union, columns_of_lookup.
    rewrite decide_True by exact (elem_of_column_fields "state" eq_refl).
    rewrite marked_deleted_state. by destruct (RefStore.p_columns p !! "state"). }
  split.
  - rewrite H8, lookup_union, columns_of_lookup.
    rewrite decide_True by exact (elem_of_column_fields "state" eq_refl).
    rewrite Hs. by destruct ((columns_of d1 ∪ attrs (marked_deleted o)) !! "state").
  - eexists. split; [exact Hf6|]. by split.
Qed.

(** C7, as the code has it. The class [State] lists seven values, DELETED
    among them. Whatever the state of the plan was, the update that
    [soft_delete] has the storage apply carries state = DELETED, and on
    the reference storage a [soft_delete] that succeeds leaves DELETED in
    the object and in the stored row.  The state field itself is a
    string field: [save] hands the storage whatever string was assigned,
    and nothing in this module restricts it to the seven values. *)
Theorem soft_delete_forces_DELETED :
  (length State.values = 7%nat ∧ NoDup State.values ∧
   State.DELETED ∈ State.values) ∧
  (∀ (store : Type) (dbapi : collaborator store) (o : aobj) (st : store) u upd,
     update_action_plan u upd ∈ trace (soft_delete dbapi o st) →
     upd !! "state" = Some (VStr State.DELETED)) ∧
  (∀ (st : RefStore.store) (o : aobj) (uuid : value),
     attrs o !! "uuid" = Some uuid →
     let r := soft_delete RefStore.dbapi o st in
     res r = Ok tt →
     attrs (self_of r) !! "state" = Some (VStr State.DELETED) ∧
     ∃ p, RefStore.find_plan "uuid" uuid (RefStore.plans (db_of r)) = Some p ∧
          RefStore.p_columns p !! "state" = Some (VStr State.DELETED) ∧
          RefStore.p_deleted p = true) ∧
  (∀ (store : Type) (dbapi : collaborator store) (o : aobj) (st : store)
     (uuid : value) (s : string),
     attrs o !! "uuid" = Some uuid →
     let o' := self_of (setattr "state" (VStr s) o st) in
     res (setattr "state" (VStr s) o st) = Ok tt ∧
     trace (save dbapi o' st) = [update_action_plan uuid (obj_get_changes o')] ∧
     obj_get_changes o' !! "state" = Some (VStr s)).
Proof.
  splits.
  - reflexivity.
  - apply (bool_decide_unpack _). vm_compute. exact I.
  - apply (bool_decide_unpack _). vm_compute. exact I.
  - intros store dbapi o st u upd Hin.
    destruct (attrs o !! "uuid") as [uuid|] eqn:Hu.
    + destruct (soft_delete_spec dbapi o st uuid Hu)
        as (acts & eis & uuid' & Hp & _).
      apply (elem_of_prefix _ _ _ Hp) in Hin.
      apply update_in_soft_delete_calls in Hin as ->.
      apply marked_deleted_state.
    + rewrite (soft_delete_unset dbapi o st Hu) in Hin. cbn in Hin.
      by apply not_elem_of_nil in Hin.
  - intros st o uuid Hu. by apply soft_delete_on_refstore.
  - intros store dbapi o st uuid s Hu. cbn zeta.
    assert (Hset : setattr "state" (VStr s) o st
                   = Out (Ok tt)
                       (AObj (<["state" := VStr s]> (attrs o))
                             ({["state"]} ∪ changed o)) st []) by reflexivity.
    rewrite Hset. cbn [res self_of].
    set (o' := AObj (<["state" := VStr s]> (attrs o)) ({["state"]} ∪ changed o)).
    assert (Hu' : attrs o' !! "uuid" = Some uuid).
    { unfold o'. cbn [attrs]. by rewrite lookup_insert_ne. }
    destruct (save_spec dbapi o' st uuid Hu') as (Ht & _).
    splits; auto.
    rewrite obj_get_changes_lookup. unfold o'. cbn [attrs changed].
    rewrite decide_True by (apply elem_of_union_l; by apply elem_of_singleton).
    by rewrite lookup_insert_eq.
Qed.

Lemma soft_delete_forces_DELETED_witness :
  attrs Sample.loaded !! "uuid" = Some (VStr Sample.plan_uuid) ∧
  attrs Sample.loaded !! "state" = Some (VStr State.ONGOING) ∧
  res (soft_delete RefStore.dbapi Sample.loaded Sample.st0) = Ok tt ∧
  attrs (self_of (soft_delete RefStore.dbapi Sample.loaded Sample.st0)) !! "state"
  = Some (VStr State.DELETED).
Proof.
  assert (Hok : res (soft_delete RefStore.dbapi Sample.loaded Sample.st0) = Ok tt)
    by (vm_compute; reflexivity).
  split; [reflexivity|]. split; [reflexivity|]. split; [exact Hok|].
  exact (proj1 (proj1 (proj2 (proj2 soft_delete_forces_DELETED))
                  Sample.st0 Sample.loaded (VStr Sample.plan_uuid) eq_refl Hok)).
Defined.

(** C7, as stated, fails: a plan whose state was assigned a string that
    is none of the seven values is saved with that string, and the stored
    row then carries it. *)
Lemma save_persists_a_state_outside_State :
  let assigned := setattr "state" (VStr "SUPERSEDED") Sample.loaded Sample.st0 in
  let r := save RefStore.dbapi (self_of assigned) Sample.st0 in
  res assigned = Ok tt ∧
  res r = Ok tt ∧
  trace r = [update_action_plan (VStr Sample.plan_uuid)
               {[ "state" := VStr "SUPERSEDED" ]}] ∧
  (RefStore.find_plan "uuid" (VStr Sample.plan_uuid) (RefStore.plans (db_of r))
     ≫= λ p, RefStore.p_columns p !! "state") = Some (VStr "SUPERSEDED") ∧
  bool_decide ("SUPERSEDED" ∈ State.values) = false.
Proof. cbn zeta. splits; vm_compute; reflexivity. Qed.

(** ** save without changes *)

Lemma on_fresh_db_refstore {S} (db_object : row) eager (s : S) (st : RefStore.store) :
  db_of (on_fresh (_from_db_object RefStore.dbapi db_object eager) s st) = st.
Proof.
  unfold on_fresh. cbn [db_of]. destruct eager.
  - destruct (from_db_eager_spec RefStore.dbapi db_object new_obj st) as (Ht & -> & _).
    by apply replay_related.
  - by destruct (from_db_lazy_spec RefStore.dbapi db_object new_obj st) as (_ & -> & _).
Qed.

(** A plan as [get_by_uuid] loads it from the reference storage. *)
Lemma loaded_from_refstore uuid eager (st : RefStore.store) (o : aobj) :
  res (get_by_uuid RefStore.dbapi uuid eager tt st) = Ok o →
  db_of (get_by_uuid RefStore.dbapi uuid eager tt st) = st ∧
  changed o = ∅ ∧
  ∃ p, RefStore.find_plan "uuid" uuid (RefStore.plans st) = Some p ∧
       accepts column_fields (RefStore.p_columns p) = true ∧
       attrs o !! "uuid" = Some uuid ∧
       ∀ f, f ∈ column_fields → attrs o !! f = RefStore.p_columns p !! f.
Proof.
  intros H. destruct (get_by_uuid_Ok RefStore.dbapi _ _ _ _ _ H)
    as (d & st1 & Hl & Hf & Hd).
  destruct (lookup_plan_uuid_Ok _ _ _ _ _ Hl) as (-> & p & Hp & ->).
  destruct (on_fresh_spec RefStore.dbapi _ eager tt st o Hf) as (Hc & Hacc & Hcol & _).
  rewrite Hd, on_fresh_db_refstore. splits; auto.
  exists p. splits; auto.
  rewrite (Hcol "uuid" (elem_of_column_fields "uuid" eq_refl)).
  by destruct (find_plan_Some _ _ _ _ Hp).
Qed.

(** C8. [save] without changes still goes to the storage, with an empty
    update.  On the reference storage, for a plan loaded by
    [get_by_uuid] and not modified: [save] succeeds, the storage is what
    it was, the object is what it was; and so a second [save] does the
    same. *)
Theorem save_without_changes_is_a_noop :
  (∀ (store : Type) (dbapi : collaborator store) (o : aobj) (st : store)
     (uuid : value),
     attrs o !! "uuid" = Some uuid → changed o = ∅ →
     trace (save dbapi o st) = [update_action_plan uuid ∅])
  ∧
  (∀ (st : RefStore.store) (uuid : value) (eager : bool) (o : aobj),
     let r0 := get_by_uuid RefStore.dbapi uuid eager tt st in
     res r0 = Ok o →
     let r1 := save RefStore.dbapi o (db_of r0) in
     let r2 := save RefStore.dbapi (self_of r1) (db_of r1) in
     (res r1 = Ok tt ∧ db_of r1 = st ∧ self_of r1 = o) ∧
     (res r2 = Ok tt ∧ db_of r2 = st ∧ self_of r2 = o)).
Proof.
  split.
  - intros store dbapi o st uuid Hu Hc.
    destruct (save_spec dbapi o st uuid Hu) as (Ht & _).
    by rewrite Ht, (obj_get_changes_empty o Hc).
  - intros st uuid eager o r0 Hok. subst r0.
    destruct (loaded_from_refstore uuid eager st o Hok)
      as (-> & Hc & p & Hp & Hacc & Hu & Hcol).
    assert (H1 : res (save RefStore.dbapi o st) = Ok tt ∧
                 db_of (save RefStore.dbapi o st) = st ∧
                 self_of (save RefStore.dbapi o st) = o).
    { destruct (save_spec RefStore.dbapi o st uuid Hu) as (_ & Hd & _ & Hr & Hv).
      rewrite (obj_get_changes_empty o Hc) in Hd, Hr, Hv.
      rewrite (update_empty uuid st p Hp) in Hd, Hr, Hv. cbn [fst snd] in *.
      assert (Hres : res (save RefStore.dbapi o st) = Ok tt).
      { apply Hr. by exists (RefStore.p_columns p). }
      destruct (Hv _ eq_refl Hres) as [Ha Hch]. splits; auto.
      destruct (self_of (save RefStore.dbapi o st)) as [a c], o as [a0 c0].
      cbn [attrs changed] in *. subst c c0. f_equal.
      rewrite Ha. apply map_eq. intros f.
      rewrite lookup_union, columns_of_lookup.
      destruct (decide (f ∈ column_fields)) as [Hin|Hin].
      - rewrite (Hcol f Hin).
        destruct (accepts_lookup _ _ f Hacc Hin) as [v ->]. done.
      - by destruct (a0 !! f). }
    cbn zeta. destruct H1 as (Hr1 & Hd1 & Hs1). rewrite Hd1, Hs1. by splits.
Qed.

Lemma save_without_changes_is_a_noop_witness :
  res (get_by_uuid RefStore.dbapi (VStr Sample.plan_uuid) false tt Sample.st0)
  = Ok Sample.loaded ∧
  res (save RefStore.dbapi Sample.loaded Sample.st0) = Ok tt ∧
  db_of (save RefStore.dbapi Sample.loaded Sample.st0) = Sample.st0 ∧
  trace (save RefStore.dbapi Sample.loaded Sample.st0)
  = [update_action_plan (VStr Sample.plan_uuid) ∅].
Proof.
  assert (H0 : res (get_by_uuid RefStore.dbapi (VStr Sample.plan_uuid) false tt
                      Sample.st0) = Ok Sample.loaded) by (vm_compute; reflexivity).
  destruct save_without_changes_is_a_noop as [Hg Hr].
  destruct (Hr Sample.st0 (VStr Sample.plan_uuid) false Sample.loaded H0)
    as [(H1 & H2 & _) _].
  split; [exact H0|]. split; [exact H1|]. split; [exact H2|].
  apply Hg; reflexivity.
Defined.

(** ** create, then get_by_uuid *)

Lemma copy_columns_attrs {store} (db_object : row) (o : aobj) (st : store) :
  accepts column_fields db_object = true →
  copy_columns db_object column_fields o st
  = Out (Ok tt) (self_of (copy_columns db_object column_fields o st)) st [] ∧
  attrs (self_of (copy_columns db_object column_fields o st))
  = columns_of db_object ∪ attrs o.
Proof.
  intros Hacc.
  destruct (copy_columns_spec db_object column_fields o st)
    as (Ht & Hd & Hf & Hr & Hv).
  apply Hr in Hacc as Hok. specialize (Hv Hok). split.
  - destruct (copy_columns db_object column_fields o st); cbn in *. by subst.
  - apply map_eq. intros f. rewrite lookup_union, columns_of_lookup.
    destruct (decide (f ∈ column_fields)) as [Hin|Hin].
    + rewrite (Hv f Hin).
      destruct (accepts_lookup _ db_object f Hacc Hin) as [v ->].
      by destruct (attrs o !! f).
    + rewrite (Hf f Hin). by destruct (attrs o !! f).
Qed.

Lemma load_object_fields_Ok {store} (dbapi : collaborator store) (o1 : aobj)
    (st st2 st3 : store) a_id s_id a s :
  attrs o1 !! "audit_id" = Some a_id →
  attrs o1 !! "strategy_id" = Some s_id →
  dbapi (Related_get_by_id Audit a_id) st = (Ok a, st2) → rel_cls a = Audit →
  dbapi (Related_get_by_id Strategy s_id) st2 = (Ok s, st3) → rel_cls s = Strategy →
  load_object_fields dbapi object_fields o1 st
  = Out (Ok tt)
      (AObj (<["strategy" := VObj s]> (<["audit" := VObj a]> (attrs o1)))
            ({["strategy"]} ∪ ({["audit"]} ∪ changed o1)))
      st3 [Related_get_by_id Audit a_id; Related_get_by_id Strategy s_id].
Proof.
  intros Ha1 Hs1 Ea Hca Es Hcs. cbn [load_object_fields object_fields].
  mstep (getattr_Some _ _ _ st Ha1).
  mstep (invoke_eq dbapi (Related_get_by_id Audit a_id) o1 _ _ _ Ea).
  mstep (setattr_obj_Ok "audit" Audit a o1 st2 eq_refl Hca).
  set (o2 := AObj (<["audit":=VObj a]> (attrs o1)) ({["audit"]} ∪ changed o1)).
  assert (Hs2 : attrs o2 !! "strategy_id" = Some s_id).
  { unfold o2. cbn [attrs]. by rewrite lookup_insert_ne. }
  mstep (getattr_Some _ _ _ st2 Hs2).
  mstep (invoke_eq dbapi (Related_get_by_id Strategy s_id) o2 _ _ _ Es).
  mstep (setattr_obj_Ok "strategy" Strategy s o2 st3 eq_refl Hcs).
  reflexivity.
Qed.

(** Eager hydration succeeds when the row is accepted and both related
    objects are found, of the right class. *)
Lemma from_db_eager_Ok {store} (dbapi : collaborator store) (db_object : row)
    (o : aobj) (st st2 st3 : store) a_id s_id a s :
  accepts column_fields db_object = true →
  db_object !! "audit_id" = Some a_id →
  db_object !! "strategy_id" = Some s_id →
  dbapi (Related_get_by_id Audit a_id) st = (Ok a, st2) → rel_cls a = Audit →
  dbapi (Related_get_by_id Strategy s_id) st2 = (Ok s, st3) → rel_cls s = Strategy →
  let r := _from_db_object dbapi db_object true o st in
  res r = Ok tt ∧ db_of r = st3 ∧
  attrs (self_of r)
  = <["strategy" := VObj s]> (<["audit" := VObj a]> (columns_of db_object ∪ attrs o)).
Proof.
  intros Hacc Ha Hs Ea Hca Es Hcs. unfold _from_db_object.
  destruct (copy_columns_attrs db_object o st Hacc) as [Ec Hattrs].
  set (o1 := self_of (copy_columns db_object column_fields o st)) in *.
  mstep Ec.
  assert (Hcol : ∀ f v, f ∈ column_fields → db_object !! f = Some v →
                        attrs o1 !! f = Some v).
  { intros f v Hin Hv. rewrite Hattrs, lookup_union, columns_of_lookup.
    rewrite decide_True by done. rewrite Hv. by destruct (attrs o !! f). }
  assert (Ha1 := Hcol _ _ (elem_of_column_fields "audit_id" eq_refl) Ha).
  assert (Hs1 := Hcol _ _ (elem_of_column_fields "strategy_id" eq_refl) Hs).
  mstep (load_object_fields_Ok dbapi o1 st st2 st3 a_id s_id a s
           Ha1 Hs1 Ea Hca Es Hcs).
  unfold obj_reset_changes. cbn [attrs]. by rewrite Hattrs.
Qed.

Lemma declared_field_cases (f : string) :
  f ∈ fields.*1 → f ∈ column_fields ∨ f = "audit" ∨ f = "strategy".
Proof.
  unfold fields. cbn [fmap list_fmap fst].
  intros H. repeat (apply elem_of_cons in H as [->|H]);
    first [ left; apply elem_of_column_fields; reflexivity
          | right; left; reflexivity
          | right; right; reflexivity
          | by apply not_elem_of_nil in H ].
Qed.

(** C9. On the reference storage, after a [create] that succeeds, the
    object carries a uuid, and [get_by_uuid] with that uuid succeeds,
    lazily or eagerly, and yields an object equal to the created one on
    every column; loaded eagerly it is equal on every declared field, and
    loaded lazily its relationship fields are not set. *)
Theorem create_then_get_by_uuid_round_trip :
  ∀ (st : RefStore.store) (o : aobj),
    let r1 := create RefStore.dbapi o st in
    res r1 = Ok tt →
    ∃ uuid,
      attrs (self_of r1) !! "uuid" = Some uuid ∧
      ∀ eager, ∃ o2,
        res (get_by_uuid RefStore.dbapi uuid eager tt (db_of r1)) = Ok o2 ∧
        (∀ f, f ∈ column_fields → attrs o2 !! f = attrs (self_of r1) !! f) ∧
        (eager = true →
         ∀ f, f ∈ fields.*1 → attrs o2 !! f = attrs (self_of r1) !! f) ∧
        (eager = false → ∀ f, f ∉ column_fields → attrs o2 !! f = None).
Proof.
  intros st o r1 Hok. subst r1.
  destruct (create_spec RefStore.dbapi o st) as (_ & _ & Hr).
  destruct (Hr Hok)
    as (row & a_id & s_id & a & s & st1 & st2 & H1 & Hacc & Ha & Hs & Ea & Es
        & Hca & Hcs & _ & Hattrs & _).
  cbn [ret_of] in *.
  pose proof (related_get_store Audit a_id st1) as E2. rewrite Ea in E2.
  cbn [snd] in E2. subst st2.
  pose proof (related_get_store Strategy s_id st1) as E3. rewrite Es in E3.
  cbn [snd] in E3. rewrite E3 in *. clear E3.
  destruct (create_plan_Ok _ _ _ _ H1) as (uuid & Hu & Hfind & _).
  assert (Hcols : ∀ f, f ∈ column_fields →
            attrs (self_of (create RefStore.dbapi o st)) !! f = row !! f).
  { intros f Hf. rewrite Hattrs.
    assert (f ≠ "strategy" ∧ f ≠ "audit") as [Hn1 Hn2].
    { split; intros ->.
      - exact (not_elem_of_column_fields "strategy" eq_refl Hf).
      - exact (not_elem_of_column_fields "audit" eq_refl Hf). }
    rewrite !lookup_insert_ne by done.
    rewrite lookup_union, columns_of_lookup, decide_True by done.
    destruct (accepts_lookup _ row f Hacc Hf) as [v ->].
    by destruct (attrs o !! f). }
  exists uuid. split.
  { by rewrite (Hcols "uuid" (elem_of_column_fields "uuid" eq_refl)). }
  intros eager. unfold get_by_uuid.
  mstep (invoke_eq RefStore.dbapi (get_action_plan_by_uuid uuid eager) tt _ _ _
           (lookup_plan_uuid uuid eager st1 _ Hfind)).
  cbn [RefStore.p_columns]. destruct eager.
  - destruct (from_db_eager_Ok RefStore.dbapi row new_obj st1 st1 st1
                a_id s_id a s Hacc Ha Hs Ea Hca Es Hcs) as (Ro & _ & Rattrs).
    unfold on_fresh. cbn [res]. rewrite Ro.
    eexists. split; [reflexivity|].
    assert (Heq : attrs (self_of (_from_db_object RefStore.dbapi row true new_obj st1))
                  !! "audit" = attrs (self_of (create RefStore.dbapi o st)) !! "audit" ∧
                  attrs (self_of (_from_db_object RefStore.dbapi row true new_obj st1))
                  !! "strategy"
                  = attrs (self_of (create RefStore.dbapi o st)) !! "strategy").
    { rewrite Rattrs, Hattrs. split.
      - rewrite !(lookup_insert_ne _ "strategy" "audit") by done.
        by rewrite !lookup_insert_eq.
      - by rewrite !lookup_insert_eq. }
    assert (Hc2 : ∀ f, f ∈ column_fields →
              attrs (self_of (_from_db_object RefStore.dbapi row true new_obj st1)) !! f
              = attrs (self_of (create RefStore.dbapi o st)) !! f).
    { intros f Hf. rewrite (Hcols f Hf), Rattrs.
      assert (f ≠ "strategy" ∧ f ≠ "audit") as [Hn1 Hn2].
      { split; intros ->.
        - exact (not_elem_of_column_fields "strategy" eq_refl Hf).
        - exact (not_elem_of_column_fields "audit" eq_refl Hf). }
      rewrite !lookup_insert_ne by done.
      rewrite lookup_union, columns_of_lookup, decide_True by done.
      destruct (accepts_lookup _ row f Hacc Hf) as [v ->]. done. }
    splits; auto; [|discriminate].
    intros _ f Hf. destruct (declared_field_cases f Hf) as [Hin|[->| ->]].
    + by apply Hc2.
    + apply Heq.
    + apply Heq.
  - destruct (on_fresh_lazy_spec RefStore.dbapi (S:=unit) row tt st1)
      as (_ & _ & _ & [[_ Ro]|[Hno _]]); [|congruence].
    rewrite Ro. eexists. split; [reflexivity|]. cbn [attrs].
    splits; [|discriminate|].
    + intros f Hf. rewrite (Hcols f Hf), columns_of_lookup. by rewrite decide_True.
    + intros _ f Hf. rewrite columns_of_lookup. by rewrite decide_False.
Qed.

Lemma create_then_get_by_uuid_round_trip_witness :
  res (create RefStore.dbapi Sample.transient1 Sample.st0) = Ok tt ∧
  ∃ uuid,
    attrs (self_of (create RefStore.dbapi Sample.transient1 Sample.st0)) !! "uuid"
    = Some uuid ∧
    ∃ o2,
      res (get_by_uuid RefStore.dbapi uuid false tt
             (db_of (create RefStore.dbapi Sample.transient1 Sample.st0))) = Ok o2 ∧
      ∀ f, f ∈ column_fields →
           attrs o2 !! f
           = attrs (self_of (create RefStore.dbapi Sample.transient1 Sample.st0)) !! f.
Proof.
  assert (Hok : res (create RefStore.dbapi Sample.transient1 Sample.st0) = Ok tt)
    by (vm_compute; reflexivity).
  split; [exact Hok|].
  destruct (create_then_get_by_uuid_round_trip Sample.st0 Sample.transient1 Hok)
    as (uuid & Hu & Hget).
  exists uuid. split; [exact Hu|].
  destruct (Hget false) as (o2 & Hr & Hc & _). exists o2. by split.
Defined.

(** ** The methods run on the sample deployment *)

Example is_int_like_examples :
  Utils.is_int_like (VStr "12") = true ∧
  Utils.is_int_like (VStr "-3") = true ∧
  Utils.is_int_like (VStr "012") = false ∧
  Utils.is_int_like (VStr "1e3") = false ∧
  Utils.is_int_like (VStr "") = false ∧
  Utils.is_int_like (VStr Sample.plan_uuid) = false.
Proof. repeat split; vm_compute; reflexivity. Qed.

Example is_uuid_like_examples :
  Utils.is_uuid_like (VStr Sample.plan_uuid) = true ∧
  Utils.is_uuid_like (VStr "7ae81bb3-dec3-4289-8d6c-da80bd8001a") = false ∧
  Utils.is_uuid_like (VStr "7ae81bb3xdec3-4289-8d6c-da80bd8001ae") = false ∧
  Utils.is_uuid_like (VStr "12") = false.
Proof. repeat split; vm_compute; reflexivity. Qed.

Example soft_delete_on_sample :
  let r := soft_delete RefStore.dbapi Sample.loaded Sample.st0 in
  res r = Ok tt ∧
  trace r =
    [ Action_list (by_action_plan_uuid (VStr Sample.plan_uuid));
      Action_soft_delete (Dep "act-1");
      Action_soft_delete (Dep "act-2");
      EfficacyIndicator_list (by_action_plan_uuid (VStr Sample.plan_uuid));
      EfficacyIndicator_soft_delete (Dep "ei-1");
      EfficacyIndicator_soft_delete (Dep "ei-3");
      update_action_plan (VStr Sample.plan_uuid) {[ "state" := VStr State.DELETED ]};
      soft_delete_action_plan (VStr Sample.plan_uuid) ] ∧
  RefStore.actions (db_of r) =
    [ RefStore.DepRow "act-1" (VStr Sample.plan_uuid) true;
      RefStore.DepRow "act-2" (VStr Sample.plan_uuid) true;
      RefStore.DepRow "act-3" (VStr Sample.other_uuid) false ] ∧
  RefStore.indicators (db_of r) =
    [ RefStore.DepRow "ei-1" (VStr Sample.plan_uuid) true;
      RefStore.DepRow "ei-2" (VStr Sample.other_uuid) false;
      RefStore.DepRow "ei-3" (VStr Sample.plan_uuid) true ] ∧
  attrs (self_of r) !! "state" = Some (VStr State.DELETED).
Proof. cbn zeta. repeat split; vm_compute; reflexivity. Qed.

Example soft_delete_stops_at_a_failing_dependent :
  let st := Sample.st0 in
  let broken : collaborator RefStore.store :=
    λ c, match c as c' return RefStore.store → result (ret_of c') * RefStore.store with
         | Action_soft_delete _ => λ s, (Err StorageFailure, s)
         | c' => RefStore.dbapi c'
         end in
  let r := soft_delete broken Sample.loaded st in
  res r = Err StorageFailure ∧
  trace r = [ Action_list (by_action_plan_uuid (VStr Sample.plan_uuid));
              Action_soft_delete (Dep "act-1") ] ∧
  self_of r = Sample.loaded ∧
  db_of r = st.
Proof. cbn zeta. repeat split; vm_compute; reflexivity. Qed.

Example destroy_on_sample :
  let r := destroy RefStore.dbapi Sample.loaded Sample.st0 in
  res r = Ok tt ∧
  RefStore.plans (db_of r) = [RefStore.PlanRow Sample.plan2 false] ∧
  RefStore.indicators (db_of r) =
    [RefStore.DepRow "ei-2" (VStr Sample.other_uuid) false] ∧
  RefStore.actions (db_of r) = RefStore.actions Sample.st0 ∧
  self_of r = Sample.loaded.
Proof. cbn zeta. repeat split; vm_compute; reflexivity. Qed.

Example create_on_sample :
  let r := create RefStore.dbapi Sample.transient1 Sample.st0 in
  res r = Ok tt ∧
  attrs (self_of r) !! "id" = Some (VInt 3) ∧
  attrs (self_of r) !! "uuid" = Some (VStr "generated-3") ∧
  attrs (self_of r) !! "state" = Some (VStr State.RECOMMENDED) ∧
  attrs (self_of r) !! "audit" = Some (VObj Sample.audit1) ∧
  attrs (self_of r) !! "strategy" = Some (VObj Sample.strategy1) ∧
  changed (self_of r) = ∅.
Proof. cbn zeta. repeat split; vm_compute; reflexivity. Qed.

Example refresh_on_sample :
  let edited := self_of (setattr "state" (VStr State.CANCELLED)
                           Sample.loaded Sample.st0) in
  let r := refresh RefStore.dbapi false edited Sample.st0 in
  res r = Ok tt ∧
  trace r = [get_action_plan_by_uuid (VStr Sample.plan_uuid) false] ∧
  self_of r = Sample.loaded.
Proof. cbn zeta. repeat split; vm_compute; reflexivity. Qed.

Example get_unknown_uuid_is_not_found :
  res (get RefStore.dbapi Utils.is_int_like Utils.is_uuid_like
         (VStr "99999999-9999-4999-8999-999999999999") false tt Sample.st0)
  = Err NotFound.
Proof. vm_compute. reflexivity. Qed.

(** * Further properties of the methods *)

(** ** Listing and looking up *)

Section Readers.
Context {store : Type}.
Variable dbapi : collaborator store.

Lemma forallb_weaken {A} (p q : A → bool) (l : list A) :
  (∀ x, p x = true → q x = true) → forallb p l = true → forallb q l = true.
Proof.
  intros H. induction l as [|x l IH]; [done|]. cbn.
  intros [Hx Hl]%andb_true_iff. by rewrite (H _ Hx), IH.
Qed.

Lemma related_get_is_read (c : call) : is_related_get c = true → is_read_call c = true.
Proof. by destruct c. Qed.

(** Hydrating a fresh instance: only fetches of related objects, and
    the caller's object is not involved. *)
Lemma on_fresh_calls {S} (db_object : row) eager (s : S) (st : store) :
  let r := on_fresh (_from_db_object dbapi db_object eager) s st in
  forallb is_related_get (trace r) = true ∧ self_of r = s ∧
  db_of r = replay dbapi (trace r) st.
Proof.
  cbn zeta. unfold on_fresh. cbn [trace self_of db_of]. destruct eager.
  - destruct (from_db_eager_spec dbapi db_object new_obj st) as (Ht & Hd & _).
    by splits.
  - destruct (from_db_lazy_spec dbapi db_object new_obj st) as (Ht & Hd & _).
    rewrite Ht, Hd. by splits.
Qed.

(** The comprehension of [list]: the rows are hydrated one by one, in
    order, each into a fresh instance. *)
Lemma from_db_objects_spec {S} (objs : list row) eager (s : S) (st : store) :
  let r := from_db_objects dbapi objs eager s st in
  forallb is_related_get (trace r) = true ∧ self_of r = s ∧
  db_of r = replay dbapi (trace r) st ∧
  (∀ os, res r = Ok os → Forall2 loaded_from os objs).
Proof.
  cbn zeta. revert st. induction objs as [|obj objs IH]; intros st.
  - cbn. splits; auto. intros os [= <-]. constructor.
  - cbn [from_db_objects].
    destruct (on_fresh_calls obj eager s st) as (Ht & Hs & Hd).
    pose proof (on_fresh_spec dbapi obj eager s st) as Hspec.
    destruct (on_fresh (_from_db_object dbapi obj eager) s st)
      as [[o|e] s1 st1 t1] eqn:E; cbn [res self_of db_of trace] in *; subst s1;
      mstep E; [|by splits].
    destruct (IH st1) as (IHt & IHs & IHd & IHr).
    destruct (from_db_objects dbapi objs eager s st1) as [[os|e] s2 st2 t2] eqn:E2;
      cbn [res self_of db_of trace] in *; subst s2; mstep E2;
      rewrite ?app_nil_r, forallb_app, replay_app, <- Hd, Ht, IHt;
      splits; auto; [|discriminate].
    intros os' [= <-]. constructor; [|by apply IHr].
    destruct (Hspec o eq_refl) as (Hc & Hacc & Hcol & _). split; [done|].
    intros f Hf. split; [by eapply accepts_lookup|by apply Hcol].
Qed.

(** Lazily, no call is made and the outcome is known from the rows. *)
Lemma from_db_objects_lazy {S} (objs : list row) (s : S) (st : store) :
  let r := from_db_objects dbapi objs false s st in
  trace r = [] ∧ db_of r = st ∧
  (forallb (accepts column_fields) objs = true →
   res r = Ok ((λ db_object, AObj (columns_of db_object) ∅) <$> objs)) ∧
  (forallb (accepts column_fields) objs = false → ∃ e, res r = Err e).
Proof.
  cbn zeta. induction objs as [|obj objs IH].
  - cbn. splits; auto. discriminate.
  - cbn [from_db_objects forallb].
    destruct (on_fresh_lazy_spec dbapi (S:=S) obj s st) as (Ot & Od & Os & Or).
    destruct (on_fresh (_from_db_object dbapi obj false) s st)
      as [ro s1 st1 t1] eqn:E; cbn [res self_of db_of trace] in *; subst.
    destruct Or as [[Hacc ->]|[Hacc [e ->]]]; mstep E; rewrite Hacc;
      cbn [andb]; [|splits; eauto; discriminate].
    destruct IH as (IHt & IHd & IHok & IHerr).
    destruct (from_db_objects dbapi objs false s st) as [ros s2 st2 t2] eqn:E2;
      cbn [res self_of db_of trace] in *; subst.
    destruct ros as [os|e]; mstep E2; splits; auto.
    + intros H. specialize (IHok H). by injection IHok as ->.
    + intros H. destruct (IHerr H) as [e He]. discriminate.
    + intros H. specialize (IHok H). discriminate.
Qed.

(** A lookup is the storage call followed by the hydration of a fresh
    instance from the row that came back. *)
Lemma get_by_id_unfold {S} key eager (s : S) (st : store) :
  let c := get_action_plan_by_id key eager in
  let r := get_by_id dbapi key eager s st in
  (∀ e, (dbapi c st).1 = Err e → r = Out (Err e) s (dbapi c st).2 [c]) ∧
  (∀ db_action_plan, (dbapi c st).1 = Ok db_action_plan →
     r = prepend [c] (on_fresh (_from_db_object dbapi db_action_plan eager) s
                        (dbapi c st).2)).
Proof.
  cbn zeta. unfold get_by_id.
  destruct (dbapi (get_action_plan_by_id key eager) st) as [[d|e] st1] eqn:Ec;
    mstep (invoke_eq dbapi (get_action_plan_by_id key eager) s _ _ _ Ec);
    cbn [fst snd]; split; intros ? [= <-]; reflexivity.
Qed.

Lemma get_by_uuid_unfold {S} uuid eager (s : S) (st : store) :
  let c := get_action_plan_by_uuid uuid eager in
  let r := get_by_uuid dbapi uuid eager s st in
  (∀ e, (dbapi c st).1 = Err e → r = Out (Err e) s (dbapi c st).2 [c]) ∧
  (∀ db_action_plan, (dbapi c st).1 = Ok db_action_plan →
     r = prepend [c] (on_fresh (_from_db_object dbapi db_action_plan eager) s
                        (dbapi c st).2)).
Proof.
  cbn zeta. unfold get_by_uuid.
  destruct (dbapi (get_action_plan_by_uuid uuid eager) st) as [[d|e] st1] eqn:Ec;
    mstep (invoke_eq dbapi (get_action_plan_by_uuid uuid eager) s _ _ _ Ec);
    cbn [fst snd]; split; intros ? [= <-]; reflexivity.
Qed.

(** What a lookup yields, read off the storage's answer [reply] to its
    call [c]. *)
Lemma lookup_outcome {S} (c : call) (reply : result row) (st1 : store) eager (s : S)
    (r : out S store aobj) :
  (∀ e, reply = Err e → r = Out (Err e) s st1 [c]) →
  (∀ d, reply = Ok d →
     r = prepend [c] (on_fresh (_from_db_object dbapi d eager) s st1)) →
  self_of r = s ∧
  (∃ t, trace r = c :: t ∧ forallb is_related_get t = true) ∧
  (∀ e, reply = Err e → res r = Err e ∧ trace r = [c] ∧ db_of r = st1) ∧
  (∀ o, res r = Ok o → ∃ d, reply = Ok d ∧ loaded_from o d) ∧
  (eager = false →
   trace r = [c] ∧ db_of r = st1 ∧
   ∀ d, reply = Ok d →
     (accepts column_fields d = true → res r = Ok (AObj (columns_of d) ∅)) ∧
     (accepts column_fields d = false → ∃ e, res r = Err e)).
Proof.
  intros Herr Hok. destruct reply as [d|e].
  - rewrite (Hok d eq_refl). clear Herr Hok.
    destruct (on_fresh_calls d eager s st1) as (Ht & Hs & Hd).
    pose proof (on_fresh_spec dbapi d eager s st1) as Hspec.
    rewrite self_of_prepend, trace_prepend, res_prepend, db_of_prepend.
    cbn [app]. splits; eauto; try discriminate.
    + intros o Ho. exists d. split; [done|].
      destruct (Hspec o Ho) as (Hc & Hacc & Hcol & _). split; [done|].
      intros f Hf. split; [by eapply accepts_lookup|by apply Hcol].
    + intros ->.
      destruct (on_fresh_lazy_spec dbapi (S:=S) d s st1) as (Ot & Od & Os & Or).
      rewrite Ot, Od. splits; auto. intros d' [= <-].
      destruct Or as [[Hacc ->]|[Hacc [e ->]]]; rewrite Hacc;
        split; eauto; discriminate.
  - rewrite (Herr e eq_refl). cbn [res self_of db_of trace].
    splits; eauto; try discriminate.
    + by intros e' [= <-].
    + intros _. splits; auto. discriminate.
Qed.

(** [list]: the listing first, then the hydration of the rows. *)
Lemma list_spec {S} limit marker filters sort_key sort_dir eager (s : S)
    (st : store) :
  let c := get_action_plan_list limit marker filters sort_key sort_dir eager in
  let r := list_ dbapi limit marker filters sort_key sort_dir eager s st in
  (∃ t, trace r = c :: t ∧ forallb is_related_get t = true) ∧
  (∀ e, (dbapi c st).1 = Err e → res r = Err e ∧ trace r = [c]) ∧
  (∀ os, res r = Ok os →
     ∃ db_action_plans,
       (dbapi c st).1 = Ok db_action_plans ∧ Forall2 loaded_from os db_action_plans).
Proof.
  cbn zeta. unfold list_.
  set (c := get_action_plan_list limit marker filters sort_key sort_dir eager).
  destruct (dbapi c st) as [[rows|e] st1] eqn:Ec;
    mstep (invoke_eq dbapi c s _ _ _ Ec); cbn [fst snd].
  - destruct (from_db_objects_spec rows eager s st1) as (Ht & _ & _ & Hr).
    split; [eauto|]. split; [discriminate|].
    intros os Hos. exists rows. split; [done|]. by apply Hr.
  - split; [by exists []|]. split; [by intros e' [= <-]|discriminate].
Qed.
End Readers.

(** [list]: one call, the listing, with the caller's limit, marker,
    filters, sort key, sort direction and loading mode as they were
    given, and after it nothing but fetches of related objects; an
    exception of the storage is the outcome.  A list that is returned has
    one object per row, in the order of the rows, each with the columns
    of its row and no change recorded.  Loading lazily, the listing is the
    only call, the objects carry the columns and nothing else, and the
    whole listing raises when one row is not accepted by the fields. *)
Theorem list_loads_one_object_per_row :
  ∀ (store : Type) (dbapi : collaborator store) limit marker filters
    sort_key sort_dir (st : store),
    (∀ eager,
       let c := get_action_plan_list limit marker filters sort_key sort_dir eager in
       let r := list_ dbapi limit marker filters sort_key sort_dir eager tt st in
       (∃ t, trace r = c :: t ∧ forallb is_related_get t = true) ∧
       (∀ e, (dbapi c st).1 = Err e → res r = Err e ∧ trace r = [c]) ∧
       (∀ os, res r = Ok os →
          ∃ db_action_plans,
            (dbapi c st).1 = Ok db_action_plans ∧
            Forall2 loaded_from os db_action_plans)) ∧
    (let c := get_action_plan_list limit marker filters sort_key sort_dir false in
     let r := list_ dbapi limit marker filters sort_key sort_dir false tt st in
     trace r = [c] ∧ db_of r = (dbapi c st).2 ∧
     ∀ db_action_plans, (dbapi c st).1 = Ok db_action_plans →
       (forallb (accepts column_fields) db_action_plans = true →
        res r = Ok ((λ db_object, AObj (columns_of db_object) ∅)
                      <$> db_action_plans)) ∧
       (forallb (accepts column_fields) db_action_plans = false →
        ∃ e, res r = Err e)).
Proof.
  intros store dbapi limit marker filters sort_key sort_dir st. split.
  - intros eager. apply list_spec.
  - cbn zeta. unfold list_.
    set (c := get_action_plan_list limit marker filters sort_key sort_dir false).
    destruct (dbapi c st) as [[rows|e] st1] eqn:Ec;
      mstep (invoke_eq dbapi c tt _ _ _ Ec); cbn [fst snd].
    + destruct (from_db_objects_lazy dbapi rows tt st1) as (Ht & Hd & Hok & Herr).
      rewrite Ht, Hd. split; [done|]. split; [done|]. by intros ? [= <-].
    + split; [done|]. split; [done|]. discriminate.
Qed.

Lemma list_loads_one_object_per_row_witness :
  let filters := Some ({[ "state" := VStr State.RECOMMENDED ]} : gmap string value) in
  let r := list_ RefStore.dbapi None None filters None None false tt Sample.st0 in
  trace r = [get_action_plan_list None None filters None None false] ∧
  res r = Ok [AObj Sample.plan2 ∅].
Proof.
  cbn zeta.
  destruct (list_loads_one_object_per_row RefStore.store RefStore.dbapi None None
              (Some {[ "state" := VStr State.RECOMMENDED ]}) None None Sample.st0)
    as (_ & Ht & _ & Hrows).
  split; [exact Ht|].
  destruct (Hrows [Sample.plan2]) as [Hok _]; [vm_compute; reflexivity|].
  rewrite Hok by (vm_compute; reflexivity). vm_compute. reflexivity.
Defined.

(** [get_by_id] and [get_by_uuid]: the lookup is the first call, with
    the key and the loading mode as given, and after it come only fetches
    of related objects; an exception of the storage (the row is not
    found) is the outcome, after that one call; an object that is
    returned has the columns of the row found and no change recorded.
    Loading lazily, the lookup is the only call, and the object carries
    the row's columns and nothing else. *)
Theorem lookups_load_the_row_found :
  ∀ (store : Type) (dbapi : collaborator store) (key : value) (eager : bool)
    (st : store),
    (let c := get_action_plan_by_id key eager in
     let r := get_by_id dbapi key eager tt st in
     (∃ t, trace r = c :: t ∧ forallb is_related_get t = true) ∧
     (∀ e, (dbapi c st).1 = Err e →
        res r = Err e ∧ trace r = [c] ∧ db_of r = (dbapi c st).2) ∧
     (∀ o, res r = Ok o →
        ∃ db_action_plan, (dbapi c st).1 = Ok db_action_plan ∧
                          loaded_from o db_action_plan) ∧
     (eager = false →
      trace r = [c] ∧ db_of r = (dbapi c st).2 ∧
      ∀ db_action_plan, (dbapi c st).1 = Ok db_action_plan →
        (accepts column_fields db_action_plan = true →
         res r = Ok (AObj (columns_of db_action_plan) ∅)) ∧
        (accepts column_fields db_action_plan = false → ∃ e, res r = Err e))) ∧
    (let c := get_action_plan_by_uuid key eager in
     let r := get_by_uuid dbapi key eager tt st in
     (∃ t, trace r = c :: t ∧ forallb is_related_get t = true) ∧
     (∀ e, (dbapi c st).1 = Err e →
        res r = Err e ∧ trace r = [c] ∧ db_of r = (dbapi c st).2) ∧
     (∀ o, res r = Ok o →
        ∃ db_action_plan, (dbapi c st).1 = Ok db_action_plan ∧
                          loaded_from o db_action_plan) ∧
     (eager = false →
      trace r = [c] ∧ db_of r = (dbapi c st).2 ∧
      ∀ db_action_plan, (dbapi c st).1 = Ok db_action_plan →
        (accepts column_fields db_action_plan = true →
         res r = Ok (AObj (columns_of db_action_plan) ∅)) ∧
        (accepts column_fields db_action_plan = false → ∃ e, res r = Err e))).
Proof.
  intros store dbapi key eager st. cbn zeta. split.
  - destruct (get_by_id_unfold dbapi key eager tt st) as [Herr Hok].
    by destruct (lookup_outcome dbapi _ _ _ eager tt _ Herr Hok) as (_ & H).
  - destruct (get_by_uuid_unfold dbapi key eager tt st) as [Herr Hok].
    by destruct (lookup_outcome dbapi _ _ _ eager tt _ Herr Hok) as (_ & H).
Qed.

Lemma lookups_load_the_row_found_witness :
  res (get_by_id RefStore.dbapi (VInt 2) false tt Sample.st0)
  = Ok (AObj Sample.plan2 ∅) ∧
  res (get_by_uuid RefStore.dbapi (VStr "99999999-9999-4999-8999-999999999999")
         false tt Sample.st0) = Err NotFound ∧
  trace (get_by_uuid RefStore.dbapi (VStr "99999999-9999-4999-8999-999999999999")
           false tt Sample.st0)
  = [get_action_plan_by_uuid (VStr "99999999-9999-4999-8999-999999999999") false].
Proof.
  split.
  - destruct (lookups_load_the_row_found RefStore.store RefStore.dbapi (VInt 2)
                false Sample.st0) as ((_ & _ & _ & Hlazy) & _).
    destruct (Hlazy eq_refl) as (_ & _ & Hrow).
    destruct (Hrow Sample.plan2) as [Hok _]; [vm_compute; reflexivity|].
    rewrite Hok by (vm_compute; reflexivity). vm_compute. reflexivity.
  - destruct (lookups_load_the_row_found RefStore.store RefStore.dbapi
                (VStr "99999999-9999-4999-8999-999999999999") false Sample.st0)
      as (_ & _ & Herr & _).
    destruct (Herr NotFound) as (Hr & Ht & _); [vm_compute; reflexivity|].
    by split.
Defined.

(** ** refresh *)

Section Refresh.
Context {store : Type}.
Variable dbapi : collaborator store.

Lemma refresh_unset eager (o : aobj) (st : store) :
  attrs o !! "uuid" = None →
  refresh dbapi eager o st = Out (Err (AttributeNotSet "uuid")) o st [].
Proof. intros Hu. unfold refresh. by mstep (getattr_None _ _ st Hu). Qed.

(** [refresh] is the lookup by the object's uuid, followed on success by
    the overlay of what was loaded. *)
Lemma refresh_unfold eager (o : aobj) (st : store) uuid :
  attrs o !! "uuid" = Some uuid →
  let g := get_by_uuid dbapi uuid eager o st in
  refresh dbapi eager o st =
  match res g with
  | Ok current => Out (Ok tt) (obj_refresh o current) (db_of g) (trace g)
  | Err e => Out (Err e) o (db_of g) (trace g)
  end.
Proof.
  intros Hu. cbn zeta. unfold refresh. mstep (getattr_Some _ _ _ st Hu).
  destruct (get_by_uuid_unfold dbapi uuid eager o st) as [Herr Hok].
  destruct (lookup_outcome dbapi _ _ _ eager o _ Herr Hok) as (Hs & _).
  destruct (get_by_uuid dbapi uuid eager o st) as [[current|e] o1 st1 t1] eqn:E;
    cbn [self_of] in Hs; subst o1; mstep E; [|done].
  unfold prepend. cbn [modify res self_of db_of trace app].
  by rewrite app_nil_r.
Qed.
End Refresh.

(** The methods that read -- [get], [get_by_id], [get_by_uuid], [list]
    and [refresh] -- issue no call that writes: every call they make is a
    lookup or the listing of plans, or the fetch of a related object. *)
Theorem readers_issue_no_write :
  ∀ (store : Type) (dbapi : collaborator store)
    (is_int_like is_uuid_like : value → bool) (key : value) (eager : bool)
    limit marker filters sort_key sort_dir (o : aobj) (st : store),
    forallb is_read_call
      (trace (get dbapi is_int_like is_uuid_like key eager tt st)) = true ∧
    forallb is_read_call (trace (get_by_id dbapi key eager tt st)) = true ∧
    forallb is_read_call (trace (get_by_uuid dbapi key eager tt st)) = true ∧
    forallb is_read_call
      (trace (list_ dbapi limit marker filters sort_key sort_dir eager tt st))
    = true ∧
    forallb is_read_call (trace (refresh dbapi eager o st)) = true.
Proof.
  intros store dbapi is_int_like is_uuid_like key eager limit marker filters
    sort_key sort_dir o st.
  assert (Hid : ∀ S k (s : S),
            forallb is_read_call (trace (get_by_id dbapi k eager s st)) = true).
  { intros S k s. destruct (get_by_id_unfold dbapi k eager s st) as [Herr Hok].
    destruct (lookup_outcome dbapi _ _ _ eager s _ Herr Hok)
      as (_ & (t & -> & Ht) & _).
    cbn [forallb is_read_call andb].
    revert Ht. apply forallb_weaken, related_get_is_read. }
  assert (Huu : ∀ S k (s : S),
            forallb is_read_call (trace (get_by_uuid dbapi k eager s st)) = true).
  { intros S k s. destruct (get_by_uuid_unfold dbapi k eager s st) as [Herr Hok].
    destruct (lookup_outcome dbapi _ _ _ eager s _ Herr Hok)
      as (_ & (t & -> & Ht) & _).
    cbn [forallb is_read_call andb].
    revert Ht. apply forallb_weaken, related_get_is_read. }
  splits; auto.
  - unfold get. destruct (is_int_like key); [apply Hid|].
    destruct (is_uuid_like key); [apply Huu|reflexivity].
  - destruct (list_spec dbapi limit marker filters sort_key sort_dir eager tt st)
      as ((t & -> & Ht) & _).
    cbn [forallb is_read_call andb].
    revert Ht. apply forallb_weaken, related_get_is_read.
  - destruct (attrs o !! "uuid") as [uuid|] eqn:Hu.
    + rewrite (refresh_unfold dbapi eager o st uuid Hu).
      specialize (Huu aobj uuid o).
      by destruct (res (get_by_uuid dbapi uuid eager o st)).
    + by rewrite (refresh_unset dbapi eager o st Hu).
Qed.

(** [refresh] on a plan with a uuid: the first call is the lookup by
    that uuid, in the loading mode asked for, and only fetches of related
    objects follow; when the storage raises (the row is gone) the
    exception is the outcome; whenever [refresh] raises, the object is
    left as it was, its unsaved changes included; when it succeeds, every
    column of the object is that of the row found.  Loading lazily, the
    lookup is the only call, a row that the fields accept always
    refreshes, and the fields that are not columns (the relationships) are
    left as they were. *)
Theorem refresh_reloads_or_leaves_untouched :
  ∀ (store : Type) (dbapi : collaborator store) (o : aobj) (st : store)
    (uuid : value) (eager : bool),
    attrs o !! "uuid" = Some uuid →
    let c := get_action_plan_by_uuid uuid eager in
    let r := refresh dbapi eager o st in
    (∃ t, trace r = c :: t ∧ forallb is_related_get t = true) ∧
    (∀ e, (dbapi c st).1 = Err e → res r = Err e ∧ trace r = [c]) ∧
    (res r ≠ Ok tt → self_of r = o) ∧
    (res r = Ok tt →
     ∃ db_action_plan,
       (dbapi c st).1 = Ok db_action_plan ∧
       ∀ f, f ∈ column_fields → attrs (self_of r) !! f = db_action_plan !! f) ∧
    (eager = false →
     trace r = [c] ∧ db_of r = (dbapi c st).2 ∧
     (∀ db_action_plan,
        (dbapi c st).1 = Ok db_action_plan →
        accepts column_fields db_action_plan = true → res r = Ok tt) ∧
     (∀ f, f ∉ column_fields → attrs (self_of r) !! f = attrs o !! f)).
Proof.
  intros store dbapi o st uuid eager Hu. cbn zeta.
  rewrite (refresh_unfold dbapi eager o st uuid Hu).
  destruct (get_by_uuid_unfold dbapi uuid eager o st) as [Herr Hok].
  destruct (lookup_outcome dbapi _ _ _ eager o _ Herr Hok)
    as (Hs & Ht & He & Ho & Hlazy). clear Herr Hok.
  destruct (get_by_uuid dbapi uuid eager o st) as [[current|e] o1 st1 t1] eqn:E;
    cbn [res self_of db_of trace] in *.
  - splits; auto.
    + intros e He'. by destruct (He e He').
    + done.
    + intros _. destruct (Ho current eq_refl) as (d & Hd & Hc & Hcol).
      exists d. split; [done|]. intros f Hf. destruct (Hcol f Hf) as [[v Hv] Hcur].
      unfold obj_refresh. cbn [attrs]. rewrite lookup_union, Hcur.
      cbn [ret_of] in *. rewrite Hv. by destruct (attrs o !! f).
    + intros ->. destruct (Hlazy eq_refl) as (Htr & Hdb & Hrow). splits; auto.
      intros f Hf.
      destruct ((dbapi (get_action_plan_by_uuid uuid false) st).1) as [d|e'] eqn:Ed.
      * destruct (Hrow d eq_refl) as [Hacc Hrej].
        destruct (accepts column_fields d) eqn:Ea.
        -- specialize (Hacc eq_refl). injection Hacc as ->.
           unfold obj_refresh. cbn [attrs].
           rewrite lookup_union, columns_of_lookup, decide_False by done.
           by destruct (attrs o !! f).
        -- destruct (Hrej eq_refl) as [e' He']. discriminate.
      * by destruct (He e' eq_refl).
  - splits; auto.
    + intros e' He'. by destruct (He e' He') as ([= <-] & -> & _).
    + discriminate.
    + intros ->. destruct (Hlazy eq_refl) as (Htr & Hdb & Hrow). splits; auto.
      intros d Hd Hacc. destruct (Hrow d Hd) as [Hyes _].
      specialize (Hyes Hacc). discriminate.
Qed.

Lemma refresh_reloads_or_leaves_untouched_witness :
  attrs Faulty.stale !! "uuid"
  = Some (VStr "99999999-9999-4999-8999-999999999999") ∧
  res (refresh RefStore.dbapi false Faulty.stale Sample.st0) = Err NotFound ∧
  self_of (refresh RefStore.dbapi false Faulty.stale Sample.st0) = Faulty.stale.
Proof.
  destruct (refresh_reloads_or_leaves_untouched RefStore.store RefStore.dbapi
              Faulty.stale Sample.st0
              (VStr "99999999-9999-4999-8999-999999999999") false eq_refl)
    as (_ & He & Hs & _).
  destruct (He NotFound) as [Hr _]; [vm_compute; reflexivity|].
  split; [reflexivity|]. split; [exact Hr|].
  apply Hs. rewrite Hr. discriminate.
Defined.

(** ** The change set across the lifecycle *)

Section Changes.
Context {store : Type}.
Variable dbapi : collaborator store.

Lemma setattr_accepted name f v (o : aobj) (st : store) :
  assoc name fields = Some f → is_Some (coerce f v) →
  res (setattr name v o st) = Ok tt.
Proof.
  intros Hf [v' Hv]. unfold setattr. rewrite Hf, Hv. reflexivity.
Qed.

(** A lazy lookup of a row that the fields accept yields an object. *)
Lemma lazy_lookup_Ok {S} (c : call) (reply : result row) (st1 : store) (s : S)
    (r : out S store aobj) d :
  (∀ e, reply = Err e → r = Out (Err e) s st1 [c]) →
  (∀ d, reply = Ok d →
     r = prepend [c] (on_fresh (_from_db_object dbapi d false) s st1)) →
  reply = Ok d → accepts column_fields d = true →
  res r = Ok (AObj (columns_of d) ∅).
Proof.
  intros Herr Hok Hd Hacc.
  destruct (lookup_outcome dbapi c reply st1 false s r Herr Hok)
    as (_ & _ & _ & _ & Hlazy).
  destruct (Hlazy eq_refl) as (_ & _ & Hrow).
  by destruct (Hrow d Hd) as [Hyes _]; apply Hyes.
Qed.

Lemma refresh_lazy_Ok (o : aobj) (st : store) uuid db_action_plan :
  attrs o !! "uuid" = Some uuid →
  (dbapi (get_action_plan_by_uuid uuid false) st).1 = Ok db_action_plan →
  accepts column_fields db_action_plan = true →
  res (refresh dbapi false o st) = Ok tt.
Proof.
  intros Hu Hd Hacc. rewrite (refresh_unfold dbapi false o st uuid Hu).
  destruct (get_by_uuid_unfold dbapi uuid false o st) as [Herr Hok].
  by rewrite (lazy_lookup_Ok _ _ _ o _ db_action_plan Herr Hok Hd Hacc).
Qed.
End Changes.

(** C6. [obj_get_changes] is empty on an object freshly loaded by
    [get_by_uuid] or [get_by_id], and a lazy lookup that finds a row the
    fields accept does load one; after one field F of an object without
    changes is assigned, it is exactly {F: the new value}, and an
    assignment of a value the field accepts does succeed; after a [save]
    or a [refresh] that succeeds it is empty again -- and a [save] whose
    update returns a row the fields accept, like a lazy [refresh] whose
    lookup does, succeeds, whatever changes were pending. *)
Theorem changes_are_the_assigned_fields :
  ∀ (store : Type) (dbapi : collaborator store),
    (∀ key eager (st : store) o,
       res (get_by_uuid dbapi key eager tt st) = Ok o ∨
       res (get_by_id dbapi key eager tt st) = Ok o →
       obj_get_changes o = ∅) ∧
    (∀ key (st : store) db_action_plan,
       accepts column_fields db_action_plan = true →
       ((dbapi (get_action_plan_by_uuid key false) st).1 = Ok db_action_plan →
        ∃ o, res (get_by_uuid dbapi key false tt st) = Ok o ∧
             obj_get_changes o = ∅) ∧
       ((dbapi (get_action_plan_by_id key false) st).1 = Ok db_action_plan →
        ∃ o, res (get_by_id dbapi key false tt st) = Ok o ∧
             obj_get_changes o = ∅)) ∧
    (∀ (o : aobj) F v (st : store),
       changed o = ∅ → res (setattr F v o st) = Ok tt →
       obj_get_changes (self_of (setattr F v o st)) = {[ F := v ]}) ∧
    (∀ (o : aobj) F f v (st : store),
       changed o = ∅ → assoc F fields = Some f → is_Some (coerce f v) →
       res (setattr F v o st) = Ok tt ∧
       obj_get_changes (self_of (setattr F v o st)) = {[ F := v ]}) ∧
    (∀ (o : aobj) (st : store),
       res (save dbapi o st) = Ok tt →
       obj_get_changes (self_of (save dbapi o st)) = ∅) ∧
    (∀ (o : aobj) (st : store) uuid db_obj,
       attrs o !! "uuid" = Some uuid →
       (dbapi (update_action_plan uuid (obj_get_changes o)) st).1 = Ok db_obj →
       accepts column_fields db_obj = true →
       res (save dbapi o st) = Ok tt ∧
       obj_get_changes (self_of (save dbapi o st)) = ∅) ∧
    (∀ eager (o : aobj) (st : store),
       res (refresh dbapi eager o st) = Ok tt →
       obj_get_changes (self_of (refresh dbapi eager o st)) = ∅) ∧
    (∀ (o : aobj) (st : store) uuid db_action_plan,
       attrs o !! "uuid" = Some uuid →
       (dbapi (get_action_plan_by_uuid uuid false) st).1 = Ok db_action_plan →
       accepts column_fields db_action_plan = true →
       res (refresh dbapi false o st) = Ok tt ∧
       obj_get_changes (self_of (refresh dbapi false o st)) = ∅).
Proof.
  intros store dbapi.
  assert (Hloaded : ∀ key eager (st : store) o,
            res (get_by_uuid dbapi key eager tt st) = Ok o ∨
            res (get_by_id dbapi key eager tt st) = Ok o →
            obj_get_changes o = ∅).
  { intros key eager st o [H|H]; apply obj_get_changes_empty.
    - destruct (get_by_uuid_Ok dbapi _ _ _ _ _ H) as (d & st1 & _ & Hf & _).
      by destruct (on_fresh_spec dbapi d eager tt st1 o Hf) as (Hc & _).
    - destruct (get_by_id_Ok dbapi _ _ _ _ _ H) as (d & st1 & _ & Hf).
      by destruct (on_fresh_spec dbapi d eager tt st1 o Hf) as (Hc & _). }
  assert (Hsave : ∀ (o : aobj) (st : store),
            res (save dbapi o st) = Ok tt →
            obj_get_changes (self_of (save dbapi o st)) = ∅).
  { intros o st Hok. apply obj_get_changes_empty.
    destruct (attrs o !! "uuid") as [uuid|] eqn:Hu.
    - destruct (save_spec dbapi o st uuid Hu) as (_ & _ & _ & Hr & Hv).
      destruct (proj1 Hr Hok) as (d & Hd & _). by destruct (Hv d Hd Hok).
    - rewrite (save_unset dbapi o st Hu) in Hok. discriminate. }
  assert (Hrefresh : ∀ eager (o : aobj) (st : store),
            res (refresh dbapi eager o st) = Ok tt →
            obj_get_changes (self_of (refresh dbapi eager o st)) = ∅).
  { intros eager o st Hok. apply obj_get_changes_empty.
    destruct (refresh_Ok dbapi eager o st Hok) as (uuid & current & _ & _ & ->).
    reflexivity. }
  splits.
  - exact Hloaded.
  - intros key st d Hacc. split; intros Hd.
    + destruct (get_by_uuid_unfold dbapi key false tt st) as [Herr Hok].
      pose proof (lazy_lookup_Ok dbapi _ _ _ tt _ d Herr Hok Hd Hacc) as Hr.
      eexists. split; [exact Hr|]. by apply obj_get_changes_empty.
    + destruct (get_by_id_unfold dbapi key false tt st) as [Herr Hok].
      pose proof (lazy_lookup_Ok dbapi _ _ _ tt _ d Herr Hok Hd Hacc) as Hr.
      eexists. split; [exact Hr|]. by apply obj_get_changes_empty.
  - intros o F v st. apply changes_after_setattr.
  - intros o F f v st Hc Hf Hv.
    pose proof (setattr_accepted F f v o st Hf Hv) as Hr.
    split; [exact Hr|]. by apply changes_after_setattr.
  - exact Hsave.
  - intros o st uuid d Hu Hd Hacc.
    assert (Hr : res (save dbapi o st) = Ok tt).
    { destruct (save_spec dbapi o st uuid Hu) as (_ & _ & _ & Hr & _).
      apply Hr. by exists d. }
    split; [exact Hr|]. by apply Hsave.
  - exact Hrefresh.
  - intros o st uuid d Hu Hd Hacc.
    pose proof (refresh_lazy_Ok dbapi o st uuid d Hu Hd Hacc) as Hr.
    split; [exact Hr|]. by apply Hrefresh.
Qed.

Lemma changes_are_the_assigned_fields_witness :
  let edited := self_of (setattr "state" (VStr State.CANCELLED)
                           Sample.loaded Sample.st0) in
  obj_get_changes Sample.loaded = ∅ ∧
  obj_get_changes edited = {[ "state" := VStr State.CANCELLED ]} ∧
  (res (save RefStore.dbapi edited Sample.st0) = Ok tt ∧
   obj_get_changes (self_of (save RefStore.dbapi edited Sample.st0)) = ∅) ∧
  (res (refresh RefStore.dbapi false edited Sample.st0) = Ok tt ∧
   obj_get_changes (self_of (refresh RefStore.dbapi false edited Sample.st0)) = ∅).
Proof.
  cbn zeta.
  destruct (changes_are_the_assigned_fields RefStore.store RefStore.dbapi)
    as (H1 & _ & _ & H2 & _ & H3 & _ & H4).
  split; [|split; [|split]].
  - apply (H1 (VStr Sample.plan_uuid) false Sample.st0). left.
    vm_compute. reflexivity.
  - apply (H2 Sample.loaded "state" (Field StringField true));
      [reflexivity|reflexivity|by eexists].
  - apply (H3 _ Sample.st0 (VStr Sample.plan_uuid)
              (<["state" := VStr State.CANCELLED]> Sample.plan1));
      vm_compute; reflexivity.
  - apply (H4 _ Sample.st0 (VStr Sample.plan_uuid) Sample.plan1);
      vm_compute; reflexivity.
Defined.

(** ** When the storage raises *)

Section Failures.
Context {store : Type}.
Variable dbapi : collaborator store.

Lemma save_raises (o : aobj) (st : store) uuid e :
  attrs o !! "uuid" = Some uuid →
  let c := update_action_plan uuid (obj_get_changes o) in
  (dbapi c st).1 = Err e →
  save dbapi o st = Out (Err e) o (dbapi c st).2 [c].
Proof.
  intros Hu c He. unfold save. msimpl. mstep (getattr_Some _ _ _ st Hu).
  fold c. destruct (dbapi c st) as [rc st1] eqn:Ec. cbn [fst snd] in *. subst rc.
  by mstep (invoke_eq dbapi c o _ _ _ Ec).
Qed.

Lemma create_raises (o : aobj) (st : store) e :
  let c := create_action_plan (obj_get_changes o) in
  (dbapi c st).1 = Err e →
  create dbapi o st = Out (Err e) o (dbapi c st).2 [c].
Proof.
  intros c He. unfold create. msimpl.
  fold c. destruct (dbapi c st) as [rc st1] eqn:Ec. cbn [fst snd] in *. subst rc.
  by mstep (invoke_eq dbapi c o _ _ _ Ec).
Qed.



Lemma existsb_fmap_none {A} (p : call → bool) (c : A → call) (xs : list A) :
  (∀ x, p (c x) = false) → existsb p (c <$> xs) = false.
Proof. intros H. induction xs as [|x xs IH]; [done|]. cbn. by rewrite H, IH. Qed.

(** How far a [soft_delete] gets: it stops in the cascade, before any
    update; or the whole cascade ran, and the update of the plan's row was
    issued in the state the cascade left -- and when the storage raises
    on that update, [soft_delete] stops there, with the object already
    marked. *)
Lemma soft_delete_stages (o : aobj) (st : store) uuid :
  attrs o !! "uuid" = Some uuid →
  let r := soft_delete dbapi o st in
  let upd := update_action_plan uuid (obj_get_changes (marked_deleted o)) in
  (forallb (λ c, negb (is_update_call c)) (trace r) = true ∧ ∃ e, res r = Err e)
  ∨ ∃ acts eis,
      (cascade_calls uuid acts eis ++ [upd])%list `prefix_of` trace r ∧
      ∀ e, (dbapi upd (replay dbapi (cascade_calls uuid acts eis) st)).1 = Err e →
           r = Out (Err e) (marked_deleted o)
                 (dbapi upd (replay dbapi (cascade_calls uuid acts eis) st)).2
                 (cascade_calls uuid acts eis ++ [upd]).
Proof.
  intros Hu. cbn zeta. unfold soft_delete, cascade_calls.
  mstep (getattr_Some _ _ _ st Hu).
  set (f := by_action_plan_uuid uuid).
  destruct (dbapi (Action_list f) st) as [[acts|e] st1] eqn:El;
    mstep (invoke_eq dbapi (Action_list f) o _ _ _ El); [|left; eauto].
  destruct (for_each_spec dbapi acts Action_soft_delete
              (λ a, invoke dbapi (Action_soft_delete a)) o st1)
    as (Fs & Fd & [n Fn] & Fr).
  { intros x s' st'. destruct (invoke_spec dbapi (Action_soft_delete x) s' st')
      as (_ & H1 & H2 & H3). auto. }
  destruct (for_each acts _ o st1) as [[[]|e] o1 st2 t] eqn:EF; mstep EF;
    cbn [res self_of db_of trace] in *; subst o1.
  2:{ left. split; [|eauto]. rewrite Fn. cbn [forallb is_update_call negb andb].
      by apply forallb_fmap_all. }
  rewrite (Fr eq_refl) in *. clear Fr Fn n.
  mstep (getattr_Some _ _ _ st2 Hu). fold f.
  destruct (dbapi (EfficacyIndicator_list f) st2) as [[eis|e] st3] eqn:El2;
    mstep (invoke_eq dbapi (EfficacyIndicator_list f) o _ _ _ El2).
  2:{ left. split; [|eauto]. cbn [forallb is_update_call negb andb].
      rewrite forallb_app. cbn [forallb is_update_call negb andb].
      by rewrite forallb_fmap_all. }
  destruct (for_each_spec dbapi eis EfficacyIndicator_soft_delete
              (λ a, invoke dbapi (EfficacyIndicator_soft_delete a)) o st3)
    as (Gs & Gd & [n Gn] & Gr).
  { intros x s' st'.
    destruct (invoke_spec dbapi (EfficacyIndicator_soft_delete x) s' st')
      as (_ & H1 & H2 & H3). auto. }
  destruct (for_each eis _ o st3) as [[[]|e] o1 st4 t'] eqn:EG; mstep EG;
    cbn [res self_of db_of trace] in *; subst o1.
  2:{ left. split; [|eauto]. rewrite Gn. cbn [forallb is_update_call negb andb].
      rewrite !forallb_app. cbn [forallb is_update_call negb andb].
      by rewrite !forallb_fmap_all. }
  rewrite (Gr eq_refl) in *. clear Gr Gn n.
  mstep (setattr_state_DELETED o st4).
  assert (Hu2 : attrs (marked_deleted o) !! "uuid" = Some uuid).
  { unfold marked_deleted. cbn [attrs]. by rewrite lookup_insert_ne. }
  set (upd := update_action_plan uuid (obj_get_changes (marked_deleted o))).
  assert (Hrep : replay dbapi
                   (Action_list f :: (Action_soft_delete <$> acts) ++
                      EfficacyIndicator_list f ::
                      (EfficacyIndicator_soft_delete <$> eis)) st = st4).
  { cbn [replay]. rewrite El. cbn [snd].
    rewrite replay_app, <- Fd. cbn [replay]. rewrite El2. cbn [snd].
    by rewrite <- Gd. }
  right. exists acts, eis. rewrite Hrep.
  destruct (save_spec dbapi (marked_deleted o) st4 uuid Hu2) as (St & _).
  fold upd in St. split.
  - destruct (save dbapi (marked_deleted o) st4) as [rs o3 st5 ts] eqn:ES.
    cbn [trace] in St. subst ts.
    destruct rs as [[]|e]; mstep ES; lnorm; prefix_tac.
  - intros e He. mstep (save_raises (marked_deleted o) st4 uuid e Hu2 He).
    by lnorm.
Qed.

(** The last stage of a [soft_delete]: the soft delete of the plan's row
    is issued only after a [save] that succeeded, to the uuid of the row
    that the update returned; when the storage raises on it, the object
    is what the [save] left. *)
Lemma soft_delete_last_stage (o : aobj) (st : store) uuid :
  attrs o !! "uuid" = Some uuid →
  let r := soft_delete dbapi o st in
  let updates := obj_get_changes (marked_deleted o) in
  (forallb (λ c, negb (is_plan_soft_delete c)) (trace r) = true ∧
   ∃ e, res r = Err e)
  ∨ ∃ acts eis uuid' db_obj1 st5,
      trace r = soft_delete_calls uuid acts eis updates uuid' ∧
      dbapi (update_action_plan uuid updates)
            (replay dbapi (cascade_calls uuid acts eis) st) = (Ok db_obj1, st5) ∧
      db_obj1 !! "uuid" = Some uuid' ∧
      accepts column_fields db_obj1 = true ∧
      db_of r = (dbapi (soft_delete_action_plan uuid') st5).2 ∧
      ∀ e, (dbapi (soft_delete_action_plan uuid') st5).1 = Err e →
           res r = Err e ∧
           self_of r = AObj (columns_of db_obj1 ∪ attrs (marked_deleted o)) ∅.
Proof.
  intros Hu. cbn zeta. unfold soft_delete, soft_delete_calls, cascade_calls.
  mstep (getattr_Some _ _ _ st Hu).
  set (f := by_action_plan_uuid uuid).
  destruct (dbapi (Action_list f) st) as [[acts|e] st1] eqn:El;
    mstep (invoke_eq dbapi (Action_list f) o _ _ _ El); [|left; eauto].
  destruct (for_each_spec dbapi acts Action_soft_delete
              (λ a, invoke dbapi (Action_soft_delete a)) o st1)
    as (Fs & Fd & [n Fn] & Fr).
  { intros x s' st'. destruct (invoke_spec dbapi (Action_soft_delete x) s' st')
      as (_ & H1 & H2 & H3). auto. }
  destruct (for_each acts _ o st1) as [[[]|e] o1 st2 t] eqn:EF; mstep EF;
    cbn [res self_of db_of trace] in *; subst o1.
  2:{ left. split; [|eauto]. rewrite Fn. cbn [forallb is_plan_soft_delete negb andb].
      by apply forallb_fmap_all. }
  rewrite (Fr eq_refl) in *. clear Fr Fn n.
  mstep (getattr_Some _ _ _ st2 Hu). fold f.
  destruct (dbapi (EfficacyIndicator_list f) st2) as [[eis|e] st3] eqn:El2;
    mstep (invoke_eq dbapi (EfficacyIndicator_list f) o _ _ _ El2).
  2:{ left. split; [|eauto]. cbn [forallb is_plan_soft_delete negb andb].
      rewrite forallb_app. cbn [forallb is_plan_soft_delete negb andb].
      by rewrite forallb_fmap_all. }
  destruct (for_each_spec dbapi eis EfficacyIndicator_soft_delete
              (λ a, invoke dbapi (EfficacyIndicator_soft_delete a)) o st3)
    as (Gs & Gd & [n Gn] & Gr).
  { intros x s' st'.
    destruct (invoke_spec dbapi (EfficacyIndicator_soft_delete x) s' st')
      as (_ & H1 & H2 & H3). auto. }
  destruct (for_each eis _ o st3) as [[[]|e] o1 st4 t'] eqn:EG; mstep EG;
    cbn [res self_of db_of trace] in *; subst o1.
  2:{ left. split; [|eauto]. rewrite Gn. cbn [forallb is_plan_soft_delete negb andb].
      rewrite !forallb_app. cbn [forallb is_plan_soft_delete negb andb].
      by rewrite !forallb_fmap_all. }
  rewrite (Gr eq_refl) in *. clear Gr Gn n.
  mstep (setattr_state_DELETED o st4).
  assert (Hu2 : attrs (marked_deleted o) !! "uuid" = Some uuid).
  { unfold marked_deleted. cbn [attrs]. by rewrite lookup_insert_ne. }
  set (upd := update_action_plan uuid (obj_get_changes (marked_deleted o))).
  assert (Hrep : replay dbapi
                   (Action_list f :: (Action_soft_delete <$> acts) ++
                      EfficacyIndicator_list f ::
                      (EfficacyIndicator_soft_delete <$> eis)) st = st4).
  { cbn [replay]. rewrite El. cbn [snd].
    rewrite replay_app, <- Fd. cbn [replay]. rewrite El2. cbn [snd].
    by rewrite <- Gd. }
  destruct (save_spec dbapi (marked_deleted o) st4 uuid Hu2) as (St & Sd & _ & Sr & Sv).
  fold upd in St, Sd, Sr, Sv.
  destruct (save dbapi (marked_deleted o) st4) as [rs o3 st5 ts] eqn:ES.
  cbn [res self_of db_of trace] in *. subst ts st5.
  destruct rs as [[]|e]; mstep ES.
  2:{ left. split; [|eauto]. lnorm.
      repeat (rewrite forallb_app || cbn [forallb is_plan_soft_delete negb andb]).
      by rewrite !forallb_fmap_all. }
  destruct (proj1 Sr eq_refl) as (db_obj1 & Hd1 & Hacc1).
  destruct (Sv db_obj1 Hd1 eq_refl) as [Sa Sc].
  destruct (accepts_lookup _ db_obj1 "uuid" Hacc1
              (elem_of_column_fields "uuid" eq_refl)) as [uuid' Hu'].
  assert (Hu3 : attrs o3 !! "uuid" = Some uuid').
  { rewrite Sa, lookup_union, columns_of_lookup.
    rewrite decide_True by exact (elem_of_column_fields "uuid" eq_refl).
    cbn [ret_of] in *. rewrite Hu'.
    by destruct (attrs (marked_deleted o) !! "uuid"). }
  mstep (getattr_Some _ _ _ (dbapi upd st4).2 Hu3).
  right. exists acts, eis, uuid', db_obj1, (dbapi upd st4).2. rewrite Hrep.
  assert (Eo3 : o3 = AObj (columns_of db_obj1 ∪ attrs (marked_deleted o)) ∅).
  { destruct o3 as [a c]. cbn [attrs changed] in *. by subst. }
  set (sd := soft_delete_action_plan uuid').
  destruct (dbapi upd st4) as [ru st5] eqn:Eu. cbn [fst snd] in *. subst ru.
  destruct (dbapi sd st5) as [[db_obj2|e] st6] eqn:Esd;
    mstep (invoke_eq dbapi sd o3 _ _ _ Esd); cbn [fst snd].
  - destruct (on_fresh_lazy_spec dbapi (S:=aobj) db_obj2 o3 st6) as (Ot & Od & Os & Or).
    destruct (on_fresh (_from_db_object dbapi db_obj2 false) o3 st6)
      as [ro o4 st7 t3] eqn:EO; mstep EO; cbn [res self_of db_of trace] in *; subst.
    lnorm. destruct Or as [[Hacc2 ->]|[Hacc2 [e ->]]]; msimpl;
      splits; auto; discriminate.
  - lnorm. splits; auto. by intros e' [= <-].
Qed.
End Failures.

(** [save] on a plan with a uuid, when the storage raises on the update
    (the row is not found, the update is refused): the exception is the
    outcome, the update is the only call, and the object is left as it
    was, its changes still recorded; so a second [save] asks for the same
    update again. *)
Theorem save_that_raises_keeps_the_changes :
  ∀ (store : Type) (dbapi : collaborator store) (o : aobj) (st : store)
    (uuid : value) (e : exn),
    attrs o !! "uuid" = Some uuid →
    let c := update_action_plan uuid (obj_get_changes o) in
    (dbapi c st).1 = Err e →
    let r := save dbapi o st in
    res r = Err e ∧ trace r = [c] ∧ self_of r = o ∧ db_of r = (dbapi c st).2 ∧
    trace (save dbapi (self_of r) (db_of r)) = [c].
Proof.
  intros store dbapi o st uuid e Hu c He r. subst r.
  rewrite (save_raises dbapi o st uuid e Hu He). cbn [res self_of db_of trace].
  splits; auto.
  by destruct (save_spec dbapi o (dbapi c st).2 uuid Hu) as (Ht & _).
Qed.

Lemma save_that_raises_keeps_the_changes_witness :
  let o := marked_deleted Faulty.stale in
  let r := save RefStore.dbapi o Sample.st0 in
  res r = Err NotFound ∧ self_of r = o ∧
  obj_get_changes (self_of r) !! "state" = Some (VStr State.DELETED).
Proof.
  cbn zeta.
  destruct (save_that_raises_keeps_the_changes RefStore.store RefStore.dbapi
              (marked_deleted Faulty.stale) Sample.st0
              (VStr "99999999-9999-4999-8999-999999999999") NotFound)
    as (Hr & _ & Hs & _); [reflexivity|vm_compute; reflexivity|].
  split; [exact Hr|]. split; [exact Hs|]. rewrite Hs. vm_compute. reflexivity.
Defined.

(** [create], when the storage raises on the creation (the uuid is
    taken): the exception is the outcome, the creation is the only call
    -- no related object is fetched -- and the object is left as it was,
    with every assigned field still recorded as changed. *)
Theorem create_that_raises_leaves_the_object_as_it_was :
  ∀ (store : Type) (dbapi : collaborator store) (o : aobj) (st : store) (e : exn),
    let c := create_action_plan (obj_get_changes o) in
    (dbapi c st).1 = Err e →
    let r := create dbapi o st in
    res r = Err e ∧ trace r = [c] ∧ self_of r = o ∧ db_of r = (dbapi c st).2.
Proof.
  intros store dbapi o st e c He r. subst r.
  rewrite (create_raises dbapi o st e He). by splits.
Qed.

Lemma create_that_raises_leaves_the_object_as_it_was_witness :
  let r := create RefStore.dbapi Faulty.duplicate Sample.st0 in
  res r = Err AlreadyExists ∧ self_of r = Faulty.duplicate ∧
  db_of r = Sample.st0.
Proof.
  cbn zeta.
  destruct (create_that_raises_leaves_the_object_as_it_was RefStore.store
              RefStore.dbapi Faulty.duplicate Sample.st0 AlreadyExists)
    as (Hr & _ & Hs & Hd); [vm_compute; reflexivity|].
  split; [exact Hr|]. split; [exact Hs|]. rewrite Hd. vm_compute. reflexivity.
Defined.



(** [soft_delete] on a plan with a uuid marks the object before it
    saves.  A run either stops in the cascade -- it raises, no update was
    issued, and the object is as it was -- or gets through the cascade
    and issues the update of the plan's row; when the storage raises on
    that update, the exception is the outcome, the update is the last
    call (the row is never soft-deleted in storage), and the object is
    left marked: its state reads DELETED and is recorded as an unsaved
    change, although the stored row was not changed by this method. *)
Theorem soft_delete_marks_the_object_before_saving :
  ∀ (store : Type) (dbapi : collaborator store) (o : aobj) (st : store)
    (uuid : value),
    attrs o !! "uuid" = Some uuid →
    let r := soft_delete dbapi o st in
    let upd := update_action_plan uuid (obj_get_changes (marked_deleted o)) in
    (forallb (λ c, negb (is_update_call c)) (trace r) = true ∧
     (∃ e, res r = Err e) ∧ self_of r = o)
    ∨ ∃ acts eis,
        let st4 := replay dbapi (cascade_calls uuid acts eis) st in
        (cascade_calls uuid acts eis ++ [upd])%list `prefix_of` trace r ∧
        ∀ e, (dbapi upd st4).1 = Err e →
             res r = Err e ∧
             trace r = (cascade_calls uuid acts eis ++ [upd])%list ∧
             db_of r = (dbapi upd st4).2 ∧
             self_of r = marked_deleted o ∧
             attrs (self_of r) !! "state" = Some (VStr State.DELETED) ∧
             "state" ∈ changed (self_of r).
Proof.
  intros store dbapi o st uuid Hu. cbn zeta.
  destruct (soft_delete_stages dbapi o st uuid Hu)
    as [[Hno He]|(acts & eis & Hp & Hraise)].
  - left. splits; auto. by apply soft_delete_untouched_before_save.
  - right. exists acts, eis. split; [done|]. intros e He.
    rewrite (Hraise e He). cbn [res self_of db_of trace]. splits; auto.
    + unfold marked_deleted. cbn [attrs]. by rewrite lookup_insert_eq.
    + unfold marked_deleted. cbn [changed].
      apply elem_of_union_l. by apply elem_of_singleton.
Qed.

Lemma soft_delete_marks_the_object_before_saving_witness :
  let r := soft_delete Faulty.refusing_updates Sample.loaded Sample.st0 in
  attrs Sample.loaded !! "uuid" = Some (VStr Sample.plan_uuid) ∧
  attrs Sample.loaded !! "state" = Some (VStr State.ONGOING) ∧
  res r = Err StorageFailure ∧
  attrs (self_of r) !! "state" = Some (VStr State.DELETED) ∧
  RefStore.plans (db_of r) = RefStore.plans Sample.st0.
Proof.
  cbn zeta. split; [reflexivity|]. split; [reflexivity|].
  destruct (soft_delete_marks_the_object_before_saving RefStore.store
              Faulty.refusing_updates Sample.loaded Sample.st0
              (VStr Sample.plan_uuid) eq_refl)
    as [(Hno & _)|(acts & eis & _ & Hraise)].
  - exfalso. vm_compute in Hno. discriminate.
  - destruct (Hraise StorageFailure eq_refl) as (Hr & _ & _ & _ & Hs & _).
    split; [exact Hr|]. split; [exact Hs|]. vm_compute. reflexivity.
Defined.

(** [soft_delete] on a plan with a uuid asks for the soft delete of the
    plan's row last, and only after a [save] that succeeded.  A run
    either raises without having asked for it, or issued the whole
    sequence of calls, the last one addressed to the uuid of the row that
    the update returned.  When the storage raises on that last call, the
    exception is the outcome, and the object is what the [save] left:
    the columns of the updated row over its earlier fields, and no change
    recorded -- the state DELETED was stored although the row was not
    soft-deleted. *)
Theorem soft_delete_asks_for_the_row_last :
  ∀ (store : Type) (dbapi : collaborator store) (o : aobj) (st : store)
    (uuid : value),
    attrs o !! "uuid" = Some uuid →
    let r := soft_delete dbapi o st in
    let updates := obj_get_changes (marked_deleted o) in
    (forallb (λ c, negb (is_plan_soft_delete c)) (trace r) = true ∧
     ∃ e, res r = Err e)
    ∨ ∃ acts eis uuid' db_obj1 st5,
        trace r = soft_delete_calls uuid acts eis updates uuid' ∧
        dbapi (update_action_plan uuid updates)
              (replay dbapi (cascade_calls uuid acts eis) st) = (Ok db_obj1, st5) ∧
        db_obj1 !! "uuid" = Some uuid' ∧
        db_of r = (dbapi (soft_delete_action_plan uuid') st5).2 ∧
        ∀ e, (dbapi (soft_delete_action_plan uuid') st5).1 = Err e →
             res r = Err e ∧
             changed (self_of r) = ∅ ∧
             (∀ f, f ∈ column_fields → attrs (self_of r) !! f = db_obj1 !! f) ∧
             (∀ f, f ∉ column_fields → attrs (self_of r) !! f = attrs o !! f).
Proof.
  intros store dbapi o st uuid Hu. cbn zeta.
  destruct (soft_delete_last_stage dbapi o st uuid Hu)
    as [Hno|(acts & eis & uuid' & d1 & st5 & Ht & Hupd & Hu' & Hacc & Hd & Hraise)].
  - by left.
  - right. exists acts, eis, uuid', d1, st5. splits; auto.
    intros e He. destruct (Hraise e He) as [Hr ->]. cbn [attrs changed].
    splits; auto.
    + intros f Hf. rewrite lookup_union, columns_of_lookup, decide_True by done.
      destruct (accepts_lookup _ d1 f Hacc Hf) as [v Hv].
      cbn [ret_of] in *. rewrite Hv.
      by destruct (attrs (marked_deleted o) !! f).
    + intros f Hf. rewrite lookup_union, columns_of_lookup, decide_False by done.
      unfold marked_deleted. cbn [attrs]. rewrite lookup_insert_ne.
      * by destruct (attrs o !! f).
      * intros <-. apply Hf. exact (elem_of_column_fields "state" eq_refl).
Qed.

Lemma soft_delete_asks_for_the_row_last_witness :
  let r := soft_delete Faulty.refusing_soft_delete Sample.loaded Sample.st0 in
  attrs Sample.loaded !! "uuid" = Some (VStr Sample.plan_uuid) ∧
  res r = Err StorageFailure ∧
  changed (self_of r) = ∅ ∧
  attrs (self_of r) !! "state" = Some (VStr State.DELETED) ∧
  (RefStore.find_plan "uuid" (VStr Sample.plan_uuid) (RefStore.plans (db_of r))
     ≫= λ p, Some (RefStore.p_columns p !! "state", RefStore.p_deleted p))
  = Some (Some (VStr State.DELETED), false).
Proof.
  cbn zeta. split; [reflexivity|].
  destruct (soft_delete_asks_for_the_row_last RefStore.store
              Faulty.refusing_soft_delete Sample.loaded Sample.st0
              (VStr Sample.plan_uuid) eq_refl)
    as [(Hno & _)|(acts & eis & uuid' & d1 & st5 & _ & _ & _ & _ & Hraise)].
  - exfalso. vm_compute in Hno. discriminate.
  - destruct (Hraise StorageFailure eq_refl) as (Hr & Hc & _).
    split; [exact Hr|]. split; [exact Hc|]. split; vm_compute; reflexivity.
Defined.

(** ** What the two deletions never do *)

Lemma soft_delete_calls_no_destroy uuid acts eis updates uuid' :
  forallb (λ c, negb (is_destroy_call c))
    (soft_delete_calls uuid acts eis updates uuid') = true.
Proof.
  unfold soft_delete_calls, cascade_calls.
  cbn [forallb is_destroy_call negb andb].
  repeat (rewrite forallb_app || cbn [forallb is_destroy_call negb andb]).
  by rewrite !forallb_fmap_all.
Qed.

Lemma destroy_calls_no_soft_delete uuid eis :
  forallb (λ c, negb (is_soft_delete_call c || is_update_call c || is_action_call c))
    (destroy_calls uuid eis) = true.
Proof.
  unfold destroy_calls.
  cbn [forallb is_soft_delete_call is_update_call is_action_call negb andb orb].
  rewrite forallb_app. by rewrite forallb_fmap_all.
Qed.

Lemma update_in_soft_delete_calls_uuid uuid acts eis updates uuid' u upd :
  update_action_plan u upd ∈ soft_delete_calls uuid acts eis updates uuid' →
  u = uuid.
Proof.
  unfold soft_delete_calls. intros [H|H]%elem_of_app.
  - pose proof (cascade_calls_no_update uuid acts eis) as Hno.
    rewrite forallb_forall in Hno. apply list_elem_of_In, Hno in H. discriminate.
  - apply elem_of_cons in H as [H|H]; [by injection H|].
    apply elem_of_cons in H as [H|H]; [discriminate|]. by apply not_elem_of_nil in H.
Qed.

(** [soft_delete] removes nothing for good -- it issues no destruction,
    of the plan's row or of an indicator -- and [destroy] marks nothing:
    it issues no soft delete, no update, and no call about actions. *)
Theorem soft_delete_destroys_nothing_and_destroy_marks_nothing :
  ∀ (store : Type) (dbapi : collaborator store) (o : aobj) (st : store),
    forallb (λ c, negb (is_destroy_call c)) (trace (soft_delete dbapi o st)) = true ∧
    forallb (λ c, negb (is_soft_delete_call c || is_update_call c || is_action_call c))
      (trace (destroy dbapi o st)) = true.
Proof.
  intros store dbapi o st. destruct (attrs o !! "uuid") as [uuid|] eqn:Hu.
  - split.
    + destruct (soft_delete_spec dbapi o st uuid Hu) as (acts & eis & uuid' & Hp & _).
      eapply forallb_prefix; [exact Hp|]. apply soft_delete_calls_no_destroy.
    + destruct (destroy_spec dbapi o st uuid Hu) as (eis & Hp & _).
      eapply forallb_prefix; [exact Hp|]. apply destroy_calls_no_soft_delete.
  - by rewrite (soft_delete_unset dbapi o st Hu), (destroy_unset dbapi o st Hu).
Qed.

(** The update that [soft_delete] issues is addressed to the object's
    uuid and is the whole change set of the object at that point: state =
    DELETED, overriding any state that was pending, together with every
    other change that was pending on the object, with its value -- a
    [soft_delete] also saves the edits made before it -- and no field
    that was not changed. *)
Theorem soft_delete_saves_the_pending_changes_too :
  ∀ (store : Type) (dbapi : collaborator store) (o : aobj) (st : store)
    (u : value) (upd : gmap string value),
    update_action_plan u upd ∈ trace (soft_delete dbapi o st) →
    attrs o !! "uuid" = Some u ∧
    upd !! "state" = Some (VStr State.DELETED) ∧
    ∀ f, f ≠ "state" → upd !! f = obj_get_changes o !! f.
Proof.
  intros store dbapi o st u upd Hin.
  destruct (attrs o !! "uuid") as [uuid|] eqn:Hu.
  2:{ rewrite (soft_delete_unset dbapi o st Hu) in Hin. cbn in Hin.
      by apply not_elem_of_nil in Hin. }
  destruct (soft_delete_spec dbapi o st uuid Hu) as (acts & eis & uuid' & Hp & _).
  apply (elem_of_prefix _ _ _ Hp) in Hin.
  apply update_in_soft_delete_calls_uuid in Hin as Hu'.
  apply update_in_soft_delete_calls in Hin as ->. subst u.
  splits; auto.
  - apply marked_deleted_state.
  - intros f Hf. rewrite !obj_get_changes_lookup. unfold marked_deleted.
    cbn [attrs changed]. rewrite lookup_insert_ne by done.
    destruct (decide (f ∈ changed o)) as [Hin'|Hin'].
    + rewrite decide_True; [done|]. by apply elem_of_union_r.
    + rewrite decide_False; [done|].
      intros [Hs|Hc]%elem_of_union; [|done]. apply elem_of_singleton in Hs. done.
Qed.

Lemma soft_delete_saves_the_pending_changes_too_witness :
  let edited := self_of (setattr "first_action_id" (VInt 7)
                           Sample.loaded Sample.st0) in
  ∃ upd,
    update_action_plan (VStr Sample.plan_uuid) upd
      ∈ trace (soft_delete RefStore.dbapi edited Sample.st0) ∧
    upd !! "state" = Some (VStr State.DELETED) ∧
    upd !! "first_action_id" = Some (VInt 7).
Proof.
  cbn zeta.
  set (edited := self_of (setattr "first_action_id" (VInt 7)
                            Sample.loaded Sample.st0)).
  set (upd := obj_get_changes (marked_deleted edited)).
  assert (Hin : update_action_plan (VStr Sample.plan_uuid) upd
                ∈ trace (soft_delete RefStore.dbapi edited Sample.st0)).
  { apply (bool_decide_unpack _). vm_compute. exact I. }
  exists upd. split; [exact Hin|].
  destruct (soft_delete_saves_the_pending_changes_too RefStore.store
              RefStore.dbapi edited Sample.st0 _ _ Hin) as (_ & Hs & Hf).
  split; [exact Hs|]. rewrite Hf by done. vm_compute. reflexivity.
Defined.

(** ** Objects without a uuid, and objects with one change *)

(** The methods that address the plan's row read the object's uuid
    before anything else: on an object whose uuid is not set (a plan that
    was never created or loaded), [save], [destroy], [soft_delete] and
    [refresh] raise on that attribute, without any call -- no dependent
    is listed, nothing is cascaded -- and leave the object as it was. *)
Theorem methods_on_the_row_need_the_uuid :
  ∀ (store : Type) (dbapi : collaborator store) (o : aobj) (st : store)
    (eager : bool),
    attrs o !! "uuid" = None →
    save dbapi o st = Out (Err (AttributeNotSet "uuid")) o st [] ∧
    destroy dbapi o st = Out (Err (AttributeNotSet "uuid")) o st [] ∧
    soft_delete dbapi o st = Out (Err (AttributeNotSet "uuid")) o st [] ∧
    refresh dbapi eager o st = Out (Err (AttributeNotSet "uuid")) o st [].
Proof.
  intros store dbapi o st eager Hu. splits.
  - by apply save_unset.
  - by apply destroy_unset.
  - by apply soft_delete_unset.
  - by apply refresh_unset.
Qed.

Lemma methods_on_the_row_need_the_uuid_witness :
  attrs Sample.transient1 !! "uuid" = None ∧
  trace (soft_delete RefStore.dbapi Sample.transient1 Sample.st0) = [] ∧
  self_of (destroy RefStore.dbapi Sample.transient1 Sample.st0) = Sample.transient1.
Proof.
  destruct (methods_on_the_row_need_the_uuid RefStore.store RefStore.dbapi
              Sample.transient1 Sample.st0 false eq_refl) as (_ & Hd & Hs & _).
  split; [reflexivity|]. by rewrite Hs, Hd.
Defined.

(** Load, assign, save: on an object with a uuid and no change recorded,
    after one field is assigned, [save] asks the storage for the update of
    that field alone, with the value assigned.  The row is addressed by
    the uuid the object has when [save] runs: the one it was loaded with,
    unless the field assigned is the uuid itself, in which case the update
    goes to the new uuid. *)
Theorem assign_then_save_updates_that_field_alone :
  ∀ (store : Type) (dbapi : collaborator store) (o : aobj) (st : store)
    (F : string) (v uuid : value),
    changed o = ∅ →
    attrs o !! "uuid" = Some uuid →
    res (setattr F v o st) = Ok tt →
    let o' := self_of (setattr F v o st) in
    trace (save dbapi o' st)
    = [update_action_plan (if decide (F = "uuid") then v else uuid) {[ F := v ]}].
Proof.
  intros store dbapi o st F v uuid Hc Hu Hr. cbn zeta.
  pose proof (changes_after_setattr F v o st Hc Hr) as Hchg.
  destruct (setattr_spec F v o st) as (_ & _ & Hs).
  destruct Hs as [(f & _ & _ & _ & Hself)|((e & He) & _)]; [|congruence].
  assert (Hu' : attrs (self_of (setattr F v o st)) !! "uuid"
                = Some (if decide (F = "uuid") then v else uuid)).
  { rewrite Hself. cbn [attrs]. destruct (decide (F = "uuid")) as [->|Hne].
    - by rewrite lookup_insert_eq.
    - by rewrite lookup_insert_ne. }
  destruct (save_spec dbapi _ st _ Hu') as (Ht & _).
  by rewrite Ht, Hchg.
Qed.

Lemma assign_then_save_updates_that_field_alone_witness :
  changed Sample.loaded = ∅ ∧
  trace (save RefStore.dbapi
           (self_of (setattr "state" (VStr State.CANCELLED)
                       Sample.loaded Sample.st0)) Sample.st0)
  = [update_action_plan (VStr Sample.plan_uuid)
       {[ "state" := VStr State.CANCELLED ]}].
Proof.
  split; [reflexivity|].
  exact (assign_then_save_updates_that_field_alone RefStore.store RefStore.dbapi
           Sample.loaded Sample.st0 "state" (VStr State.CANCELLED)
           (VStr Sample.plan_uuid) eq_refl eq_refl eq_refl).
Defined.

(** ** The two tables of the schema *)

(** [fields] and [object_fields] agree: every relationship of
    [object_fields] is declared in [fields] as a nullable object field of
    the class that [object_fields] names, and is keyed by a declared
    integer column that is not nullable; the relationships are not
    columns, and the names of [fields] are pairwise distinct. *)
Theorem relationships_are_keyed_by_required_columns :
  NoDup fields.*1 ∧
  ∀ name cls rel_id,
    (name, (cls, rel_id)) ∈ object_fields →
    assoc name fields = Some (Field (ObjectField cls) true) ∧
    assoc rel_id fields = Some (Field IntegerField false) ∧
    rel_id ∈ column_fields ∧ name ∉ column_fields.
Proof.
  split; [apply (bool_decide_unpack _); vm_compute; exact I|].
  intros name cls rel_id Hin. unfold object_fields in Hin.
  repeat (apply elem_of_cons in Hin as [[= -> -> ->]|Hin]);
    [| |by apply not_elem_of_nil in Hin];
    (split; [reflexivity|]); (split; [reflexivity|]); split;
    first [ apply elem_of_column_fields; reflexivity
          | apply not_elem_of_column_fields; reflexivity ].
Qed.
